(** * Subscription analytics and recommendation engine

    A shallow embedding of the analytics computation of
    [src/hooks/useSubscriptions.ts] (the [analytics] memo) and of the
    score-based classifier of the smart-notifications module
    ([generateRecommendation]), together with the properties stated about
    them.

    Conventions of the embedding:
    - a JavaScript [number] holding money is an exact rational ([Q]); the
      properties stated on rationals are those that do not depend on how
      the additions are grouped or rounded. Where a property does depend
      on it, the computation is written with the arithmetic as a
      parameter ([Number.t]) and read both on exact rationals and on the
      IEEE binary64 numbers of JavaScript ([Number.binary64]). The
      cost-per-use input of the classifier, which the code sets to
      [Infinity], is an extended rational;
    - a [Date] is its [getTime()] value, an integer count of milliseconds
      since the epoch, read in UTC; ISO strings held by a subscription are
      taken after [new Date(..)] / [parseISO(..)];
    - an object literal [{}] used as a dictionary is its own properties (a
      [gmap string _]) together with what it inherits from
      [Object.prototype]: see [JsObject];
    - [Array.prototype.sort] is the stable sort required by ECMAScript 2019. *)

From Stdlib Require Import ZArith QArith Qminmax List Permutation Lia Lqa Bool Floats.
From stdpp Require Import base strings gmap fin_maps.
Import ListNotations.

Local Open Scope Z_scope.

(** ** The date-fns functions used by the engine (UTC model) *)
Module DateFns.

Definition Date := Z.

Definition msPerDay : Z := 86400000.

(** Number of the calendar day holding the instant (day 0 = 1970-01-01). *)
Definition dayNumber (d : Date) : Z := d / msPerDay.

Definition timeOfDay (d : Date) : Z := d mod msPerDay.

(** Proleptic Gregorian calendar: day number of year [y], month [m]
    (1..12), day of month [d]. *)
Definition days_from_civil (y m d : Z) : Z :=
  let y' := if m <=? 2 then y - 1 else y in
  let era := y' / 400 in
  let yoe := y' - era * 400 in
  let mp := if 2 <? m then m - 3 else m + 9 in
  let doy := (153 * mp + 2) / 5 + d - 1 in
  let doe := yoe * 365 + yoe / 4 - yoe / 100 + doy in
  era * 146097 + doe - 719468.

(** Inverse: year, month (1..12) and day of month of a day number. *)
Definition civil_from_days (z : Z) : Z * Z * Z :=
  let z' := z + 719468 in
  let era := z' / 146097 in
  let doe := z' - era * 146097 in
  let yoe := (doe - doe / 1460 + doe / 36524 - doe / 146096) / 365 in
  let doy := doe - (365 * yoe + yoe / 4 - yoe / 100) in
  let mp := (5 * doy + 2) / 153 in
  let d := doy - (153 * mp + 2) / 5 + 1 in
  let m := if mp <? 10 then mp + 3 else mp - 9 in
  let y := yoe + era * 400 in
  ((if m <=? 2 then y + 1 else y), m, d).

Definition getFullYear (d : Date) : Z :=
  let '(y, _, _) := civil_from_days (dayNumber d) in y.

(** [Date.prototype.getMonth]: 0 = January. *)
Definition getMonth (d : Date) : Z :=
  let '(_, m, _) := civil_from_days (dayNumber d) in m - 1.

Definition getDate (d : Date) : Z :=
  let '(_, _, dd) := civil_from_days (dayNumber d) in dd.

(** [Date.prototype.getDay]: 0 = Sunday; 1970-01-01 was a Thursday. *)
Definition getDay (d : Date) : Z := (dayNumber d + 4) mod 7.

Definition isSameYear (a b : Date) : bool :=
  getFullYear a =? getFullYear b.

(** date-fns compares the year as well as the month. *)
Definition isSameMonth (a b : Date) : bool :=
  (getFullYear a =? getFullYear b) && (getMonth a =? getMonth b).

(** Number of days of month index [mi] = 12 * year + month0. *)
Definition daysInMonthIndex (mi : Z) : Z :=
  days_from_civil ((mi + 1) / 12) ((mi + 1) mod 12 + 1) 1
  - days_from_civil (mi / 12) (mi mod 12 + 1) 1.

(** [addMonths]: same day of month in the target month, clamped to the
    last day of that month; the time of day is kept. *)
Definition addMonths (d : Date) (amount : Z) : Date :=
  if amount =? 0 then d
  else
    let mi := getFullYear d * 12 + getMonth d + amount in
    let dim := daysInMonthIndex mi in
    let dom := if dim <=? getDate d then dim else getDate d in
    days_from_civil (mi / 12) (mi mod 12 + 1) dom * msPerDay + timeOfDay d.

Definition subMonths (d : Date) (amount : Z) : Date := addMonths d (- amount).

Definition addDays (d : Date) (amount : Z) : Date := d + amount * msPerDay.

Definition addWeeks (d : Date) (amount : Z) : Date := addDays d (amount * 7).

Definition subWeeks (d : Date) (amount : Z) : Date := addWeeks d (- amount).

(** [startOfWeek(d, { weekStartsOn })]: midnight of the latest day, not
    after [d], whose week day is [weekStartsOn]. *)
Definition startOfWeek (d : Date) (weekStartsOn : Z) : Date :=
  let day := getDay d in
  let diff := (if day <? weekStartsOn then 7 else 0) + day - weekStartsOn in
  (dayNumber d - diff) * msPerDay.

(** [differenceInDays(left, right)]: full days between the two instants,
    truncated towards zero. *)
Definition differenceInDays (dateLeft dateRight : Date) : Z :=
  Z.quot (dateLeft - dateRight) msPerDay.

(** [format(d, 'MMM')]. *)
Definition formatMMM (d : Date) : string :=
  match getMonth d with
  | 0 => "Jan" | 1 => "Feb" | 2 => "Mar" | 3 => "Apr"
  | 4 => "May" | 5 => "Jun" | 6 => "Jul" | 7 => "Aug"
  | 8 => "Sep" | 9 => "Oct" | 10 => "Nov" | _ => "Dec"
  end%string.

(** Instant of 00:00 UTC on a calendar day, for writing examples. *)
Definition utc (y m d : Z) : Date := days_from_civil y m d * msPerDay.

End DateFns.

Import DateFns.

(** ** Data model ([src/types/index.ts]) *)

Module PricePoint.
(** An entry of [price_history]: [{ date; cost }]. *)
Record t : Type := mk { date : Date; cost : Q }.
End PricePoint.

Module Subscription.
(** The fields of [Subscription] read by the engine. [billing_cycle] is
    kept a string: the data comes from storage, and the code has a
    fall-through for any other value. Optional and nullable fields are
    options ([None] for [undefined], [null] and the empty string). *)
Record t : Type := mk {
  id : string;
  name : string;
  cost : Q;
  billing_cycle : string;
  next_renewal_date : Date;
  category : string;
  is_active : bool;
  cancellation_date : option Date;
  last_used_date : option Date;
  value_rating : option Z;
  created_at : Date;
  price_history : option (list PricePoint.t)
}.

(** The same record with another [is_active] flag. *)
Definition with_is_active (b : bool) (s : t) : t :=
  mk (id s) (name s) (cost s) (billing_cycle s) (next_renewal_date s)
     (category s) b (cancellation_date s) (last_used_date s)
     (value_rating s) (created_at s) (price_history s).
End Subscription.

Module Insight.
Inductive kind : Type :=
| low_value | underutilized | price_increase | duplicate_category.

Definition kind_eqb (a b : kind) : bool :=
  match a, b with
  | low_value, low_value
  | underutilized, underutilized
  | price_increase, price_increase
  | duplicate_category, duplicate_category => true
  | _, _ => false
  end.

(** The [reason] template strings, with the values they interpolate. *)
Inductive reason_text : Type :=
| YouRatedThis (rating : Z)          (* You rated this ${rating}/5 stars. *)
| NotUsedInOverAMonth                (* Not used in over a month. *)
| PriceIncreasedFrom (baseline : Q)  (* Price increased from $${baseline}. *)
| MultipleSubsIn (category : string) (* You have multiple subs in '${category}'. *).

Record t : Type := mk {
  id : string;
  subscription : Subscription.t;
  type : kind;
  title : string;
  reason : reason_text;
  potential_savings : Q
}.
End Insight.

Module HistoryPoint.
(** An entry of [historicalData]: [{ name; cost }]. *)
Record t : Type := mk { name : string; cost : Q }.
End HistoryPoint.

Module WithIncrease.
(** [{ ...s, increase }]: a subscription carrying its price increase. *)
Record t : Type := mk { base : Subscription.t; increase : Q }.
End WithIncrease.

(** ** Objects used as dictionaries *)

Module JsObject.

(** What a property read from such an object can hold: a number, the
    string that [+] builds once one operand is not a number, or a built-in
    the object inherits (a function, or the prototype itself under
    [__proto__]). *)
Inductive value (A : Type) : Type :=
| Num (a : A)
| Text
| Builtin.

Arguments Num {A} a.
Arguments Text {A}.
Arguments Builtin {A}.

(** The own properties of an object created by [{}]. *)
Abbreviation t A := (gmap string (value A)).

(** The property names of [Object.prototype]. *)
Definition prototype_names : list string :=
  ["constructor"; "__defineGetter__"; "__defineSetter__"; "hasOwnProperty";
   "__lookupGetter__"; "__lookupSetter__"; "isPrototypeOf"; "propertyIsEnumerable";
   "toString"; "valueOf"; "__proto__"; "toLocaleString"]%string.

Definition inherited (k : string) : bool := existsb (String.eqb k) prototype_names.

(** [o[k]]: the own property, else the inherited one, else [undefined]
    ([None]). *)
Definition get {A : Type} (o : t A) (k : string) : option (value A) :=
  match o !! k with
  | Some v => Some v
  | None => if inherited k then Some Builtin else None
  end.

(** [o[k] = v] for a [v] that is a number or a string: the setter of
    [__proto__] ignores such a value, any other name becomes an own
    property. *)
Definition set {A : Type} (o : t A) (k : string) (v : value A) : t A :=
  if String.eqb k "__proto__" then o else <[k := v]> o.

(** [(v || 0) + x]: [undefined] and the falsy numbers read as 0; a
    built-in or a string is truthy, and [+] then builds a string. *)
Definition or_zero_plus {A : Type} (truthy : A -> bool) (zero : A) (add : A -> A -> A)
    (v : option (value A)) (x : A) : value A :=
  match v with
  | None => Num (add zero x)
  | Some (Num a) => Num (add (if truthy a then a else zero) x)
  | Some Text => Text
  | Some Builtin => Text
  end.

(** [v > n] on a count: false for [undefined] and for what does not
    convert to a number. *)
Definition exceeds (v : option (value Z)) (n : Z) : bool :=
  match v with
  | Some (Num m) => (n <? m)%Z
  | _ => false
  end.

End JsObject.

(** ** The arithmetic of JavaScript numbers *)

Module Number.

(** The operations the engine applies to amounts, and how an amount held
    by a subscription is read. *)
Record t : Type := mk {
  num : Type;
  of_Q : Q -> num;
  zero : num;
  add : num -> num -> num;
  mul : num -> num -> num;
  div : num -> num -> num;
  truthy : num -> bool
}.

(** Exact arithmetic on rationals. *)
Definition exact : t :=
  mk Q (fun q => q) 0%Q Qplus Qmult Qdiv (fun q => negb (Qeq_bool q 0)).

(** The binary64 number nearest to a rational of numerator and
    denominator below 2^53: the quotient, rounded once, of two integers
    held exactly. *)
Definition float_of_Q (q : Q) : float :=
  let n := PrimFloat.of_uint63 (Uint63.of_Z (Z.abs (Qnum q))) in
  let d := PrimFloat.of_uint63 (Uint63.of_Z (Zpos (Qden q))) in
  if (Qnum q <? 0)%Z then PrimFloat.opp (PrimFloat.div n d) else PrimFloat.div n d.

(** The numbers of JavaScript: IEEE 754 binary64, rounding to nearest,
    ties to even; [0], [-0] and [NaN] are falsy. *)
Definition binary64 : t :=
  mk float float_of_Q PrimFloat.zero PrimFloat.add PrimFloat.mul PrimFloat.div
    (fun x => negb (PrimFloat.eqb x PrimFloat.zero || PrimFloat.is_nan x)).

(** What exact arithmetic offers and rounding does not: additions can be
    regrouped. *)
Record Exact (N : t) (eqv : num N -> num N -> Prop) : Prop := mkExact {
  eqv_equivalence : Equivalence eqv;
  add_proper : forall a a' b b', eqv a a' -> eqv b b' -> eqv (add N a b) (add N a' b');
  add_assoc : forall a b c, eqv (add N (add N a b) c) (add N a (add N b c));
  add_comm : forall a b, eqv (add N a b) (add N b a);
  add_zero_l : forall a, eqv (add N (zero N) a) a;
  falsy_zero : forall a, truthy N a = false -> eqv a (zero N)
}.

End Number.

Module Analytics.
(** The object returned by the [analytics] memo. *)
Record t : Type := mk {
  totalMonthlyCost : Q;
  lastMonthCost : Q;
  upcomingRenewals : list Subscription.t;
  categoryBreakdown : JsObject.t Q;
  historicalData : list HistoryPoint.t;
  largestIncrease : option WithIncrease.t;
  biggestSaving : option Subscription.t;
  mindfulStreak : Z;
  subscriptionOfTheMonth : option Subscription.t;
  lowValueSubs : list Subscription.t;
  recommendations : list Insight.t;
  lastWeekCost : Q
}.
End Analytics.

(** ** JavaScript array and value helpers *)

Module Js.

Section Sort.
Context {A : Type}.
(** [compareFn a b < 0]: [a] goes first; [= 0]: input order is kept. *)
Variable compareFn : A -> A -> Q.

Fixpoint insert (x : A) (sorted : list A) : list A :=
  match sorted with
  | [] => [x]
  | y :: rest =>
      if Qle_bool (compareFn x y) 0 then x :: y :: rest
      else y :: insert x rest
  end.

(** [Array.prototype.sort(compareFn)], stable. *)
Fixpoint sort (l : list A) : list A :=
  match l with
  | [] => []
  | x :: rest => insert x (sort rest)
  end.
End Sort.

(** Truthiness of an optional number: [null], [undefined] and [0] are
    falsy. *)
Definition truthy (o : option Z) : bool :=
  match o with
  | Some r => negb (r =? 0)
  | None => false
  end.

(** [Array.prototype.reduce] with an initial value. *)
Definition reduce {A B : Type} (f : B -> A -> B) (init : B) (l : list A) : B :=
  fold_left f l init.

(** Truthiness of an optional string or object. *)
Definition present {A : Type} (o : option A) : bool :=
  match o with
  | Some _ => true
  | None => false
  end.

(** [Array.prototype.some]. *)
Definition some {A : Type} (p : A -> bool) (l : list A) : bool := existsb p l.

End Js.

(** ** The analytics memo of [src/hooks/useSubscriptions.ts] *)

Module useSubscriptions.

Import Subscription.
Local Open Scope Q_scope.

(** The default, empty analytics state. *)
Definition initialAnalytics : Analytics.t :=
  {| Analytics.totalMonthlyCost := 0;
     Analytics.lastMonthCost := 0;
     Analytics.upcomingRenewals := [];
     Analytics.categoryBreakdown := ∅;
     Analytics.historicalData := [];
     Analytics.largestIncrease := None;
     Analytics.biggestSaving := None;
     Analytics.mindfulStreak := 0;
     Analytics.subscriptionOfTheMonth := None;
     Analytics.lowValueSubs := [];
     Analytics.recommendations := [];
     Analytics.lastWeekCost := 0 |}.

Definition getMonthlyCost (sub : Subscription.t) : Q :=
  if String.eqb (billing_cycle sub) "monthly" then cost sub
  else if String.eqb (billing_cycle sub) "yearly" then cost sub / 12
  else if String.eqb (billing_cycle sub) "weekly" then (cost sub * 52) / 12
  else 0.

Definition activeSubs (allSubscriptions : list Subscription.t) : list Subscription.t :=
  List.filter (fun s => is_active s) allSubscriptions.

Definition totalMonthlyCost (allSubscriptions : list Subscription.t) : Q :=
  Js.reduce (fun total sub => total + getMonthlyCost sub) 0
            (activeSubs allSubscriptions).

Definition lastMonthCost (now : Date) (allSubscriptions : list Subscription.t) : Q :=
  let lastMonthDate := subMonths now 1 in
  Js.reduce (fun total sub => total + getMonthlyCost sub) 0
    (List.filter
       (fun s =>
          let createdAt := created_at s in
          isSameMonth createdAt lastMonthDate && isSameYear createdAt lastMonthDate)
       allSubscriptions).

Definition upcomingRenewals (now : Date) (allSubscriptions : list Subscription.t)
  : list Subscription.t :=
  List.filter
    (fun sub =>
       let daysUntil := differenceInDays (next_renewal_date sub) now in
       (0 <=? daysUntil)%Z && (daysUntil <=? 7)%Z)
    (activeSubs allSubscriptions).

Definition lastWeekStart (now : Date) : Date := startOfWeek (subWeeks now 1) 1.

Definition lastWeekEnd (now : Date) : Date := addDays (lastWeekStart now) 6.

Definition lastWeekCost (now : Date) (allSubscriptions : list Subscription.t) : Q :=
  Js.reduce (fun sum sub => sum + cost sub) 0
    (List.filter
       (fun s =>
          let renewalDate := next_renewal_date s in
          (lastWeekStart now <=? renewalDate)%Z && (renewalDate <=? lastWeekEnd now)%Z)
       allSubscriptions).

(** [acc[sub.category] = (acc[sub.category] || 0) + getMonthlyCost(sub)]
    on an object that starts as [{}]. *)
Definition categoryBreakdown (allSubscriptions : list Subscription.t) : JsObject.t Q :=
  Js.reduce
    (fun (acc : JsObject.t Q) sub =>
       JsObject.set acc (category sub)
         (JsObject.or_zero_plus (fun q => negb (Qeq_bool q 0)) 0 Qplus
            (JsObject.get acc (category sub)) (getMonthlyCost sub)))
    ∅ (activeSubs allSubscriptions).

Definition historicalData (now : Date) (allSubscriptions : list Subscription.t)
  : list HistoryPoint.t :=
  map (fun i : Z =>
         let month := subMonths now (5 - i) in
         let cost :=
           Js.reduce (fun total sub => total + getMonthlyCost sub) 0
             (List.filter (fun s => (created_at s <=? month)%Z) allSubscriptions) in
         HistoryPoint.mk (formatMMM month) cost)
      (map Z.of_nat (seq 0 6)).

Definition has_price_history (s : Subscription.t) : bool :=
  match price_history s with
  | Some (_ :: _) => true
  | _ => false
  end.

(** [s.cost - s.price_history![0].cost]; the engine only evaluates it on a
    non-empty history (the last branch is not reached). *)
Definition increase_of (s : Subscription.t) : Q :=
  match price_history s with
  | Some (p :: _) => cost s - PricePoint.cost p
  | _ => 0
  end.

Definition largestIncrease (allSubscriptions : list Subscription.t)
  : option WithIncrease.t :=
  hd_error
    (Js.sort (fun a b => WithIncrease.increase b - WithIncrease.increase a)
       (map (fun s => WithIncrease.mk s (increase_of s))
          (List.filter has_price_history (activeSubs allSubscriptions)))).

Definition biggestSaving (allSubscriptions : list Subscription.t)
  : option Subscription.t :=
  hd_error
    (Js.sort (fun a b => getMonthlyCost b - getMonthlyCost a)
       (List.filter
          (fun s => negb (is_active s) && Js.present (cancellation_date s))
          allSubscriptions)).

(** The body of the [for (let i = 0; i < 12; i++)] loop: [remaining]
    iterations are left, [i] is the loop counter. *)
Fixpoint mindfulStreak_loop (now : Date) (allSubscriptions : list Subscription.t)
    (remaining : nat) (i : Z) (mindfulStreak : Z) : Z :=
  match remaining with
  | O => mindfulStreak
  | S remaining' =>
      let monthToCheck := subMonths now i in
      if Js.some (fun s => isSameMonth (created_at s) monthToCheck) allSubscriptions
      then mindfulStreak_loop now allSubscriptions remaining' (i + 1)%Z (mindfulStreak + 1)%Z
      else mindfulStreak
  end.

Definition mindfulStreak (now : Date) (allSubscriptions : list Subscription.t) : Z :=
  mindfulStreak_loop now allSubscriptions 12 0%Z 0%Z.

Definition rating_of (s : Subscription.t) : Z := default 0%Z (value_rating s).

Definition subscriptionOfTheMonth (allSubscriptions : list Subscription.t)
  : option Subscription.t :=
  hd_error
    (Js.sort (fun a b => inject_Z (rating_of b) - inject_Z (rating_of a))
       (List.filter (fun s => Js.truthy (value_rating s)) (activeSubs allSubscriptions))).

Definition lowValueSubs (allSubscriptions : list Subscription.t) : list Subscription.t :=
  List.filter (fun s => Js.truthy (value_rating s) && (rating_of s <=? 2)%Z)
    (activeSubs allSubscriptions).

(** [acc[sub.category] = (acc[sub.category] || 0) + 1] on an object that
    starts as [{}]. *)
Definition categoryCounts (allSubscriptions : list Subscription.t) : JsObject.t Z :=
  Js.reduce
    (fun (acc : JsObject.t Z) sub =>
       JsObject.set acc (category sub)
         (JsObject.or_zero_plus (fun n => negb (n =? 0)%Z) 0%Z Z.add
            (JsObject.get acc (category sub)) 1%Z))
    ∅ (activeSubs allSubscriptions).

(** [recommendations.some(i => i.type === 'duplicate_category' &&
    i.subscription.category === sub.category)]. *)
Definition already_flagged (recommendations : list Insight.t) (sub : Subscription.t) : bool :=
  Js.some
    (fun i => Insight.kind_eqb (Insight.type i) Insight.duplicate_category
              && String.eqb (category (Insight.subscription i)) (category sub))
    recommendations.

Definition push_if {A : Type} (c : bool) (x : A) (l : list A) : list A :=
  if c then l ++ [x] else l.

(** One call of the [activeSubs.forEach] callback on the insights pushed
    so far. *)
Definition recommend_step (now : Date) (counts : JsObject.t Z)
    (recommendations : list Insight.t) (sub : Subscription.t) : list Insight.t :=
  let monthlyCost := getMonthlyCost sub in
  let r1 :=
    push_if (Js.truthy (value_rating sub) && (rating_of sub <=? 2)%Z)
      (Insight.mk (id sub +:+ "-low") sub Insight.low_value "Low Value"
         (Insight.YouRatedThis (rating_of sub)) monthlyCost)
      recommendations in
  let r2 :=
    push_if
      (match last_used_date sub with
       | Some lastUsed => (30 <? differenceInDays now lastUsed)%Z
       | None => false
       end)
      (Insight.mk (id sub +:+ "-unused") sub Insight.underutilized "Underutilized"
         Insight.NotUsedInOverAMonth monthlyCost)
      r1 in
  let r3 :=
    push_if
      (match price_history sub with
       | Some (p :: _) => negb (Qle_bool (cost sub) (PricePoint.cost p))
       | _ => false
       end)
      (Insight.mk (id sub +:+ "-price") sub Insight.price_increase "Price Increase"
         (Insight.PriceIncreasedFrom
            (match price_history sub with
             | Some (p :: _) => PricePoint.cost p
             | _ => 0
             end))
         0)
      r2 in
  push_if
    (JsObject.exceeds (JsObject.get counts (category sub)) 1
     && negb (already_flagged r3 sub))
    (Insight.mk (id sub +:+ "-dupe") sub Insight.duplicate_category "Duplicate Category"
       (Insight.MultipleSubsIn (category sub)) 0)
    r3.

Definition recommendations (now : Date) (allSubscriptions : list Subscription.t)
  : list Insight.t :=
  fold_left (recommend_step now (categoryCounts allSubscriptions))
    (activeSubs allSubscriptions) [].

(** The [analytics] memo, with the clock read passed in as [now]. *)
Definition analytics (now : Date) (allSubscriptions : list Subscription.t) : Analytics.t :=
  if (Z.of_nat (length allSubscriptions) =? 0)%Z then initialAnalytics
  else
    {| Analytics.totalMonthlyCost := totalMonthlyCost allSubscriptions;
       Analytics.lastMonthCost := lastMonthCost now allSubscriptions;
       Analytics.upcomingRenewals := upcomingRenewals now allSubscriptions;
       Analytics.categoryBreakdown := categoryBreakdown allSubscriptions;
       Analytics.historicalData := historicalData now allSubscriptions;
       Analytics.largestIncrease := largestIncrease allSubscriptions;
       Analytics.biggestSaving := biggestSaving allSubscriptions;
       Analytics.mindfulStreak := mindfulStreak now allSubscriptions;
       Analytics.subscriptionOfTheMonth := subscriptionOfTheMonth allSubscriptions;
       Analytics.lowValueSubs := lowValueSubs allSubscriptions;
       Analytics.recommendations := recommendations now allSubscriptions;
       Analytics.lastWeekCost := lastWeekCost now allSubscriptions |}.

End useSubscriptions.

(** ** The monthly totals with the arithmetic as a parameter

    [getMonthlyCost], [totalMonthlyCost] and [categoryBreakdown] once more,
    for any arithmetic [N] of numbers: on [Number.exact] they are the
    definitions above, on [Number.binary64] they are what the engine
    computes. *)

Module InArithmetic.

Import Subscription.

Section Generic.

Variable N : Number.t.

Definition getMonthlyCost (sub : Subscription.t) : Number.num N :=
  if String.eqb (billing_cycle sub) "monthly" then Number.of_Q N (cost sub)
  else if String.eqb (billing_cycle sub) "yearly"
  then Number.div N (Number.of_Q N (cost sub)) (Number.of_Q N 12)
  else if String.eqb (billing_cycle sub) "weekly"
  then Number.div N (Number.mul N (Number.of_Q N (cost sub)) (Number.of_Q N 52))
         (Number.of_Q N 12)
  else Number.zero N.

Definition totalMonthlyCost (allSubscriptions : list Subscription.t) : Number.num N :=
  Js.reduce (fun total sub => Number.add N total (getMonthlyCost sub)) (Number.zero N)
    (useSubscriptions.activeSubs allSubscriptions).

Definition categoryBreakdown (allSubscriptions : list Subscription.t)
  : JsObject.t (Number.num N) :=
  Js.reduce
    (fun (acc : JsObject.t (Number.num N)) sub =>
       JsObject.set acc (category sub)
         (JsObject.or_zero_plus (Number.truthy N) (Number.zero N) (Number.add N)
            (JsObject.get acc (category sub)) (getMonthlyCost sub)))
    ∅ (useSubscriptions.activeSubs allSubscriptions).

End Generic.

End InArithmetic.

(** ** The score-based classifier of the smart-notifications module *)

Module SmartNotifications.

Import Subscription.
Local Open Scope Z_scope.

Inductive recommendation : Type := keep | review | cancel.

(** A cost per use: a rational or [Infinity]. *)
Inductive number : Type :=
| Finite (q : Q)
| Infinity.

(** [x < q] and [x > q] on a cost per use. *)
Definition lt (x : number) (q : Q) : bool :=
  match x with
  | Finite v => negb (Qle_bool q v)
  | Infinity => false
  end.

Definition gt (x : number) (q : Q) : bool :=
  match x with
  | Finite v => negb (Qle_bool v q)
  | Infinity => true
  end.

Record result : Type := mkResult {
  res_recommendation : recommendation;
  confidence : Q;
  reasons : list string
}.

Definition calculateUsageFrequency (now : Date) (subscription : Subscription.t) : string :=
  match last_used_date subscription with
  | None => "never"%string
  | Some lastUsed =>
      let daysSinceLastUse := differenceInDays now lastUsed in
      if daysSinceLastUse <=? 1 then "daily"%string
      else if daysSinceLastUse <=? 7 then "weekly"%string
      else if daysSinceLastUse <=? 30 then "monthly"%string
      else if daysSinceLastUse <=? 90 then "rarely"%string
      else "never"%string
  end.

Definition analyzeValueTrend (now : Date) (subscription : Subscription.t) : string :=
  if negb (Js.truthy (value_rating subscription)) then "stable"%string
  else
    let rating := default 0 (value_rating subscription) in
    let daysSinceCreated := differenceInDays now (created_at subscription) in
    if (4 <=? rating) && (daysSinceCreated <=? 30) then "increasing"%string
    else if rating <=? 2 then "decreasing"%string
    else "stable"%string.

Definition calculateCostPerUse (now : Date) (subscription : Subscription.t) : number :=
  match last_used_date subscription with
  | None => Infinity
  | Some lastUsed =>
      let daysSinceLastUse := differenceInDays now lastUsed in
      let monthlyUses : Q :=
        if daysSinceLastUse <=? 1 then 30%Q
        else if daysSinceLastUse <=? 7 then 4%Q
        else if daysSinceLastUse <=? 30 then 1%Q
        else (1 # 10)%Q in
      let monthlyCost : Q :=
        if String.eqb (billing_cycle subscription) "yearly"
        then (cost subscription / 12)%Q
        else if String.eqb (billing_cycle subscription) "weekly"
        then (cost subscription * (433 # 100))%Q
        else cost subscription in
      if negb (Qle_bool monthlyUses 0) then Finite (monthlyCost / monthlyUses)%Q
      else Infinity
  end.

(** The four scoring blocks: the running [score] and the [reasons] pushed
    so far are threaded through them. *)
Definition usageScore (usageFrequency : string) (st : Z * list string) : Z * list string :=
  let '(score, reasons) := st in
  if String.eqb usageFrequency "daily"
  then (score + 40, reasons ++ ["Used daily - high engagement"%string])
  else if String.eqb usageFrequency "weekly"
  then (score + 30, reasons ++ ["Used weekly - good engagement"%string])
  else if String.eqb usageFrequency "monthly"
  then (score + 15, reasons ++ ["Used monthly - moderate engagement"%string])
  else if String.eqb usageFrequency "rarely"
  then (score - 10, reasons ++ ["Rarely used - low engagement"%string])
  else if String.eqb usageFrequency "never"
  then (score - 30, reasons ++ ["Never used - no engagement"%string])
  else st.

Definition ratingScore (subscription : Subscription.t) (st : Z * list string)
  : Z * list string :=
  let '(score, reasons) := st in
  if Js.truthy (value_rating subscription) then
    let rating := default 0 (value_rating subscription) in
    let score' := score + (rating - 3) * 10 in
    if 4 <=? rating
    then (score', reasons ++ ["High user rating - valuable service"%string])
    else if rating <=? 2
    then (score', reasons ++ ["Low user rating - questionable value"%string])
    else (score', reasons)
  else st.

Definition costPerUseScore (costPerUse : number) (st : Z * list string)
  : Z * list string :=
  let '(score, reasons) := st in
  if lt costPerUse 1
  then (score + 20, reasons ++ ["Excellent cost per use ratio"%string])
  else if lt costPerUse 5
  then (score + 10, reasons ++ ["Good cost per use ratio"%string])
  else if gt costPerUse 20
  then (score - 20, reasons ++ ["High cost per use - expensive for usage"%string])
  else st.

Definition trendScore (valueTrend : string) (st : Z * list string) : Z * list string :=
  let '(score, reasons) := st in
  if String.eqb valueTrend "increasing"
  then (score + 15, reasons ++ ["Value trend is increasing"%string])
  else if String.eqb valueTrend "decreasing"
  then (score - 15, reasons ++ ["Value trend is decreasing"%string])
  else st.

(** State of [score] and [reasons] when the thresholds are applied. *)
Definition scoring (subscription : Subscription.t) (usageFrequency valueTrend : string)
    (costPerUse : number) : Z * list string :=
  trendScore valueTrend
    (costPerUseScore costPerUse
       (ratingScore subscription
          (usageScore usageFrequency (0, [])))).

Definition score (subscription : Subscription.t) (usageFrequency valueTrend : string)
    (costPerUse : number) : Z :=
  fst (scoring subscription usageFrequency valueTrend costPerUse).

Definition generateRecommendation (subscription : Subscription.t)
    (usageFrequency valueTrend : string) (costPerUse : number) : result :=
  let '(score, reasons) := scoring subscription usageFrequency valueTrend costPerUse in
  if 40 <=? score then
    mkResult keep (Qmin (9 # 10) (inject_Z score / 50))
      (reasons ++ ["Strong indicators suggest keeping this subscription"%string])
  else if 10 <=? score then
    mkResult review (7 # 10)
      (reasons ++ ["Mixed signals - review usage and value"%string])
  else
    mkResult cancel (Qmin (9 # 10) (inject_Z (Z.abs score) / 30))
      (reasons ++ ["Multiple indicators suggest canceling"%string]).

End SmartNotifications.

(** ** The displayed list: the [subscriptions] memo of
    [src/hooks/useSubscriptions.ts] *)

Module SubscriptionList.

Import Subscription.
Local Open Scope Q_scope.

(** The string built-ins of JavaScript the memo calls, taken as
    parameters. *)
Record StringOps : Type := mkStringOps {
  toLowerCase : string -> string;
  includes : string -> string -> bool;
  localeCompare : string -> string -> Q
}.

(** The [filters] object ([any] in the source): a key may be missing
    ([None]), as in [useSubscriptions({})]. *)
Record Filters : Type := mkFilters {
  f_search : option string;
  f_category : option string;
  f_billing_cycle : option string;
  f_price_min : option Q;
  f_price_max : option Q;
  f_sort_by : option string
}.

(** [o === v] for an optional string. *)
Definition is_string (o : option string) (v : string) : bool :=
  match o with
  | Some x => String.eqb x v
  | None => false
  end.

(** Comparisons of numbers one of which may be [undefined]: false then. *)
Definition opt_gt (o : option Q) (q : Q) : bool :=
  match o with
  | Some v => negb (Qle_bool v q)
  | None => false
  end.

Definition opt_lt (o : option Q) (q : Q) : bool :=
  match o with
  | Some v => negb (Qle_bool q v)
  | None => false
  end.

Definition ge_opt (q : Q) (o : option Q) : bool :=
  match o with
  | Some v => Qle_bool v q
  | None => false
  end.

Definition le_opt (q : Q) (o : option Q) : bool :=
  match o with
  | Some v => Qle_bool q v
  | None => false
  end.

Definition search_filter (ops : StringOps) (filters : Filters)
    (filtered : list Subscription.t) : list Subscription.t :=
  match f_search filters with
  | Some (String c rest) =>
      List.filter
        (fun s => includes ops (toLowerCase ops (name s))
                    (toLowerCase ops (String c rest)))
        filtered
  | _ => filtered
  end.

Definition category_filter (filters : Filters) (filtered : list Subscription.t)
  : list Subscription.t :=
  if negb (is_string (f_category filters) "all")
  then List.filter (fun s => is_string (f_category filters) (category s)) filtered
  else filtered.

Definition billing_cycle_filter (filters : Filters) (filtered : list Subscription.t)
  : list Subscription.t :=
  if negb (is_string (f_billing_cycle filters) "all")
  then List.filter (fun s => is_string (f_billing_cycle filters) (billing_cycle s)) filtered
  else filtered.

Definition price_filter (filters : Filters) (filtered : list Subscription.t)
  : list Subscription.t :=
  if opt_gt (f_price_min filters) 0 || opt_lt (f_price_max filters) 1000
  then List.filter
         (fun s => ge_opt (cost s) (f_price_min filters)
                   && le_opt (cost s) (f_price_max filters))
         filtered
  else filtered.

(** The [switch (filters.sort_by)]. *)
Definition sorted_by (ops : StringOps) (filters : Filters) (filtered : list Subscription.t)
  : list Subscription.t :=
  if is_string (f_sort_by filters) "cost_desc"
  then Js.sort (fun a b => cost b - cost a) filtered
  else if is_string (f_sort_by filters) "cost_asc"
  then Js.sort (fun a b => cost a - cost b) filtered
  else if is_string (f_sort_by filters) "name_asc"
  then Js.sort (fun a b => localeCompare ops (name a) (name b)) filtered
  else Js.sort
         (fun a b => inject_Z (next_renewal_date a) - inject_Z (next_renewal_date b))
         filtered.

Definition subscriptions (ops : StringOps) (filters : Filters)
    (allSubscriptions : list Subscription.t) : list Subscription.t :=
  let filtered := List.filter (fun s => is_active s) allSubscriptions in
  let filtered := search_filter ops filters filtered in
  let filtered := category_filter filters filtered in
  let filtered := billing_cycle_filter filters filtered in
  let filtered := price_filter filters filtered in
  sorted_by ops filters filtered.

(** The filters the dashboard starts with. *)
Definition defaultFilters : Filters :=
  mkFilters (Some ""%string) (Some "all"%string) (Some "all"%string)
    (Some 0) (Some 1000) (Some "renewal_date_asc"%string).

End SubscriptionList.

(** ** [addSubscription] of [src/hooks/useSubscriptions.ts]

    The answers of the backend are inputs; the result is the value returned
    or the error thrown. *)

Module AddSubscription.

Inductive error : Type :=
| UserNotAuthenticated
| BackendError (e : string)
| LimitReached (limit : Z) (plan : string).

Inductive outcome : Type :=
| Throws (e : error)
| Returns (data : Subscription.t).

(** What [supabase] answers: the user, the profile row and its
    [subscription_plan] (each possibly [null]), the count of active
    subscriptions, the inserted row, and the [error] of each query. *)
Record Backend : Type := mkBackend {
  user : option string;
  profile : option (option string);
  profileError : option string;
  count : option Z;
  countError : option string;
  inserted : Subscription.t;
  insertError : option string
}.

Definition PLAN_LIMITS : gmap string Z :=
  <["Free Starter"%string := 10]>
    (<["Individual"%string := 30]> (<["Family"%string := 12]> ∅)).

(** [profile?.subscription_plan || 'Free Starter']. *)
Definition plan_of (b : Backend) : string :=
  match profile b with
  | Some (Some (String c rest)) => String c rest
  | _ => "Free Starter"%string
  end.

(** [count || 0]. *)
Definition currentCount (b : Backend) : Z := default 0 (count b).

Definition addSubscription (b : Backend) : outcome :=
  match user b with
  | None => Throws UserNotAuthenticated
  | Some _ =>
      match profileError b, countError b with
      | Some e, _ => Throws (BackendError e)
      | None, Some e => Throws (BackendError e)
      | None, None =>
          let plan := plan_of b in
          let limit := PLAN_LIMITS !! plan in
          if match limit with
             | Some l => l <=? currentCount b
             | None => false
             end
          then Throws (LimitReached (default 0 limit) plan)
          else
            match insertError b with
            | Some e => Throws (BackendError e)
            | None => Returns (inserted b)
            end
      end
  end.

End AddSubscription.

(** ** The pipeline of the smart-notifications module *)

Module UsagePatterns.

Import SmartNotifications.
Local Open Scope Z_scope.

Record UsagePattern : Type := mkUsagePattern {
  subscription_id : string;
  usage_frequency : string;
  value_trend : string;
  cost_per_use : number;
  recommendation : SmartNotifications.recommendation;
  p_confidence : Q;
  p_reasons : list string
}.

Definition analyzeSubscriptionPattern (now : Date) (subscription : Subscription.t)
  : UsagePattern :=
  let usageFrequency := calculateUsageFrequency now subscription in
  let valueTrend := analyzeValueTrend now subscription in
  let costPerUse := calculateCostPerUse now subscription in
  let r := generateRecommendation subscription usageFrequency valueTrend costPerUse in
  mkUsagePattern (Subscription.id subscription) usageFrequency valueTrend costPerUse
    (res_recommendation r) (confidence r) (reasons r).

(** [analyzeUsagePatterns]: the user and the answer of the query (data,
    possibly [null], and error) are inputs; any failure is caught and gives
    the empty list. *)
Definition analyzeUsagePatterns (now : Date) (user : option string)
    (data : option (list Subscription.t)) (error : option string) : list UsagePattern :=
  match user with
  | None => []
  | Some _ =>
      match error with
      | Some _ => []
      | None =>
          match data with
          | None => []
          | Some subscriptions => map (analyzeSubscriptionPattern now) subscriptions
          end
      end
  end.

Inductive notification_type : Type :=
| high_value | low_value | unused | expensive | duplicate.

Inductive priority : Type := high | medium | low.

Inductive action : Type := act_keep | act_cancel | act_downgrade | act_review.

(** The message templates, with the value they interpolate. *)
Inductive message_text : Type :=
| ExcellentValue
| NotUsedRecently
| CostsPerUse (costPerUse : number)
| MayNotBeWorthKeeping.

Record SmartNotification : Type := mkSmartNotification {
  n_subscription_id : string;
  n_type : notification_type;
  n_priority : priority;
  n_message : message_text;
  action_recommended : action;
  n_confidence : Q
}.

Definition createNotificationFromPattern (pattern : UsagePattern)
  : option SmartNotification :=
  let subscription_id := subscription_id pattern in
  let confidence := p_confidence pattern in
  if match recommendation pattern with keep => true | _ => false end
     && negb (Qle_bool confidence (8 # 10))
  then Some (mkSmartNotification subscription_id high_value low ExcellentValue
               act_keep confidence)
  else if String.eqb (usage_frequency pattern) "never"
          || String.eqb (usage_frequency pattern) "rarely"
  then Some (mkSmartNotification subscription_id unused high NotUsedRecently
               act_cancel confidence)
  else if gt (cost_per_use pattern) 20
  then Some (mkSmartNotification subscription_id expensive medium
               (CostsPerUse (cost_per_use pattern)) act_review confidence)
  else if match recommendation pattern with cancel => true | _ => false end
          && negb (Qle_bool confidence (7 # 10))
  then Some (mkSmartNotification subscription_id low_value high MayNotBeWorthKeeping
               act_cancel confidence)
  else None.

(** [priorityOrder]. *)
Definition priorityOrder (p : priority) : Z :=
  match p with
  | high => 3
  | medium => 2
  | low => 1
  end.

Definition compareNotifications (a b : SmartNotification) : Q :=
  let priorityDiff := priorityOrder (n_priority b) - priorityOrder (n_priority a) in
  if negb (priorityDiff =? 0) then inject_Z priorityDiff
  else (n_confidence b - n_confidence a)%Q.

(** The loop pushing the notifications that are not [null]. *)
Fixpoint collect (patterns : list UsagePattern) : list SmartNotification :=
  match patterns with
  | [] => []
  | pattern :: rest =>
      match createNotificationFromPattern pattern with
      | Some notification => notification :: collect rest
      | None => collect rest
      end
  end.

Definition generateSmartNotifications (now : Date) (user : option string)
    (data : option (list Subscription.t)) (error : option string)
  : list SmartNotification :=
  Js.sort compareNotifications (collect (analyzeUsagePatterns now user data error)).

End UsagePatterns.

(** ** The dashboard figures computed from the analytics *)

Module Dashboard.

Local Open Scope Q_scope.

(** [SubscriptionStats] ([src/components/BulkActions.tsx]). *)
Definition spendingTrend (totalMonthlyCost lastMonthCost : Q) : Q :=
  if negb (Qle_bool lastMonthCost 0)
  then ((totalMonthlyCost - lastMonthCost) / lastMonthCost) * 100
  else if negb (Qle_bool totalMonthlyCost 0) then 100 else 0.

End Dashboard.

(** ** Calendar vocabulary *)

Module Calendar.

(** Months counted from January of year 0: the month of an instant. *)
Definition monthIndex (d : Date) : Z := getFullYear d * 12 + getMonth d.

(** Day number of the first day of a month given by its index. *)
Definition monthStart (mi : Z) : Z := days_from_civil (mi / 12) (mi mod 12 + 1) 1.

(** Start of the month after month [m] of year [y]. *)
Definition nextMonthStart (y m : Z) : Z :=
  if m =? 12 then days_from_civil (y + 1) 1 1 else days_from_civil y (m + 1) 1.

(** Days before year [yoe] of a 400-year era, and before month [mp] of a
    year, both counted from 1 March. *)
Definition yearDays (yoe : Z) : Z := yoe * 365 + yoe / 4 - yoe / 100.

Definition monthDays (mp : Z) : Z := (153 * mp + 2) / 5.

(** [civil_from_days] once the era and the day of the era are known. *)
Definition civil_of_era (era doe : Z) : Z * Z * Z :=
  let yoe := (doe - doe / 1460 + doe / 36524 - doe / 146096) / 365 in
  let doy := doe - (365 * yoe + yoe / 4 - yoe / 100) in
  let mp := (5 * doy + 2) / 153 in
  let d := doy - (153 * mp + 2) / 5 + 1 in
  let m := if mp <? 10 then mp + 3 else mp - 9 in
  let y := yoe + era * 400 in
  ((if m <=? 2 then y + 1 else y), m, d).

End Calendar.

Import Calendar.

(** ** Vocabulary of the stated properties *)

Module Spec.

Import useSubscriptions.
Local Open Scope Q_scope.

(** Sum of a list of amounts. *)
Definition sumQ (l : list Q) : Q := foldr Qplus 0 l.

(** Sum of the numbers held by a dictionary of amounts, in arithmetic
    [N]. *)
Definition sum_of_values (N : Number.t) (o : JsObject.t (Number.num N)) : Number.num N :=
  map_fold
    (fun _ v acc =>
       match v with
       | JsObject.Num a => Number.add N acc a
       | _ => acc
       end)
    (Number.zero N) o.

(** The number held under a key, 0 when there is none. *)
Definition amount_under {A : Type} (zero : A) (o : JsObject.t A) (k : string) : A :=
  match o !! k with
  | Some (JsObject.Num a) => a
  | _ => zero
  end.

(** The monthly-equivalent cost as the specification words it. *)
Inductive monthly_cost : Subscription.t -> Q -> Prop :=
| mc_monthly s :
    Subscription.billing_cycle s = "monthly"%string ->
    monthly_cost s (Subscription.cost s)
| mc_yearly s :
    Subscription.billing_cycle s = "yearly"%string ->
    monthly_cost s (Subscription.cost s / 12)
| mc_weekly s :
    Subscription.billing_cycle s = "weekly"%string ->
    monthly_cost s (Subscription.cost s * 52 / 12)
| mc_unknown s :
    Subscription.billing_cycle s <> "monthly"%string ->
    Subscription.billing_cycle s <> "yearly"%string ->
    Subscription.billing_cycle s <> "weekly"%string ->
    monthly_cost s 0.

(** Renewal in the look-ahead window: between 0 and 7 whole days from
    [now]. *)
Definition renews_within_week (now : Date) (s : Subscription.t) : bool :=
  (0 <=? differenceInDays (Subscription.next_renewal_date s) now)%Z
  && (differenceInDays (Subscription.next_renewal_date s) now <=? 7)%Z.

(** The same window in instants: later than one day before [now] and
    earlier than eight days after it. *)
Definition in_look_ahead (now : Date) (d : Date) : bool :=
  (now - msPerDay <? d)%Z && (d <? now + 8 * msPerDay)%Z.

(** The look-ahead list the specification describes: the active
    subscriptions of the window, sorted by ascending renewal date, equal
    dates in input order. *)
Definition renewals_sorted (now : Date) (subs : list Subscription.t)
  : list Subscription.t :=
  Js.sort
    (fun a b => inject_Z (Subscription.next_renewal_date a)
                - inject_Z (Subscription.next_renewal_date b))
    (List.filter (fun s => Subscription.is_active s && renews_within_week now s) subs).

(** A list whose renewal dates never decrease from one entry to the next. *)
Fixpoint ascending_by_renewal (l : list Subscription.t) : bool :=
  match l with
  | a :: (b :: _) as rest =>
      (Subscription.next_renewal_date a <=? Subscription.next_renewal_date b)%Z
      && ascending_by_renewal rest
  | _ => true
  end.

(** Anchor in the calendar month before that of [now]. *)
Definition in_last_month (now : Date) (d : Date) : bool :=
  (monthIndex d =? monthIndex now - 1)%Z.

(** Some subscription was created in the calendar month [i] months before
    that of [now]. *)
Definition created_months_back (now : Date) (subs : list Subscription.t) (i : Z) : bool :=
  existsb (fun s => (monthIndex (Subscription.created_at s) =? monthIndex now - i)%Z) subs.

(** Anchor in the Monday-based week before that of [now]. *)
Definition in_last_week (now : Date) (d : Date) : bool :=
  (lastWeekStart now <=? d)%Z && (d <=? lastWeekEnd now)%Z.

(** Candidates of the largest-increase computation. *)
Definition increase_candidate (s : Subscription.t) : bool :=
  Subscription.is_active s && has_price_history s.

(** Insights of type [duplicate_category] that reference category [c]. *)
Definition is_duplicate_for (c : string) (i : Insight.t) : bool :=
  Insight.kind_eqb (Insight.type i) Insight.duplicate_category
  && String.eqb (Subscription.category (Insight.subscription i)) c.

Definition duplicate_insights (c : string) (recs : list Insight.t) : nat :=
  length (List.filter (is_duplicate_for c) recs).

(** Number of active subscriptions of category [c]. *)
Definition active_in_category (c : string) (subs : list Subscription.t) : nat :=
  length (List.filter
            (fun s => Subscription.is_active s
                      && String.eqb (Subscription.category s) c) subs).

(** Confidence as a function of the verdict and of the magnitude of the
    score, never above 0.9. *)
Definition confidence_of (r : SmartNotifications.recommendation) (magnitude : Z) : Q :=
  match r with
  | SmartNotifications.keep => Qmin (9 # 10) (inject_Z magnitude / 50)
  | SmartNotifications.review => 7 # 10
  | SmartNotifications.cancel => Qmin (9 # 10) (inject_Z magnitude / 30)
  end.

End Spec.

(** ** Sample data *)

Module Samples.

Definition blank : Subscription.t :=
  Subscription.mk "s0" "Sample" 10 "monthly" (utc 2024 3 20) "Music" true
    None None None (utc 2024 3 1) None.

Definition with_cycle (cycle : string) (c : Q) : Subscription.t :=
  Subscription.mk "s1" "Plan" c cycle (utc 2024 3 20) "Video" true
    None None None (utc 2024 3 1) None.

(** Friday 15 March 2024, 01:00 UTC. *)
Definition now : Date := (utc 2024 3 15 + 3600000)%Z.

Definition renewing (i : string) (d : Date) (active : bool) : Subscription.t :=
  Subscription.mk i "Plan" 10 "monthly" d "Video" active None None None
    (utc 2023 1 1) None.

(** Both renew within a week of [now]; the first one renews later. *)
Definition late_then_soon : list Subscription.t :=
  [renewing "late" (utc 2024 3 20) true; renewing "soon" (utc 2024 3 17) true].

Definition music (i : string) (active : bool) : Subscription.t :=
  Subscription.mk i "Tunes" 5 "monthly" (utc 2024 6 1) "Music" active None None None
    (utc 2023 1 1) None.

(** Three Music subscriptions, two of them active, and one Video one. *)
Definition playlist : list Subscription.t :=
  [music "a" true; music "b" false; renewing "v" (utc 2024 3 20) true; music "c" true].

(** Active, costs 5 now, baseline snapshot at 8: the price went down. *)
Definition cheaper : Subscription.t :=
  Subscription.mk "p1" "Stream" 5 "monthly" (utc 2024 6 1) "Video" true None None None
    (utc 2023 1 1) (Some [PricePoint.mk (utc 2023 1 1) 8]).

(** Active, costs 8, single baseline snapshot at 8: no change. *)
Definition unchanged : Subscription.t :=
  Subscription.mk "p2" "Cloud" 8 "monthly" (utc 2024 6 1) "Storage" true None None None
    (utc 2023 1 1) (Some [PricePoint.mk (utc 2023 1 1) 8]).

(** Yearly plan at 120 whose renewal date lies in the week of 4 March. *)
Definition yearly_last_week (active : bool) : Subscription.t :=
  Subscription.mk "y1" "Annual" 120 "yearly" (utc 2024 3 6) "Video" active None None None
    (utc 2024 2 10) None.

End Samples.

(** ** Vocabulary of the further properties *)

Module Props.

Import useSubscriptions.
Local Open Scope Q_scope.

(** Active subscriptions of category [c]. *)
Definition active_of_category (c : string) (s : Subscription.t) : bool :=
  Subscription.is_active s && String.eqb (Subscription.category s) c.

(** Every entry stands in relation [R] with the next one. *)
Fixpoint adjacent {A : Type} (R : A -> A -> bool) (l : list A) : bool :=
  match l with
  | a :: (b :: _) as rest => R a b && adjacent R rest
  | _ => true
  end.

(** Cancelled: inactive, with a cancellation date. *)
Definition cancelled (s : Subscription.t) : bool :=
  negb (Subscription.is_active s) && Js.present (Subscription.cancellation_date s).

(** Active and rated. *)
Definition rated (s : Subscription.t) : bool :=
  Subscription.is_active s && Js.truthy (Subscription.value_rating s).

(** The conditions of the three rules that look at one subscription. *)
Definition low_rated (s : Subscription.t) : bool :=
  Js.truthy (Subscription.value_rating s) && (rating_of s <=? 2)%Z.

Definition unused_for_a_month (now : Date) (s : Subscription.t) : bool :=
  match Subscription.last_used_date s with
  | Some lastUsed => (30 <? differenceInDays now lastUsed)%Z
  | None => false
  end.

Definition price_went_up (s : Subscription.t) : bool :=
  match Subscription.price_history s with
  | Some (p :: _) => negb (Qle_bool (Subscription.cost s) (PricePoint.cost p))
  | _ => false
  end.

(** Insights of one type, and the subscriptions they are about. *)
Definition of_kind (k : Insight.kind) (i : Insight.t) : bool :=
  Insight.kind_eqb (Insight.type i) k.

Definition subscriptions_of (k : Insight.kind) (recs : list Insight.t)
  : list Subscription.t :=
  map Insight.subscription (List.filter (of_kind k) recs).

(** Sum of the savings the insights announce. *)
Definition total_savings (recs : list Insight.t) : Q :=
  Spec.sumQ (map Insight.potential_savings recs).

(** The suffixes the engine appends to a subscription id. *)
Definition id_suffixes : list string :=
  ["-low"; "-unused"; "-price"; "-dupe"]%string.

(** A subscription is displayed when it is active and passes every filter
    that is set. *)
Definition passes (ops : SubscriptionList.StringOps) (filters : SubscriptionList.Filters)
    (s : Subscription.t) : bool :=
  Subscription.is_active s
  && match SubscriptionList.f_search filters with
     | Some (String c rest) =>
         SubscriptionList.includes ops
           (SubscriptionList.toLowerCase ops (Subscription.name s))
           (SubscriptionList.toLowerCase ops (String c rest))
     | _ => true
     end
  && (SubscriptionList.is_string (SubscriptionList.f_category filters) "all"
      || SubscriptionList.is_string (SubscriptionList.f_category filters)
           (Subscription.category s))
  && (SubscriptionList.is_string (SubscriptionList.f_billing_cycle filters) "all"
      || SubscriptionList.is_string (SubscriptionList.f_billing_cycle filters)
           (Subscription.billing_cycle s))
  && (negb (SubscriptionList.opt_gt (SubscriptionList.f_price_min filters) 0
            || SubscriptionList.opt_lt (SubscriptionList.f_price_max filters) 1000)
      || SubscriptionList.ge_opt (Subscription.cost s) (SubscriptionList.f_price_min filters)
         && SubscriptionList.le_opt (Subscription.cost s)
              (SubscriptionList.f_price_max filters)).

(** The order asked for by [sort_by]; none is stated for names, which are
    compared by [localeCompare]. *)
Definition in_order (filters : SubscriptionList.Filters) (a b : Subscription.t) : bool :=
  if SubscriptionList.is_string (SubscriptionList.f_sort_by filters) "cost_desc"
  then Qle_bool (Subscription.cost b) (Subscription.cost a)
  else if SubscriptionList.is_string (SubscriptionList.f_sort_by filters) "cost_asc"
  then Qle_bool (Subscription.cost a) (Subscription.cost b)
  else if SubscriptionList.is_string (SubscriptionList.f_sort_by filters) "name_asc"
  then true
  else (Subscription.next_renewal_date a <=? Subscription.next_renewal_date b)%Z.

(** The order of the smart notifications: higher priority first and, at
    equal priority, higher confidence first. *)
Definition notification_order (a b : UsagePatterns.SmartNotification) : bool :=
  (UsagePatterns.priorityOrder (UsagePatterns.n_priority b)
   <? UsagePatterns.priorityOrder (UsagePatterns.n_priority a))%Z
  || ((UsagePatterns.priorityOrder (UsagePatterns.n_priority b)
       =? UsagePatterns.priorityOrder (UsagePatterns.n_priority a))%Z
      && Qle_bool (UsagePatterns.n_confidence b) (UsagePatterns.n_confidence a)).

(** The score the recommendation of a subscription rests on. *)
Definition score_at (now : Date) (s : Subscription.t) : Z :=
  SmartNotifications.score s
    (SmartNotifications.calculateUsageFrequency now s)
    (SmartNotifications.analyzeValueTrend now s)
    (SmartNotifications.calculateCostPerUse now s).

(** The notification a subscription gives rise to, if any. *)
Definition notification_of (now : Date) (s : Subscription.t)
  : option UsagePatterns.SmartNotification :=
  UsagePatterns.createNotificationFromPattern
    (UsagePatterns.analyzeSubscriptionPattern now s).

(** The plan names that have a limit. *)
Definition known_plans : list string := ["Free Starter"; "Individual"; "Family"]%string.


(** Every own property holds a number. *)
Definition numeric {A : Type} (o : JsObject.t A) : Prop :=
  forall k v, o !! k = Some v -> exists a, v = JsObject.Num a.


(** The amounts [xs] added one after the other the way
    [acc = (acc || 0) + x] does, starting from a missing key; [None] when
    there is no amount. *)
Definition running_sum (N : Number.t) (xs : list (Number.num N)) : option (Number.num N) :=
  fold_left
    (fun acc x =>
       Some (match acc with
             | None => Number.add N (Number.zero N) x
             | Some a => Number.add N (if Number.truthy N a then a else Number.zero N) x
             end))
    xs None.

End Props.

(** ** Further sample data *)

Module MoreSamples.

(** Rated 1 and last used on 1 January, seen from 15 March. *)
Definition neglected : Subscription.t :=
  Subscription.mk "n1" "Unloved" 12 "monthly" (utc 2024 6 1) "Video" true None
    (Some (utc 2024 1 1)) (Some 1) (utc 2023 1 1) None.

(** A cancelled yearly plan created in February and an active monthly one
    created in 2023. *)
Definition mixed : list Subscription.t :=
  [Samples.yearly_last_week false; Samples.cheaper].

(** String built-ins for plain lower-case names. *)
Fixpoint contains (s t : string) : bool :=
  String.prefix t s
  || match s with
     | EmptyString => false
     | String _ rest => contains rest t
     end.

Definition plainOps : SubscriptionList.StringOps :=
  SubscriptionList.mkStringOps
    (fun s => s) contains
    (fun a b => match String.compare a b with
                | Lt => (-1)%Q
                | Eq => 0%Q
                | Gt => 1%Q
                end).

(** The filters of [useSubscriptions({})]: every key is missing. *)
Definition noFilters : SubscriptionList.Filters :=
  SubscriptionList.mkFilters None None None None None None.

(** A signed-in user on a plan the limits do not list, with 500 active
    subscriptions. *)
Definition enterprise : AddSubscription.Backend :=
  AddSubscription.mkBackend (Some "u1"%string) (Some (Some "Enterprise"%string)) None
    (Some 500%Z) None Samples.blank None.


(** Two categories, three active subscriptions and one inactive. *)
Definition two_categories : list Subscription.t :=
  [Samples.renewing "a" (utc 2024 3 20) true; Samples.music "b" true;
   Samples.with_cycle "weekly" 3; Samples.renewing "c" (utc 2024 3 20) false;
   Samples.with_cycle "yearly" 60].

Definition priced (i category : string) (c : Q) : Subscription.t :=
  Subscription.mk i "Plan" c "monthly" (utc 2024 6 1) category true None None None
    (utc 2023 1 1) None.

(** 9.99 and 9.99 in two categories, then 0.10 in the first one. *)
Definition three_prices : list Subscription.t :=
  [priced "x" "Video" (999 # 100); priced "y" "Music" (999 # 100);
   priced "z" "Video" (10 # 100)].


(** Due at midnight of the day of [Samples.now], one hour earlier, and at
    midnight eight calendar days ahead, 7 days and 23 hours later. *)
Definition today_and_eighth : list Subscription.t :=
  [Samples.renewing "today" (utc 2024 3 15) true;
   Samples.renewing "eighth" (utc 2024 3 23) true].

End MoreSamples.

(** Case analysis on the integer tests of the goal, and linear arithmetic
    with quotients and remainders. *)
Ltac case_if :=
  match goal with
  | |- context [if (?a <=? ?b) then _ else _] => destruct (Z.leb_spec a b)
  | |- context [if (?a <? ?b) then _ else _] => destruct (Z.ltb_spec a b)
  | |- context [if (?a =? ?b) then _ else _] => destruct (Z.eqb_spec a b)
  end.

Ltac div_lia := Z.to_euclidean_division_equations; lia.

(** * Properties *)

Import useSubscriptions.

(** ** Cost normalisation *)

(** C7: [getMonthlyCost] returns the cost unchanged for a monthly cycle,
    cost/12 for a yearly one, cost*52/12 for a weekly one and 0 for any
    other cycle; it is total, so the last case is a value and not an
    error. Stated against the relation [Spec.monthly_cost]: the value the
    code returns is the one the relation gives, and the only one. *)
Theorem getMonthlyCost_by_cycle :
  forall (sub : Subscription.t) (q : Q),
    Spec.monthly_cost sub q <-> q = getMonthlyCost sub.
Proof.
  intros sub q. unfold getMonthlyCost. split.
  - intros H. destruct H as [s H|s H|s H|s H1 H2 H3].
    + now rewrite H.
    + now rewrite H.
    + now rewrite H.
    + destruct (String.eqb_spec (Subscription.billing_cycle s) "monthly"); [contradiction|].
      destruct (String.eqb_spec (Subscription.billing_cycle s) "yearly"); [contradiction|].
      destruct (String.eqb_spec (Subscription.billing_cycle s) "weekly"); [contradiction|].
      reflexivity.
  - intros ->.
    destruct (String.eqb_spec (Subscription.billing_cycle sub) "monthly") as [E1|N1].
    { now apply Spec.mc_monthly. }
    destruct (String.eqb_spec (Subscription.billing_cycle sub) "yearly") as [E2|N2].
    { now apply Spec.mc_yearly. }
    destruct (String.eqb_spec (Subscription.billing_cycle sub) "weekly") as [E3|N3].
    { now apply Spec.mc_weekly. }
    now apply Spec.mc_unknown.
Qed.

(** The scenario of the specification: 120 a year is 10 a month; and an
    unknown cycle counts for nothing. *)
Example getMonthlyCost_samples :
  (getMonthlyCost (Samples.with_cycle "yearly" 120) == 10)%Q
  /\ (getMonthlyCost (Samples.with_cycle "weekly" 3) == 13)%Q
  /\ getMonthlyCost (Samples.with_cycle "monthly" 7) = 7%Q
  /\ getMonthlyCost (Samples.with_cycle "quarterly" 7) = 0%Q
  /\ getMonthlyCost (Samples.with_cycle "" 7) = 0%Q.
Proof. repeat split. Qed.

(** ** The empty collection *)

(** C5: on the empty collection, at any reference time, the engine returns
    the default state: the four numeric fields are zero, the four list and
    map fields are empty, and the two optional fields are absent. *)
Theorem analytics_empty_collection :
  forall now : Date,
    let a := analytics now [] in
    Analytics.totalMonthlyCost a = 0%Q
    /\ Analytics.lastMonthCost a = 0%Q
    /\ Analytics.lastWeekCost a = 0%Q
    /\ Analytics.mindfulStreak a = 0
    /\ Analytics.upcomingRenewals a = []
    /\ Analytics.categoryBreakdown a = ∅
    /\ Analytics.historicalData a = []
    /\ Analytics.recommendations a = []
    /\ Analytics.largestIncrease a = None
    /\ Analytics.biggestSaving a = None.
Proof. intros now. cbn. repeat split. Qed.

(** The early return is what empties [historicalData]: any non-empty
    collection gets its six monthly entries. *)
Lemma historicalData_length :
  forall now s subs,
    length (Analytics.historicalData (analytics now (s :: subs))) = 6%nat.
Proof. intros. reflexivity. Qed.

(** ** The fields of the result

    Except for [historicalData], the early return on the empty collection
    gives what the general computation gives on it, so each field of the
    result is the corresponding computation at every collection. *)

Section Fields.

Variable now : Date.
Variable subs : list Subscription.t.

Lemma analytics_totalMonthlyCost :
  Analytics.totalMonthlyCost (analytics now subs) = totalMonthlyCost subs.
Proof. destruct subs; reflexivity. Qed.

Lemma analytics_lastMonthCost :
  Analytics.lastMonthCost (analytics now subs) = lastMonthCost now subs.
Proof. destruct subs; reflexivity. Qed.

Lemma analytics_lastWeekCost :
  Analytics.lastWeekCost (analytics now subs) = lastWeekCost now subs.
Proof. destruct subs; reflexivity. Qed.

Lemma analytics_upcomingRenewals :
  Analytics.upcomingRenewals (analytics now subs) = upcomingRenewals now subs.
Proof. destruct subs; reflexivity. Qed.

Lemma analytics_categoryBreakdown :
  Analytics.categoryBreakdown (analytics now subs) = categoryBreakdown subs.
Proof. destruct subs; reflexivity. Qed.

Lemma analytics_largestIncrease :
  Analytics.largestIncrease (analytics now subs) = largestIncrease subs.
Proof. destruct subs; reflexivity. Qed.

Lemma analytics_mindfulStreak :
  Analytics.mindfulStreak (analytics now subs) = mindfulStreak now subs.
Proof. destruct subs; reflexivity. Qed.

Lemma analytics_recommendations :
  Analytics.recommendations (analytics now subs) = recommendations now subs.
Proof. destruct subs; reflexivity. Qed.

Lemma analytics_historicalData :
  Analytics.historicalData (analytics now subs)
  = match subs with [] => [] | _ :: _ => historicalData now subs end.
Proof. destruct subs; reflexivity. Qed.

End Fields.

(** ** The score-based classifier *)

Section Classifier.

Import SmartNotifications.

Variable subscription : Subscription.t.
Variables usageFrequency valueTrend : string.
Variable costPerUse : number.

Let verdict := generateRecommendation subscription usageFrequency valueTrend costPerUse.
Let total := score subscription usageFrequency valueTrend costPerUse.

Lemma generateRecommendation_unfold :
  verdict =
    if 40 <=? total then
      mkResult keep (Qmin (9 # 10) (inject_Z total / 50))
        (snd (scoring subscription usageFrequency valueTrend costPerUse)
           ++ ["Strong indicators suggest keeping this subscription"%string])
    else if 10 <=? total then
      mkResult review (7 # 10)
        (snd (scoring subscription usageFrequency valueTrend costPerUse)
           ++ ["Mixed signals - review usage and value"%string])
    else
      mkResult cancel (Qmin (9 # 10) (inject_Z (Z.abs total) / 30))
        (snd (scoring subscription usageFrequency valueTrend costPerUse)
           ++ ["Multiple indicators suggest canceling"%string]).
Proof.
  unfold verdict, total, generateRecommendation, score.
  destruct (scoring subscription usageFrequency valueTrend costPerUse) as [sc rs].
  reflexivity.
Qed.

Lemma confidence_of_bounds (r : recommendation) (m : Z) :
  (0 <= m)%Z -> (0 <= Spec.confidence_of r m)%Q /\ (Spec.confidence_of r m <= 9 # 10)%Q.
Proof.
  intros Hm.
  assert (H50 : (0 <= inject_Z m / 50)%Q).
  { apply Qle_shift_div_l; [reflexivity|]. rewrite Qmult_0_l.
    change 0%Q with (inject_Z 0). now rewrite <- Zle_Qle. }
  assert (H30 : (0 <= inject_Z m / 30)%Q).
  { apply Qle_shift_div_l; [reflexivity|]. rewrite Qmult_0_l.
    change 0%Q with (inject_Z 0). now rewrite <- Zle_Qle. }
  destruct r; cbn [Spec.confidence_of].
  - split; [apply Q.min_glb; [discriminate|exact H50] | apply Q.le_min_l].
  - split; discriminate.
  - split; [apply Q.min_glb; [discriminate|exact H30] | apply Q.le_min_l].
Qed.

(** C9: the classifier answers keep exactly when the weighted score is at
    least 40, review exactly when it is in [10, 40), cancel exactly when
    it is below 10; the confidence is [Spec.confidence_of] of the verdict
    and of the magnitude of the score, a value between 0 and 0.9. *)
Theorem generateRecommendation_thresholds :
  (res_recommendation verdict = keep <-> 40 <= total)
  /\ (res_recommendation verdict = review <-> 10 <= total < 40)
  /\ (res_recommendation verdict = cancel <-> total < 10)
  /\ confidence verdict = Spec.confidence_of (res_recommendation verdict) (Z.abs total)
  /\ (0 <= confidence verdict)%Q
  /\ (confidence verdict <= 9 # 10)%Q.
Proof.
  assert (Hconf : confidence verdict
                  = Spec.confidence_of (res_recommendation verdict) (Z.abs total)).
  { rewrite generateRecommendation_unfold.
    destruct (Z.leb_spec 40 total) as [H40|H40]; cbn.
    - now rewrite Z.abs_eq by lia.
    - destruct (Z.leb_spec 10 total); reflexivity. }
  split; [|split; [|split; [|split; [exact Hconf|]]]].
  - rewrite generateRecommendation_unfold.
    destruct (Z.leb_spec 40 total); [|destruct (Z.leb_spec 10 total)]; cbn;
      split; intros; (lia || congruence).
  - rewrite generateRecommendation_unfold.
    destruct (Z.leb_spec 40 total); [|destruct (Z.leb_spec 10 total)]; cbn;
      split; intros; (lia || congruence).
  - rewrite generateRecommendation_unfold.
    destruct (Z.leb_spec 40 total); [|destruct (Z.leb_spec 10 total)]; cbn;
      split; intros; (lia || congruence).
  - rewrite Hconf. apply confidence_of_bounds. apply Z.abs_nonneg.
Qed.

End Classifier.

(** The classifier on three inputs, one per verdict. *)
Example generateRecommendation_samples :
  let g := SmartNotifications.generateRecommendation Samples.blank in
  (SmartNotifications.res_recommendation (g "daily" "stable" (SmartNotifications.Finite 6)),
   SmartNotifications.confidence (g "daily" "stable" (SmartNotifications.Finite 6)))
  = (SmartNotifications.keep, (40 # 50)%Q)
  /\ (SmartNotifications.res_recommendation (g "monthly" "stable" (SmartNotifications.Finite 6)),
      SmartNotifications.confidence (g "monthly" "stable" (SmartNotifications.Finite 6)))
     = (SmartNotifications.review, (7 # 10)%Q)
  /\ (SmartNotifications.res_recommendation (g "never" "decreasing" SmartNotifications.Infinity),
      SmartNotifications.confidence (g "never" "decreasing" SmartNotifications.Infinity))
     = (SmartNotifications.cancel, (9 # 10)%Q).
Proof. vm_compute. repeat split. Qed.

(** ** Sums of amounts *)

Section Sums.

Local Open Scope Q_scope.

(** A [reduce] that adds [f x] to a running total, from two starting
    totals that are equal as rationals. *)
Lemma reduce_add_proper {A : Type} (f : A -> Q) (l : list A) (a b : Q) :
  a == b ->
  Js.reduce (fun total x => total + f x) a l == Js.reduce (fun total x => total + f x) b l.
Proof.
  unfold Js.reduce. revert a b.
  induction l as [|x l IH]; intros a b Hab; cbn [fold_left]; [exact Hab|].
  apply IH. now rewrite Hab.
Qed.

Lemma reduce_add_shift {A : Type} (f : A -> Q) (l : list A) (a : Q) :
  Js.reduce (fun total x => total + f x) a l
  == a + Js.reduce (fun total x => total + f x) 0 l.
Proof.
  unfold Js.reduce. revert a.
  induction l as [|x l IH]; intros a; cbn [fold_left].
  - now rewrite Qplus_0_r.
  - rewrite (IH (a + f x)), (IH (0 + f x)). ring.
Qed.

(** The left-to-right total of [reduce] is the sum of the mapped list. *)
Lemma reduce_add_sumQ {A : Type} (f : A -> Q) (l : list A) :
  Js.reduce (fun total x => total + f x) 0 l == Spec.sumQ (map f l).
Proof.
  induction l as [|x l IH]; [reflexivity|].
  change (Js.reduce (fun total x => total + f x) (0 + f x) l
          == f x + Spec.sumQ (map f l)).
  rewrite reduce_add_shift, IH. ring.
Qed.

Lemma filter_andb {A : Type} (p q : A -> bool) (l : list A) :
  List.filter (fun x => p x && q x) l = List.filter q (List.filter p l).
Proof.
  induction l as [|x l IH]; cbn; [reflexivity|].
  destruct (p x); cbn; [destruct (q x)|]; now rewrite IH.
Qed.

End Sums.

(** ** Category breakdown

    The sum of the values of a dictionary, in an arithmetic whose
    additions can be regrouped. *)

Section ExactArithmetic.

Variable N : Number.t.
Variable eqv : Number.num N -> Number.num N -> Prop.
Hypothesis exact : Number.Exact N eqv.

#[local] Instance eqv_Equivalence : Equivalence eqv.
Proof. exact (Number.eqv_equivalence N eqv exact). Qed.

#[local] Instance add_Proper : Proper (eqv ==> eqv ==> eqv) (Number.add N).
Proof. intros a a' Ha b b' Hb. now apply (Number.add_proper N eqv exact). Qed.

Notation "a + b" := (Number.add N a b).

Lemma add_swap (a b c : Number.num N) : eqv ((a + b) + c) ((a + c) + b).
Proof.
  rewrite (Number.add_assoc N eqv exact a b c), (Number.add_comm N eqv exact b c).
  symmetry. apply (Number.add_assoc N eqv exact).
Qed.

Lemma sum_step_proper (v : JsObject.value (Number.num N)) :
  Proper (eqv ==> eqv)
    (fun acc => match v with
                | JsObject.Num a => acc + a
                | _ => acc
                end).
Proof. intros x y Hxy. destruct v; [now rewrite Hxy|exact Hxy|exact Hxy]. Qed.

Lemma sum_step_swap (v w : JsObject.value (Number.num N)) (y : Number.num N) :
  eqv (match v with
       | JsObject.Num a => (match w with JsObject.Num b => y + b | _ => y end) + a
       | _ => match w with JsObject.Num b => y + b | _ => y end
       end)
      (match w with
       | JsObject.Num b => (match v with JsObject.Num a => y + a | _ => y end) + b
       | _ => match v with JsObject.Num a => y + a | _ => y end
       end).
Proof. destruct v, w; try reflexivity. apply add_swap. Qed.

Lemma sum_of_values_empty : Spec.sum_of_values N ∅ = Number.zero N.
Proof.
  unfold Spec.sum_of_values.
  exact (map_fold_empty (A := JsObject.value (Number.num N)) _ _).
Qed.

Lemma sum_of_values_insert_fresh (o : JsObject.t (Number.num N)) (k : string)
    (v : Number.num N) :
  o !! k = None ->
  eqv (Spec.sum_of_values N (<[k := JsObject.Num v]> o)) (Spec.sum_of_values N o + v).
Proof.
  intros Hk. unfold Spec.sum_of_values.
  refine (map_fold_insert eqv
            (fun _ v acc => match v with
                            | JsObject.Num a => acc + a
                            | _ => acc
                            end) (Number.zero N) k (JsObject.Num v) o _ _ Hk).
  - intros j z. apply sum_step_proper.
  - intros j1 j2 z1 z2 y _ _ _. apply sum_step_swap.
Qed.

Lemma sum_of_values_delete (o : JsObject.t (Number.num N)) (k : string)
    (v : Number.num N) :
  o !! k = Some (JsObject.Num v) ->
  eqv (Spec.sum_of_values N o) (Spec.sum_of_values N (delete k o) + v).
Proof.
  intros Hk. unfold Spec.sum_of_values.
  refine (map_fold_delete eqv
            (fun _ v acc => match v with
                            | JsObject.Num a => acc + a
                            | _ => acc
                            end) (Number.zero N) k (JsObject.Num v) o _ _ Hk).
  - intros j z. apply sum_step_proper.
  - intros j1 j2 z1 z2 y _ _ _. apply sum_step_swap.
Qed.

(** On a name that is not inherited, reading and writing go to the own
    properties. *)
Lemma get_own {A : Type} (o : JsObject.t A) (k : string) :
  JsObject.inherited k = false -> JsObject.get o k = o !! k.
Proof. intros Hk. unfold JsObject.get. destruct (o !! k); [reflexivity|now rewrite Hk]. Qed.

Lemma set_own {A : Type} (o : JsObject.t A) (k : string) (v : JsObject.value A) :
  JsObject.inherited k = false -> JsObject.set o k v = <[k := v]> o.
Proof.
  intros Hk. unfold JsObject.set.
  destruct (String.eqb_spec k "__proto__") as [->|_]; [discriminate Hk|reflexivity].
Qed.

(** Writing under a key leaves the other keys alone. *)
Lemma set_other {A : Type} (o : JsObject.t A) (k c : string) (v : JsObject.value A) :
  k <> c -> JsObject.set o k v !! c = o !! c.
Proof.
  intros Hne. unfold JsObject.set.
  destruct (String.eqb k "__proto__"); [reflexivity|].
  now rewrite lookup_insert_ne.
Qed.

(** Adding [x] under a key that is not inherited, as
    [acc[k] = (acc[k] || 0) + x] does, adds [x] to the sum of the values
    when the key holds a number or nothing. *)
Lemma sum_of_values_accumulate (o : JsObject.t (Number.num N)) (k : string)
    (x : Number.num N) :
  JsObject.inherited k = false ->
  Props.numeric o ->
  eqv (Spec.sum_of_values N
         (JsObject.set o k
            (JsObject.or_zero_plus (Number.truthy N) (Number.zero N) (Number.add N)
               (JsObject.get o k) x)))
      (Spec.sum_of_values N o + x)
  /\ Props.numeric
       (JsObject.set o k
          (JsObject.or_zero_plus (Number.truthy N) (Number.zero N) (Number.add N)
             (JsObject.get o k) x)).
Proof.
  intros Hk Hnum. rewrite set_own, get_own by exact Hk.
  destruct (o !! k) as [[a| |]|] eqn:Ho; cbn [JsObject.or_zero_plus].
  - split.
    + rewrite <- (insert_delete_eq o k).
      rewrite sum_of_values_insert_fresh by apply lookup_delete_eq.
      rewrite (sum_of_values_delete o k a Ho).
      rewrite (Number.add_assoc N eqv exact).
      apply add_Proper; [reflexivity|]. apply add_Proper; [|reflexivity].
      destruct (Number.truthy N a) eqn:Ht; [reflexivity|].
      symmetry. now apply (Number.falsy_zero N eqv exact).
    + intros j w. rewrite lookup_insert_Some. intros [[_ <-]|[_ Hj]]; [now eexists|].
      exact (Hnum j w Hj).
  - destruct (Hnum k _ Ho) as [a Ha]. discriminate Ha.
  - destruct (Hnum k _ Ho) as [a Ha]. discriminate Ha.
  - split.
    + rewrite sum_of_values_insert_fresh by exact Ho.
      apply add_Proper; [reflexivity|]. apply (Number.add_zero_l N eqv exact).
    + intros j w. rewrite lookup_insert_Some. intros [[_ <-]|[_ Hj]]; [now eexists|].
      exact (Hnum j w Hj).
Qed.

Lemma categoryBreakdown_fold_sum (l : list Subscription.t) (o : JsObject.t (Number.num N))
    (t : Number.num N) :
  (forall s, In s l -> JsObject.inherited (Subscription.category s) = false) ->
  Props.numeric o ->
  eqv (Spec.sum_of_values N o) t ->
  eqv (Spec.sum_of_values N
         (Js.reduce
            (fun (acc : JsObject.t (Number.num N)) sub =>
               JsObject.set acc (Subscription.category sub)
                 (JsObject.or_zero_plus (Number.truthy N) (Number.zero N) (Number.add N)
                    (JsObject.get acc (Subscription.category sub))
                    (InArithmetic.getMonthlyCost N sub)))
            o l))
      (Js.reduce (fun total sub => total + InArithmetic.getMonthlyCost N sub) t l).
Proof.
  unfold Js.reduce. revert o t.
  induction l as [|s l IH]; intros o t Hl Hnum Hot; cbn [fold_left]; [exact Hot|].
  destruct (sum_of_values_accumulate o (Subscription.category s)
              (InArithmetic.getMonthlyCost N s) (Hl s (or_introl eq_refl)) Hnum)
    as [Hsum Hnum'].
  apply IH; [intros s' Hs'; apply Hl; now right|exact Hnum'|].
  rewrite Hsum. now rewrite Hot.
Qed.

Lemma categoryBreakdown_exact_sum (subs : list Subscription.t) :
  (forall s, In s subs -> Subscription.is_active s = true ->
             JsObject.inherited (Subscription.category s) = false) ->
  eqv (Spec.sum_of_values N (InArithmetic.categoryBreakdown N subs))
      (InArithmetic.totalMonthlyCost N subs).
Proof.
  intros Hsubs.
  unfold InArithmetic.categoryBreakdown, InArithmetic.totalMonthlyCost.
  apply categoryBreakdown_fold_sum.
  - intros s Hs. unfold activeSubs in Hs. apply filter_In in Hs.
    destruct Hs as [Hin Hact]. now apply Hsubs.
  - intros k v Hk. rewrite lookup_empty in Hk. discriminate Hk.
  - rewrite sum_of_values_empty. reflexivity.
Qed.

End ExactArithmetic.

(** In any arithmetic, the key of a category that is not an inherited
    name sees the amounts of that category only, in the order of the
    collection. *)
Lemma categoryBreakdown_fold_running (N : Number.t) (l : list Subscription.t)
    (o : JsObject.t (Number.num N)) (c : string) (acc : option (Number.num N)) :
  JsObject.inherited c = false ->
  o !! c = option_map JsObject.Num acc ->
  Js.reduce
    (fun (acc : JsObject.t (Number.num N)) sub =>
       JsObject.set acc (Subscription.category sub)
         (JsObject.or_zero_plus (Number.truthy N) (Number.zero N) (Number.add N)
            (JsObject.get acc (Subscription.category sub))
            (InArithmetic.getMonthlyCost N sub)))
    o l !! c
  = option_map JsObject.Num
      (fold_left
         (fun acc x =>
            Some (match acc with
                  | None => Number.add N (Number.zero N) x
                  | Some a =>
                      Number.add N (if Number.truthy N a then a else Number.zero N) x
                  end))
         (map (InArithmetic.getMonthlyCost N)
            (List.filter (fun s => String.eqb (Subscription.category s) c) l))
         acc).
Proof.
  intros Hc. unfold Js.reduce. revert o acc.
  induction l as [|s l IH]; intros o acc Ho; cbn [fold_left List.filter map]; [exact Ho|].
  destruct (String.eqb_spec (Subscription.category s) c) as [->|Hne].
  - cbn [map fold_left]. apply IH.
    rewrite set_own, get_own, lookup_insert_eq, Ho by exact Hc.
    destruct acc; reflexivity.
  - apply IH. now rewrite set_other by exact Hne.
Qed.

(** On exact rationals the three computations are those of the analytics
    memo. *)
Lemma exact_getMonthlyCost (sub : Subscription.t) :
  InArithmetic.getMonthlyCost Number.exact sub = getMonthlyCost sub.
Proof. reflexivity. Qed.

Lemma exact_totalMonthlyCost (subs : list Subscription.t) :
  InArithmetic.totalMonthlyCost Number.exact subs = totalMonthlyCost subs.
Proof. reflexivity. Qed.

Lemma exact_categoryBreakdown (subs : list Subscription.t) :
  InArithmetic.categoryBreakdown Number.exact subs = categoryBreakdown subs.
Proof. reflexivity. Qed.

(** Rational arithmetic is exact. *)
Lemma exact_rationals : Number.Exact Number.exact Qeq.
Proof.
  constructor; cbn.
  - apply Q_Setoid.
  - intros a a' b b' Ha Hb. now rewrite Ha, Hb.
  - intros a b c. ring.
  - intros a b. ring.
  - intros a. ring.
  - intros a Ha. apply negb_false_iff in Ha. now apply Qeq_bool_iff.
Qed.

(** C6, as far as the arithmetic allows. When no active subscription has a
    category named like a property that objects inherit, the numbers held
    by [categoryBreakdown] add up to [totalMonthlyCost] in exact
    arithmetic; and in any arithmetic, rounded or not, each key holds the
    amounts of its category added in the order of the collection, the
    same amounts that [totalMonthlyCost] adds in the order of the
    collection. *)
Theorem categoryBreakdown_sums_to_total :
  forall (now : Date) (subs : list Subscription.t),
    (forall s, In s subs -> Subscription.is_active s = true ->
               JsObject.inherited (Subscription.category s) = false) ->
    (Spec.sum_of_values Number.exact (Analytics.categoryBreakdown (analytics now subs))
     == Analytics.totalMonthlyCost (analytics now subs))%Q
    /\ (forall (N : Number.t) (c : string),
           JsObject.inherited c = false ->
           InArithmetic.categoryBreakdown N subs !! c
           = option_map JsObject.Num
               (Props.running_sum N
                  (map (InArithmetic.getMonthlyCost N)
                     (List.filter (Props.active_of_category c) subs)))).
Proof.
  intros now subs Hsubs. split.
  - rewrite analytics_categoryBreakdown, analytics_totalMonthlyCost.
    rewrite <- exact_categoryBreakdown, <- exact_totalMonthlyCost.
    exact (categoryBreakdown_exact_sum Number.exact Qeq exact_rationals subs Hsubs).
  - intros N c Hc. unfold InArithmetic.categoryBreakdown, Props.running_sum.
    rewrite (categoryBreakdown_fold_running N (activeSubs subs) ∅ c None Hc)
      by apply lookup_empty.
    unfold activeSubs. rewrite <- filter_andb. reflexivity.
Qed.

(** Two categories, three active subscriptions and one inactive; the
    breakdown holds 10 + 18 for Video and 5 for Music, the total is 33. *)
Lemma categoryBreakdown_sums_to_total_witness :
  (Spec.sum_of_values Number.exact
     (Analytics.categoryBreakdown (analytics Samples.now MoreSamples.two_categories))
   == Analytics.totalMonthlyCost (analytics Samples.now MoreSamples.two_categories))%Q.
Proof.
  refine (proj1 (categoryBreakdown_sums_to_total Samples.now
                   MoreSamples.two_categories _)).
  intros s [<-|[<-|[<-|[<-|[<-|[]]]]]] _; reflexivity.
Defined.

(** Decimal literals stand for the nearest binary64 number, as in
    JavaScript. *)
#[local] Set Warnings "-inexact-float".

(** C6, as stated, fails on the numbers of JavaScript: 9.99 and 0.10
    under one category and 9.99 under another give the values 10.09 and
    9.99, whose sum, taken in either order, is the number nearest to 20.08,
    while [totalMonthlyCost] adds 9.99, 9.99 and 0.10 in that order and
    ends one unit in the last place higher. *)
Lemma categoryBreakdown_sum_rounding_counterexample :
  InArithmetic.totalMonthlyCost Number.binary64 MoreSamples.three_prices
  = 20.080000000000002%float
  /\ InArithmetic.categoryBreakdown Number.binary64 MoreSamples.three_prices
     !! "Video"%string = Some (JsObject.Num 10.09%float)
  /\ InArithmetic.categoryBreakdown Number.binary64 MoreSamples.three_prices
     !! "Music"%string = Some (JsObject.Num 9.99%float)
  /\ size (InArithmetic.categoryBreakdown Number.binary64 MoreSamples.three_prices) = 2%nat
  /\ PrimFloat.add (PrimFloat.add 0%float 10.09%float) 9.99%float = 20.08%float
  /\ PrimFloat.add (PrimFloat.add 0%float 9.99%float) 10.09%float = 20.08%float
  /\ Spec.sum_of_values Number.binary64
       (InArithmetic.categoryBreakdown Number.binary64 MoreSamples.three_prices)
     = 20.08%float
  /\ PrimFloat.eqb 20.08%float 20.080000000000002%float = false.
Proof. vm_compute. repeat split. Qed.

Example categoryBreakdown_sample :
  let a := analytics Samples.now MoreSamples.two_categories in
  (Spec.amount_under 0 (Analytics.categoryBreakdown a) "Music" == 5)%Q
  /\ (Spec.amount_under 0 (Analytics.categoryBreakdown a) "Video" == 28)%Q
  /\ (Analytics.totalMonthlyCost a == 33)%Q.
Proof. vm_compute. repeat split. Qed.

(** ** The calendar

    [civil_from_days] and [days_from_civil] are inverse of each other on
    the dates of the Gregorian calendar, so that the month arithmetic of
    [addMonths] and [subMonths] is arithmetic on month indices. *)

(** [days_from_civil] in March-based terms. *)
Lemma dfc_march (y m d : Z) :
  days_from_civil y m d =
    let y' := if m <=? 2 then y - 1 else y in
    let mp := if 2 <? m then m - 3 else m + 9 in
    y' / 400 * 146097 + yearDays (y' mod 400) + monthDays mp + d - 1 - 719468.
Proof.
  unfold days_from_civil, yearDays, monthDays. cbv zeta.
  set (y' := if m <=? 2 then y - 1 else y).
  replace (y' - y' / 400 * 400) with (y' mod 400).
  2:{ pose proof (Z.div_mod y' 400 ltac:(lia)). lia. }
  lia.
Qed.

(** A day of a year of the era gives back the year. *)
Lemma year_level yoe doy : 0 <= yoe < 400 -> 0 <= doy ->
  yearDays yoe + doy < yearDays (yoe + 1) + (yoe + 1) / 400 ->
  let doe := yearDays yoe + doy in
  0 <= doe < 146097 /\
  (doe - doe / 1460 + doe / 36524 - doe / 146096) / 365 = yoe.
Proof.
  intros H1 H2 H3. cbv zeta. unfold yearDays in *.
  split; Z.to_euclidean_division_equations; lia.
Qed.

(** A day of a month of the March-based year gives back the month and
    the day. *)
Lemma month_level mp d : 0 <= mp < 12 -> 1 <= d ->
  d <= monthDays (mp + 1) - monthDays mp ->
  let doy := monthDays mp + d - 1 in
  (5 * doy + 2) / 153 = mp /\ doy - (153 * ((5 * doy + 2) / 153) + 2) / 5 + 1 = d.
Proof.
  intros Hmp Hd1 Hd2. cbv zeta. unfold monthDays in *.
  Z.to_euclidean_division_equations. lia.
Qed.

Lemma civil_from_days_era (era doe : Z) :
  0 <= doe < 146097 ->
  civil_from_days (era * 146097 + doe - 719468) = civil_of_era era doe.
Proof.
  intros Hdoe. unfold civil_from_days, civil_of_era. cbv zeta.
  replace (era * 146097 + doe - 719468 + 719468) with (doe + era * 146097) by lia.
  rewrite Z.div_add by lia. rewrite (Z.div_small doe 146097 Hdoe), Z.add_0_l.
  replace (doe + era * 146097 - era * 146097) with doe by lia.
  reflexivity.
Qed.

(** Reading back a day given by era, year, month and day of month. *)
Lemma cfd_march (era yoe mp d : Z) :
  0 <= yoe < 400 -> 0 <= mp < 12 -> 1 <= d ->
  d <= monthDays (mp + 1) - monthDays mp ->
  yearDays yoe + monthDays mp + d - 1 < yearDays (yoe + 1) + (yoe + 1) / 400 ->
  civil_from_days (era * 146097 + yearDays yoe + monthDays mp + d - 1 - 719468)
  = ((if (if mp <? 10 then mp + 3 else mp - 9) <=? 2 then yoe + era * 400 + 1 else yoe + era * 400),
     (if mp <? 10 then mp + 3 else mp - 9), d).
Proof.
  intros Hyoe Hmp Hd1 Hd2 Hy.
  assert (Hdoy : 0 <= monthDays mp + d - 1).
  { unfold monthDays. Z.to_euclidean_division_equations. lia. }
  destruct (year_level yoe (monthDays mp + d - 1) Hyoe Hdoy ltac:(lia)) as [Hdoe Hyoe'].
  destruct (month_level mp d Hmp Hd1 Hd2) as [Hmp' Hd'].
  cbv zeta in Hdoe, Hyoe', Hmp', Hd'.
  replace (era * 146097 + yearDays yoe + monthDays mp + d - 1 - 719468)
    with (era * 146097 + (yearDays yoe + (monthDays mp + d - 1)) - 719468) by lia.
  rewrite (civil_from_days_era _ _ Hdoe). unfold civil_of_era. cbv zeta.
  rewrite Hyoe'.
  replace (yearDays yoe + (monthDays mp + d - 1) - (365 * yoe + yoe / 4 - yoe / 100))
    with (monthDays mp + d - 1) by (unfold yearDays; lia).
  rewrite Hmp' in Hd'. rewrite Hmp', Hd'. reflexivity.
Qed.

(** Length of the March-based year and of its months. *)
Lemma year_length (yoe : Z) :
  0 <= yoe < 400 ->
  365 <= yearDays (yoe + 1) + (yoe + 1) / 400 - yearDays yoe <= 366.
Proof. unfold yearDays. intros. div_lia. Qed.

Lemma month_length (mp : Z) :
  0 <= mp < 11 ->
  30 <= monthDays (mp + 1) - monthDays mp <= 31 /\ monthDays (mp + 1) <= 337.
Proof. unfold monthDays. intros. div_lia. Qed.

Lemma monthDays_11 : monthDays 11 = 337 /\ monthDays 12 = 367.
Proof. split; reflexivity. Qed.

(** A month and the next one in March-based terms. *)
Lemma month_march (y m : Z) :
  1 <= m <= 12 ->
  exists era yoe mp,
    0 <= yoe < 400 /\ 0 <= mp < 12
    /\ y = (if m <=? 2 then yoe + era * 400 + 1 else yoe + era * 400)
    /\ m = (if mp <? 10 then mp + 3 else mp - 9)
    /\ days_from_civil y m 1 = era * 146097 + yearDays yoe + monthDays mp - 719468
    /\ nextMonthStart y m
       = if mp =? 11
         then era * 146097 + yearDays (yoe + 1) + (yoe + 1) / 400 - 719468
         else era * 146097 + yearDays yoe + monthDays (mp + 1) - 719468.
Proof.
  intros Hm.
  exists ((if m <=? 2 then y - 1 else y) / 400), ((if m <=? 2 then y - 1 else y) mod 400),
    (if 2 <? m then m - 3 else m + 9).
  unfold nextMonthStart. rewrite !dfc_march. cbv zeta.
  unfold yearDays, monthDays.
  repeat split; repeat case_if; try lia; div_lia.
Qed.

Lemma month_days_civil (y m : Z) :
  1 <= m <= 12 ->
  28 <= nextMonthStart y m - days_from_civil y m 1 <= 31
  /\ forall k, 0 <= k < nextMonthStart y m - days_from_civil y m 1 ->
       civil_from_days (days_from_civil y m 1 + k) = (y, m, k + 1).
Proof.
  intros Hm.
  destruct (month_march y m Hm) as (era & yoe & mp & Hyoe & Hmp & Hy & Hm' & Hstart & Hnext).
  rewrite Hstart, Hnext.
  pose proof (year_length yoe Hyoe) as Hyl.
  destruct (Z.eqb_spec mp 11) as [->|Hne].
  - destruct monthDays_11 as [E11 E12]. split; [lia|].
    intros k Hk.
    replace (era * 146097 + yearDays yoe + monthDays 11 - 719468 + k)
      with (era * 146097 + yearDays yoe + monthDays 11 + (k + 1) - 1 - 719468) by lia.
    pose proof (cfd_march era yoe 11 (k + 1)) as Hc.
    change (11 + 1) with 12 in Hc. rewrite Hc by lia.
    rewrite Hy, Hm'. reflexivity.
  - destruct (month_length mp ltac:(lia)) as [Hml Hm337]. split; [lia|].
    intros k Hk.
    replace (era * 146097 + yearDays yoe + monthDays mp - 719468 + k)
      with (era * 146097 + yearDays yoe + monthDays mp + (k + 1) - 1 - 719468) by lia.
    rewrite cfd_march; [|lia..].
    rewrite Hy, Hm'. reflexivity.
Qed.

(** Four hundred years are 146097 days. *)
Lemma days_from_civil_shift (y m d k : Z) :
  days_from_civil (y + 400 * k) m d = days_from_civil y m d + 146097 * k.
Proof.
  unfold days_from_civil.
  assert (Hera : forall y', (y' + k * 400) / 400 = y' / 400 + k)
    by (intros; apply Z.div_add; lia).
  assert (Hyoe : forall y', y' + k * 400 - (y' / 400 + k) * 400 = y' - y' / 400 * 400)
    by (intros; lia).
  destruct (m <=? 2).
  - replace (y + 400 * k - 1) with (y - 1 + k * 400) by lia.
    rewrite Hera, Hyoe. lia.
  - replace (y + 400 * k) with (y + k * 400) by lia.
    rewrite Hera, Hyoe. lia.
Qed.

Lemma monthStart_shift (mi k : Z) :
  monthStart (mi + 4800 * k) = monthStart mi + 146097 * k.
Proof.
  unfold monthStart.
  replace (mi + 4800 * k) with (mi + (400 * k) * 12) by lia.
  rewrite Z.div_add, Z.mod_add by lia.
  apply days_from_civil_shift.
Qed.

Lemma daysInMonthIndex_monthStart mi : daysInMonthIndex mi = monthStart (mi + 1) - monthStart mi.
Proof. reflexivity. Qed.

(** Every month, in any year, has 28 to 31 days and is read back day by
    day. *)
Lemma month_days (mi : Z) :
  28 <= daysInMonthIndex mi <= 31
  /\ forall k, 0 <= k < daysInMonthIndex mi ->
       civil_from_days (monthStart mi + k) = (mi / 12, mi mod 12 + 1, k + 1).
Proof.
  rewrite daysInMonthIndex_monthStart.
  assert (Hm : 1 <= mi mod 12 + 1 <= 12) by div_lia.
  assert (Hnext : monthStart (mi + 1) = nextMonthStart (mi / 12) (mi mod 12 + 1)).
  { unfold monthStart, nextMonthStart. case_if; f_equal; div_lia. }
  rewrite Hnext. apply (month_days_civil _ _ Hm).
Qed.

(** Day number of 1 March of year 0. *)
Lemma monthStart_2 : monthStart 2 = -719468.
Proof. reflexivity. Qed.

(** Months tile the days: a day between the starts of two months lies in
    one of the months in between. *)
Lemma month_between (z : Z) (n : nat) (a : Z) :
  monthStart a <= z < monthStart (a + Z.of_nat n) ->
  exists mi, monthStart mi <= z < monthStart (mi + 1).
Proof.
  revert a. induction n as [|n IH]; intros a H; [replace (a + Z.of_nat 0) with a in H; lia|].
  destruct (Z_lt_le_dec z (monthStart (a + 1))) as [Hlt|Hge].
  - exists a. lia.
  - apply (IH (a + 1)). replace (a + 1 + Z.of_nat n) with (a + Z.of_nat (S n)) by lia. lia.
Qed.

Lemma month_of_day (z : Z) :
  exists mi k, 0 <= k < daysInMonthIndex mi /\ z = monthStart mi + k.
Proof.
  set (e := (z + 719468) / 146097).
  assert (H : monthStart (4800 * e + 2) <= z < monthStart (4800 * e + 2 + Z.of_nat 4800)).
  { replace (4800 * e + 2 + Z.of_nat 4800) with (2 + 4800 * (e + 1)) by lia.
    replace (4800 * e + 2) with (2 + 4800 * e) by lia.
    rewrite !monthStart_shift, monthStart_2.
    pose proof (Z.div_mod (z + 719468) 146097 ltac:(lia)).
    pose proof (Z.mod_pos_bound (z + 719468) 146097 ltac:(lia)).
    fold e in H. lia. }
  destruct (month_between _ _ _ H) as [mi Hmi].
  exists mi, (z - monthStart mi). rewrite daysInMonthIndex_monthStart. lia.
Qed.

(** [civil_from_days] yields a date of the calendar, and
    [days_from_civil] maps it back. *)
Lemma civil_from_days_valid (z : Z) :
  let '(y, m, d) := civil_from_days z in
  1 <= m <= 12 /\ 1 <= d <= daysInMonthIndex (y * 12 + m - 1)
  /\ days_from_civil y m d = z.
Proof.
  destruct (month_of_day z) as (mi & k & Hk & ->).
  destruct (month_days mi) as [Hdim Hcivil]. rewrite (Hcivil k Hk).
  pose proof (Z.div_mod mi 12 ltac:(lia)).
  pose proof (Z.mod_pos_bound mi 12 ltac:(lia)).
  replace (mi / 12 * 12 + (mi mod 12 + 1) - 1) with mi by lia.
  repeat split; try lia.
  unfold monthStart, days_from_civil. lia.
Qed.

(** And conversely, on the dates of the calendar. *)
Lemma civil_from_days_of_civil (y m d : Z) :
  1 <= m <= 12 -> 1 <= d <= daysInMonthIndex (y * 12 + m - 1) ->
  civil_from_days (days_from_civil y m d) = (y, m, d).
Proof.
  intros Hm Hd. set (mi := y * 12 + m - 1) in *.
  assert (Ey : mi / 12 = y).
  { unfold mi. replace (y * 12 + m - 1) with (m - 1 + y * 12) by lia.
    rewrite Z.div_add by lia. rewrite Z.div_small by lia. lia. }
  assert (Em : mi mod 12 + 1 = m).
  { unfold mi. replace (y * 12 + m - 1) with (m - 1 + y * 12) by lia.
    rewrite Z.mod_add by lia. rewrite Z.mod_small by lia. lia. }
  destruct (month_days mi) as [_ Hcivil].
  specialize (Hcivil (d - 1) ltac:(lia)).
  rewrite Ey, Em in Hcivil. replace (d - 1 + 1) with d in Hcivil by lia.
  rewrite <- Hcivil. f_equal.
  unfold monthStart. rewrite Ey, Em. unfold days_from_civil. lia.
Qed.

Lemma getMonth_range (d : Date) : 0 <= getMonth d <= 11.
Proof.
  unfold getMonth. pose proof (civil_from_days_valid (dayNumber d)) as H.
  destruct (civil_from_days (dayNumber d)) as [[y m] dd]. lia.
Qed.

Lemma getDate_range (d : Date) :
  1 <= getDate d <= daysInMonthIndex (monthIndex d).
Proof.
  unfold getDate, monthIndex, getFullYear, getMonth.
  pose proof (civil_from_days_valid (dayNumber d)) as H.
  destruct (civil_from_days (dayNumber d)) as [[y m] dd].
  replace (y * 12 + (m - 1)) with (y * 12 + m - 1) by lia. lia.
Qed.

(** Same year and same month: same month index. *)
Lemma isSameMonth_monthIndex (a b : Date) :
  isSameMonth a b = (monthIndex a =? monthIndex b).
Proof.
  unfold isSameMonth, monthIndex.
  pose proof (getMonth_range a). pose proof (getMonth_range b).
  destruct (Z.eqb_spec (getFullYear a) (getFullYear b)) as [Ey|Ny];
    destruct (Z.eqb_spec (getMonth a) (getMonth b)) as [Em|Nm]; cbn [andb];
    symmetry; [apply Z.eqb_eq|apply Z.eqb_neq..]; lia.
Qed.

Lemma dayNumber_at (z : Z) (d : Date) : dayNumber (z * msPerDay + timeOfDay d) = z.
Proof.
  unfold dayNumber, timeOfDay, msPerDay.
  pose proof (Z.mod_pos_bound d 86400000 ltac:(lia)).
  rewrite Z.add_comm, Z.div_add by lia. rewrite Z.div_small by lia. lia.
Qed.

(** [addMonths] moves the month by the amount, whatever the day. *)
Lemma monthIndex_addMonths (d : Date) (amount : Z) :
  monthIndex (addMonths d amount) = monthIndex d + amount.
Proof.
  unfold addMonths. destruct (Z.eqb_spec amount 0) as [->|Hne]; [lia|].
  fold (monthIndex d). set (mi := monthIndex d + amount).
  set (dom := if daysInMonthIndex mi <=? getDate d then daysInMonthIndex mi else getDate d).
  assert (Hdom : 1 <= dom <= daysInMonthIndex mi).
  { pose proof (getDate_range d). destruct (month_days mi) as [Hdim _].
    unfold dom. destruct (Z.leb_spec (daysInMonthIndex mi) (getDate d)); lia. }
  pose proof (Z.div_mod mi 12 ltac:(lia)) as Hdm.
  pose proof (Z.mod_pos_bound mi 12 ltac:(lia)) as Hr.
  unfold monthIndex at 1, getFullYear, getMonth. rewrite dayNumber_at.
  rewrite civil_from_days_of_civil; [lia|lia|].
  replace (mi / 12 * 12 + (mi mod 12 + 1) - 1) with mi by lia. exact Hdom.
Qed.

Lemma monthIndex_subMonths (d : Date) (amount : Z) :
  monthIndex (subMonths d amount) = monthIndex d - amount.
Proof. unfold subMonths. rewrite monthIndex_addMonths. lia. Qed.

(** ** Mindful streak *)

Section Streak.

Variable now : Date.

Lemma mindfulStreak_loop_ge (subs : list Subscription.t) (n : nat) (i k : Z) :
  k <= mindfulStreak_loop now subs n i k.
Proof.
  revert i k. induction n as [|n IH]; intros i k; cbn [mindfulStreak_loop]; [lia|].
  destruct (Js.some _ subs); [|lia].
  specialize (IH (i + 1) (k + 1)). lia.
Qed.

Lemma mindfulStreak_loop_le (subs : list Subscription.t) (n : nat) (i k : Z) :
  mindfulStreak_loop now subs n i k <= k + Z.of_nat n.
Proof.
  revert i k. induction n as [|n IH]; intros i k; cbn [mindfulStreak_loop]; [lia|].
  destruct (Js.some _ subs); [|lia].
  specialize (IH (i + 1) (k + 1)). lia.
Qed.

Lemma some_filter {A : Type} (p keep : A -> bool) (l : list A) :
  Js.some p (List.filter keep l) = true -> Js.some p l = true.
Proof.
  unfold Js.some. rewrite !existsb_exists.
  intros (x & Hx & Hp). apply filter_In in Hx. exists x. tauto.
Qed.

(** Dropping subscriptions, whichever they are, never lengthens the walk. *)
Lemma mindfulStreak_loop_filter (keep : Subscription.t -> bool)
    (subs : list Subscription.t) (n : nat) (i k : Z) :
  mindfulStreak_loop now (List.filter keep subs) n i k
  <= mindfulStreak_loop now subs n i k.
Proof.
  revert i k. induction n as [|n IH]; intros i k; cbn [mindfulStreak_loop]; [lia|].
  destruct (Js.some _ (List.filter keep subs)) eqn:Hf.
  - apply some_filter in Hf. rewrite Hf. apply IH.
  - destruct (Js.some _ subs); [|lia].
    pose proof (mindfulStreak_loop_ge subs n (i + 1) (k + 1)). lia.
Qed.

(** The streak is a number of months between 0 and 12. *)
Lemma mindfulStreak_range (subs : list Subscription.t) :
  0 <= Analytics.mindfulStreak (analytics now subs) <= 12.
Proof.
  rewrite analytics_mindfulStreak. unfold mindfulStreak. split.
  - apply mindfulStreak_loop_ge.
  - apply (mindfulStreak_loop_le subs 12 0 0).
Qed.

(** The test of the loop at step [i] looks at the calendar month [i]
    months before the current one. *)
Lemma mindfulStreak_test (subs : list Subscription.t) (i : Z) :
  Js.some (fun s => isSameMonth (Subscription.created_at s) (subMonths now i)) subs
  = Spec.created_months_back now subs i.
Proof.
  unfold Js.some, Spec.created_months_back.
  induction subs as [|s subs IH]; cbn [existsb]; [reflexivity|].
  now rewrite IH, isSameMonth_monthIndex, monthIndex_subMonths.
Qed.

Lemma mindfulStreak_loop_spec (subs : list Subscription.t) (n : nat) (i k : Z) :
  let r := mindfulStreak_loop now subs n i k in
  k <= r <= k + Z.of_nat n
  /\ (forall j, 0 <= j < r - k -> Spec.created_months_back now subs (i + j) = true)
  /\ (r - k < Z.of_nat n -> Spec.created_months_back now subs (i + (r - k)) = false).
Proof.
  revert i k. induction n as [|n IH]; intros i k; cbn [mindfulStreak_loop]; cbv zeta.
  - repeat split; lia.
  - rewrite mindfulStreak_test.
    destruct (Spec.created_months_back now subs i) eqn:Hi.
    + specialize (IH (i + 1) (k + 1)). cbv zeta in IH.
      set (r := mindfulStreak_loop now subs n (i + 1) (k + 1)) in *.
      destruct IH as (Hr & Hall & Hstop). split; [lia|split].
      * intros j Hj. destruct (Z.eq_dec j 0) as [->|Hj0].
        { now rewrite Z.add_0_r. }
        replace (i + j) with (i + 1 + (j - 1)) by lia. apply Hall. lia.
      * intros Hlt. replace (i + (r - k)) with (i + 1 + (r - (k + 1))) by lia.
        apply Hstop. lia.
    + split; [lia|split].
      * intros j Hj. lia.
      * intros _. now rewrite Z.sub_diag, Z.add_0_r.
Qed.

(** X10: the streak is the number of consecutive calendar months, from the
    current one backwards, in each of which some subscription (active or
    not) was created, counted up to 12. *)
Lemma mindfulStreak_characterisation (subs : list Subscription.t) :
  let k := Analytics.mindfulStreak (analytics now subs) in
  0 <= k <= 12
  /\ (forall j, 0 <= j < k -> Spec.created_months_back now subs j = true)
  /\ (k < 12 -> Spec.created_months_back now subs k = false).
Proof.
  cbv zeta. rewrite analytics_mindfulStreak. unfold mindfulStreak.
  pose proof (mindfulStreak_loop_spec subs 12 0 0) as H. cbv zeta in H.
  set (r := mindfulStreak_loop now subs 12 0 0) in *.
  destruct H as (Hr & Hall & Hstop).
  rewrite Z.sub_0_r in Hall, Hstop. cbn [Z.add] in Hall, Hstop.
  split; [lia|split]; [exact Hall|intros Hk; apply Hstop; lia].
Qed.

(** C8: removing from the collection the subscriptions created in the
    most recent month does not increase [mindfulStreak]. The month is
    given by any instant [recent] in it, so the statement covers the
    current month ([recent := now]) as well as the latest month in which
    a subscription was created. *)
Theorem mindfulStreak_remove_recent_month :
  forall (recent : Date) (subs : list Subscription.t),
    let reduced :=
      List.filter (fun s => negb (isSameMonth (Subscription.created_at s) recent)) subs in
    Analytics.mindfulStreak (analytics now reduced)
    <= Analytics.mindfulStreak (analytics now subs).
Proof.
  intros recent subs reduced. rewrite !analytics_mindfulStreak.
  apply mindfulStreak_loop_filter.
Qed.

(** Nothing created in the current month: the streak is 0. *)
Lemma mindfulStreak_zero (subs : list Subscription.t) :
  Js.some (fun s => isSameMonth (Subscription.created_at s) now) subs = false ->
  Analytics.mindfulStreak (analytics now subs) = 0.
Proof.
  intros H. rewrite analytics_mindfulStreak.
  unfold mindfulStreak. cbn [mindfulStreak_loop].
  change (subMonths now 0) with now. now rewrite H.
Qed.

End Streak.

(** Subscriptions created in March, February and January 2024, seen from
    15 March: a streak of 3; without those of March, a streak of 0. *)
Example mindfulStreak_sample :
  let mk d := Subscription.mk "m" "Plan" 1 "monthly" (utc 2024 6 1) "Video" true
                None None None d None in
  let subs := [mk (utc 2024 3 1); mk (utc 2024 2 10); mk (utc 2024 1 31); mk (utc 2023 11 5)] in
  Analytics.mindfulStreak (analytics Samples.now subs) = 3
  /\ Analytics.mindfulStreak
       (analytics Samples.now
          (List.filter
             (fun s => negb (isSameMonth (Subscription.created_at s) Samples.now)) subs)) = 0.
Proof. vm_compute. split; reflexivity. Qed.

(** ** Duplicate-category insights *)

Section Duplicates.

Variable now : Date.

Lemma some_count {A : Type} (p : A -> bool) (l : list A) :
  Js.some p l = negb (length (List.filter p l) =? 0)%nat.
Proof.
  unfold Js.some. induction l as [|x l IH]; cbn; [reflexivity|].
  destruct (p x); cbn; [reflexivity|exact IH].
Qed.

(** Under a name that is not inherited, [categoryCounts] counts the
    subscriptions folded in. *)
Lemma categoryCounts_fold_lookup (l : list Subscription.t) (m : JsObject.t Z) (c : string) :
  JsObject.inherited c = false ->
  (forall v, m !! c = Some v -> exists n, v = JsObject.Num n) ->
  let counts :=
    Js.reduce
      (fun (acc : JsObject.t Z) sub =>
         JsObject.set acc (Subscription.category sub)
           (JsObject.or_zero_plus (fun n => negb (n =? 0)) 0 Z.add
              (JsObject.get acc (Subscription.category sub)) 1))
      m l in
  (forall v, counts !! c = Some v -> exists n, v = JsObject.Num n)
  /\ Spec.amount_under 0 counts c
     = Spec.amount_under 0 m c
       + Z.of_nat (length (List.filter (fun s => String.eqb (Subscription.category s) c) l)).
Proof.
  intros Hc. unfold Js.reduce. revert m.
  induction l as [|s l IH]; intros m Hm; cbn [fold_left List.filter];
    [cbn [length Z.of_nat]; split; [exact Hm|now rewrite Z.add_0_r]|].
  cbv zeta in IH.
  destruct (String.eqb_spec (Subscription.category s) c) as [->|Hne].
  - rewrite set_own, get_own by exact Hc.
    match goal with
    | |- context [fold_left ?f l ?m'] => destruct (IH m') as [IHn IHv]
    end.
    { intros v. rewrite lookup_insert_eq. intros [= <-].
      destruct (m !! c) as [[n| |]|] eqn:E; cbn [JsObject.or_zero_plus];
        try (now eexists); destruct (Hm _ eq_refl) as [n Hn]; discriminate Hn. }
    split; [exact IHn|]. rewrite IHv. unfold Spec.amount_under at 1 2.
    rewrite lookup_insert_eq.
    destruct (m !! c) as [[n| |]|] eqn:E; cbn [JsObject.or_zero_plus length];
      try (destruct (Hm _ eq_refl) as [n Hn]; discriminate Hn).
    + destruct (Z.eqb_spec n 0); cbn [negb]; lia.
    + lia.
  - match goal with
    | |- context [fold_left ?f l ?m'] => destruct (IH m') as [IHn IHv]
    end.
    { intros v. rewrite set_other by exact Hne. apply Hm. }
    split; [exact IHn|]. rewrite IHv. unfold Spec.amount_under at 1 2.
    now rewrite set_other by exact Hne.
Qed.

(** Under an inherited name, it never holds a number. *)
Lemma categoryCounts_fold_inherited (l : list Subscription.t) (m : JsObject.t Z)
    (c : string) :
  JsObject.inherited c = true ->
  (forall n, m !! c <> Some (JsObject.Num n)) ->
  forall n,
    Js.reduce
      (fun (acc : JsObject.t Z) sub =>
         JsObject.set acc (Subscription.category sub)
           (JsObject.or_zero_plus (fun n => negb (n =? 0)) 0 Z.add
              (JsObject.get acc (Subscription.category sub)) 1))
      m l !! c <> Some (JsObject.Num n).
Proof.
  intros Hc. unfold Js.reduce. revert m.
  induction l as [|s l IH]; intros m Hm; cbn [fold_left]; [exact Hm|].
  apply IH. intros n.
  destruct (String.eqb_spec (Subscription.category s) c) as [->|Hne].
  - unfold JsObject.set, JsObject.get.
    destruct (String.eqb c "__proto__"); [apply Hm|].
    rewrite lookup_insert_eq, Hc.
    destruct (m !! c) as [[k| |]|] eqn:E; cbn [JsObject.or_zero_plus];
      try discriminate.
    exfalso. exact (Hm k eq_refl).
  - rewrite set_other by exact Hne. apply Hm.
Qed.

(** The test [categoryCounts[c] > 1]. *)
Lemma categoryCounts_exceeds (subs : list Subscription.t) (c : string) :
  JsObject.exceeds (JsObject.get (categoryCounts subs) c) 1
  = negb (JsObject.inherited c) && (1 <? Z.of_nat (Spec.active_in_category c subs)).
Proof.
  unfold categoryCounts, Spec.active_in_category. rewrite filter_andb.
  change (List.filter Subscription.is_active subs) with (activeSubs subs).
  destruct (JsObject.inherited c) eqn:Hc; cbn [negb andb].
  - pose proof (categoryCounts_fold_inherited (activeSubs subs) ∅ c Hc) as H.
    unfold JsObject.get. rewrite Hc.
    match goal with
    | |- context [?o !! c] => destruct (o !! c) as [[n| |]|] eqn:E; try reflexivity
    end.
    exfalso. refine (H _ n E). intros k. rewrite lookup_empty. discriminate.
  - destruct (categoryCounts_fold_lookup (activeSubs subs) ∅ c Hc) as [Hn Hv].
    { intros v. rewrite lookup_empty. discriminate. }
    rewrite get_own by exact Hc.
    unfold Spec.amount_under in Hv. rewrite lookup_empty, Z.add_0_l in Hv.
    match goal with
    | |- context [?o !! c] => destruct (o !! c) as [[n| |]|] eqn:E
    end; cbn [JsObject.exceeds].
    + now rewrite Hv.
    + destruct (Hn _ eq_refl) as [n Hn']. discriminate Hn'.
    + destruct (Hn _ eq_refl) as [n Hn']. discriminate Hn'.
    + rewrite <- Hv. reflexivity.
Qed.

Lemma duplicate_insights_push (c : string) (b : bool) (x : Insight.t) (l : list Insight.t) :
  Spec.duplicate_insights c (push_if b x l)
  = (Spec.duplicate_insights c l
     + (if b && Spec.is_duplicate_for c x then 1 else 0))%nat.
Proof.
  unfold Spec.duplicate_insights, push_if. destruct b; cbn [andb]; [|lia].
  rewrite List.filter_app, List.length_app. cbn [List.filter].
  destruct (Spec.is_duplicate_for c x); cbn [length]; lia.
Qed.

(** One call of the callback adds a duplicate-category insight for [c]
    exactly when the subscription is of category [c], the category holds
    more than one active subscription and none was pushed for it yet. *)
Lemma recommend_step_duplicates (counts : JsObject.t Z) (recs : list Insight.t)
    (sub : Subscription.t) (c : string) :
  Spec.duplicate_insights c (recommend_step now counts recs sub)
  = (Spec.duplicate_insights c recs
     + (if JsObject.exceeds (JsObject.get counts (Subscription.category sub)) 1
           && (Spec.duplicate_insights (Subscription.category sub) recs =? 0)%nat
           && String.eqb (Subscription.category sub) c
        then 1 else 0))%nat.
Proof.
  unfold recommend_step.
  rewrite duplicate_insights_push.
  unfold already_flagged.
  rewrite (some_count (fun i => Insight.kind_eqb (Insight.type i) Insight.duplicate_category
                                && String.eqb (Subscription.category (Insight.subscription i))
                                     (Subscription.category sub))).
  change (length (List.filter _ ?l)) with
    (Spec.duplicate_insights (Subscription.category sub) l).
  rewrite !duplicate_insights_push.
  unfold Spec.is_duplicate_for at 1 2 3 4 5 6 7.
  cbn [Insight.type Insight.subscription Insight.kind_eqb andb].
  rewrite !andb_false_r, !Nat.add_0_r, negb_involutive.
  reflexivity.
Qed.

Lemma recommendations_fold_duplicates (counts : JsObject.t Z)
    (l : list Subscription.t) (c : string) :
  Spec.duplicate_insights c (fold_left (recommend_step now counts) l [])
  = if JsObject.exceeds (JsObject.get counts c) 1
       && Js.some (fun s => String.eqb (Subscription.category s) c) l
    then 1%nat else 0%nat.
Proof.
  induction l as [|sub l IH] using rev_ind.
  - cbn. now rewrite andb_false_r.
  - rewrite fold_left_app. cbn [fold_left].
    rewrite recommend_step_duplicates.
    unfold Js.some in *. rewrite existsb_app. cbn [existsb]. rewrite orb_false_r.
    destruct (String.eqb_spec (Subscription.category sub) c) as [Heq|Hne].
    + rewrite Heq, IH, orb_true_r, !andb_true_r.
      destruct (JsObject.exceeds (JsObject.get counts c) 1); cbn [andb]; [|reflexivity].
      destruct (existsb _ l); reflexivity.
    + rewrite IH, andb_false_r, orb_false_r. lia.
Qed.

(** C4: a category named like a property that objects inherit
    ([constructor], [toString], [__proto__], ...) never gets a
    [duplicate_category] insight, however many active subscriptions share
    it: the count kept for it is not a number. Any other category with
    more than one active subscription gets exactly one, and none with at
    most one. *)
Theorem duplicate_category_inherited_name :
  forall (subs : list Subscription.t) (c : string),
    let recs := Analytics.recommendations (analytics now subs) in
    (JsObject.inherited c = true -> Spec.duplicate_insights c recs = 0%nat)
    /\ (JsObject.inherited c = false ->
        ((1 < Spec.active_in_category c subs)%nat -> Spec.duplicate_insights c recs = 1%nat)
        /\ ((Spec.active_in_category c subs <= 1)%nat ->
            Spec.duplicate_insights c recs = 0%nat)).
Proof.
  intros subs c recs.
  assert (Hrecs : Spec.duplicate_insights c recs
                  = if negb (JsObject.inherited c)
                       && (1 <? Z.of_nat (Spec.active_in_category c subs))
                    then 1%nat else 0%nat).
  { subst recs. rewrite analytics_recommendations.
    unfold recommendations. rewrite recommendations_fold_duplicates.
    rewrite categoryCounts_exceeds.
    destruct (JsObject.inherited c); cbn [negb andb]; [reflexivity|].
    destruct (Z.ltb_spec 1 (Z.of_nat (Spec.active_in_category c subs))) as [Hgt|Hle];
      cbn [andb]; [|reflexivity].
    rewrite some_count.
    unfold Spec.active_in_category in Hgt. unfold activeSubs.
    rewrite <- filter_andb.
    destruct (length _) eqn:E; [lia|reflexivity]. }
  rewrite Hrecs. split; [intros ->; reflexivity|]. intros ->. cbn [negb andb].
  split; intros H.
  - destruct (Z.ltb_spec 1 (Z.of_nat (Spec.active_in_category c subs))); [reflexivity|lia].
  - destruct (Z.ltb_spec 1 (Z.of_nat (Spec.active_in_category c subs))); [lia|reflexivity].
Qed.

End Duplicates.

(** Two active subscriptions of a category named [constructor] and two of
    the category Music: only Music gets its insight. *)
Example duplicate_category_constructor_sample :
  let subs := [MoreSamples.priced "k1" "constructor" 10;
               MoreSamples.priced "k2" "constructor" 10;
               Samples.music "a" true; Samples.music "c" true] in
  Spec.active_in_category "constructor" subs = 2%nat
  /\ map (fun i => (Insight.id i, Insight.type i))
       (Analytics.recommendations (analytics Samples.now subs))
     = [("a-dupe"%string, Insight.duplicate_category)].
Proof. vm_compute. split; reflexivity. Qed.

(** The insight is attached to the first active subscription of the
    category. *)
Example duplicate_category_sample :
  map (fun i => (Insight.id i, Insight.type i))
    (Analytics.recommendations (analytics Samples.now Samples.playlist))
  = [("a-dupe"%string, Insight.duplicate_category)].
Proof. vm_compute. reflexivity. Qed.

(** ** Upcoming renewals *)

Section Renewals.

Variable now : Date.

Lemma filter_sublist {A : Type} (p : A -> bool) (l : list A) :
  sublist (List.filter p l) l.
Proof.
  induction l as [|x l IH]; cbn [List.filter]; [apply sublist_nil|].
  destruct (p x); [apply sublist_skip|apply sublist_cons]; exact IH.
Qed.

Lemma upcomingRenewals_filter (subs : list Subscription.t) :
  upcomingRenewals now subs
  = List.filter (fun s => Subscription.is_active s && Spec.renews_within_week now s) subs.
Proof. rewrite filter_andb. reflexivity. Qed.

(** Zero to seven full days, truncated towards zero, is more than minus
    one day and less than eight days. *)
Lemma renews_within_week_instants (s : Subscription.t) :
  Spec.renews_within_week now s = Spec.in_look_ahead now (Subscription.next_renewal_date s).
Proof.
  unfold Spec.renews_within_week, Spec.in_look_ahead, differenceInDays, msPerDay.
  set (d := Subscription.next_renewal_date s).
  apply eq_iff_eq_true. rewrite !andb_true_iff, !Z.leb_le, !Z.ltb_lt.
  split; intros [H1 H2]; split; Z.to_euclidean_division_equations; lia.
Qed.

(** C2, as the code has it: [upcomingRenewals] holds exactly the active
    subscriptions whose renewal date is between 0 and 7 full days after
    the reference time, the days being truncated towards zero: later than
    one day before [now] and earlier than eight days after it. Each is
    there as often as in the collection, and in the order of the
    collection; the engine does not sort them. *)
Theorem upcomingRenewals_input_order :
  forall subs : list Subscription.t,
    let result := Analytics.upcomingRenewals (analytics now subs) in
    (forall s, In s result <->
               In s subs
               /\ Subscription.is_active s = true
               /\ now - msPerDay < Subscription.next_renewal_date s < now + 8 * msPerDay)
    /\ result
       = List.filter
           (fun s => Subscription.is_active s
                     && Spec.in_look_ahead now (Subscription.next_renewal_date s))
           subs
    /\ sublist result subs.
Proof.
  intros subs result. subst result.
  rewrite analytics_upcomingRenewals, upcomingRenewals_filter.
  rewrite (filter_ext _
             (fun s => Subscription.is_active s
                       && Spec.in_look_ahead now (Subscription.next_renewal_date s)))
    by (intros s; now rewrite renews_within_week_instants).
  split; [|split; [reflexivity|apply filter_sublist]].
  intros s. rewrite filter_In. unfold Spec.in_look_ahead.
  rewrite !andb_true_iff, !Z.ltb_lt. tauto.
Qed.

(** The sorted list the claim describes is indeed ascending: the stable
    sort by renewal date leaves no later renewal before an earlier one. *)
Lemma ascending_cons (a : Subscription.t) (l : list Subscription.t) :
  Spec.ascending_by_renewal (a :: l) = true <->
  (forall b, hd_error l = Some b ->
             Subscription.next_renewal_date a <= Subscription.next_renewal_date b)
  /\ Spec.ascending_by_renewal l = true.
Proof.
  destruct l as [|b l]; cbn [Spec.ascending_by_renewal hd_error].
  - split; [intros _; split; [discriminate|reflexivity]|reflexivity].
  - rewrite andb_true_iff, Z.leb_le. split.
    + intros [H1 H2]. split; [intros ? [= <-]; exact H1|exact H2].
    + intros [H1 H2]. split; [now apply H1|exact H2].
Qed.

Lemma renewals_sorted_ascending (subs : list Subscription.t) :
  Spec.ascending_by_renewal (Spec.renewals_sorted now subs) = true.
Proof.
  unfold Spec.renewals_sorted.
  set (cmp := fun a b : Subscription.t =>
                (inject_Z (Subscription.next_renewal_date a)
                 - inject_Z (Subscription.next_renewal_date b))%Q).
  assert (Hcmp : forall a b, Qle_bool (cmp a b) 0 = true <->
                   Subscription.next_renewal_date a <= Subscription.next_renewal_date b).
  { intros a b. unfold cmp. rewrite Qle_bool_iff, Zle_Qle. split; intros; lra. }
  induction (List.filter _ subs) as [|x l IH]; [reflexivity|].
  cbn [Js.sort]. revert IH. generalize (Js.sort cmp l). clear l.
  intros sorted. induction sorted as [|y rest IHr]; intros Hs; [reflexivity|].
  cbn [Js.insert]. destruct (Qle_bool (cmp x y) 0) eqn:Hxy.
  - apply ascending_cons. split; [|exact Hs].
    intros b [= <-]. now apply Hcmp.
  - apply ascending_cons in Hs. destruct Hs as [Hhd Hrest].
    apply ascending_cons. split; [|now apply IHr].
    assert (Hyx : Subscription.next_renewal_date y <= Subscription.next_renewal_date x).
    { destruct (Z_le_gt_dec (Subscription.next_renewal_date x)
                  (Subscription.next_renewal_date y)) as [Hle|Hgt]; [|lia].
      apply Hcmp in Hle. congruence. }
    intros b Hb. destruct rest as [|z rest']; cbn [Js.insert] in Hb.
    + injection Hb as <-. exact Hyx.
    + destruct (Qle_bool (cmp x z) 0); injection Hb as <-; [exact Hyx|now apply Hhd].
Qed.

End Renewals.

(** C2, as stated, fails twice. Two active subscriptions renewing in 5
    and in 2 days, given in that order, come out in that order, which is
    neither ascending nor the sorted list the claim describes. And the
    window is wider than [0, 7] days: a renewal due one hour before the
    reference time and one due 7 days and 23 hours after it are both
    listed. *)
Lemma upcomingRenewals_sorted_counterexample :
  Analytics.upcomingRenewals (analytics Samples.now Samples.late_then_soon)
  = Samples.late_then_soon
  /\ Spec.ascending_by_renewal
       (Analytics.upcomingRenewals (analytics Samples.now Samples.late_then_soon)) = false
  /\ Analytics.upcomingRenewals (analytics Samples.now Samples.late_then_soon)
     <> Spec.renewals_sorted Samples.now Samples.late_then_soon
  /\ Analytics.upcomingRenewals (analytics Samples.now MoreSamples.today_and_eighth)
     = MoreSamples.today_and_eighth
  /\ map (fun s => Subscription.next_renewal_date s - Samples.now)
       MoreSamples.today_and_eighth
     = [- 3600000; 7 * msPerDay + 23 * 3600000].
Proof.
  split; [vm_compute; reflexivity|].
  split; [vm_compute; reflexivity|].
  split; [vm_compute; discriminate|].
  split; vm_compute; reflexivity.
Qed.

(** ** Trailing-period costs *)

Section Trailing.

Variable now : Date.

(** X11: the week the code looks at starts on a Monday at midnight, holds the
    instant seven days before [now], and is closed by the midnight that
    opens its Sunday. *)
Lemma lastWeek_window :
  timeOfDay (lastWeekStart now) = 0
  /\ getDay (lastWeekStart now) = 1
  /\ lastWeekStart now <= now - 7 * msPerDay < lastWeekStart now + 7 * msPerDay
  /\ lastWeekEnd now = lastWeekStart now + 6 * msPerDay.
Proof.
  unfold lastWeekEnd, lastWeekStart, startOfWeek, subWeeks, addWeeks, addDays,
    getDay, timeOfDay, dayNumber, msPerDay.
  destruct (Z.ltb_spec ((((now + - (1) * 7 * 86400000) / 86400000) + 4) mod 7) 1);
    repeat split; Z.to_euclidean_division_equations; lia.
Qed.

(** Within [isSameMonth] the year is compared already. *)
Lemma isSameMonth_isSameYear (a b : Date) :
  isSameMonth a b && isSameYear a b = isSameMonth a b.
Proof.
  unfold isSameMonth, isSameYear.
  destruct (getFullYear a =? getFullYear b); cbn; [apply andb_true_r|reflexivity].
Qed.

Lemma lastMonthCost_sum (subs : list Subscription.t) :
  (lastMonthCost now subs
   == Spec.sumQ
        (map getMonthlyCost
           (List.filter (fun s => Spec.in_last_month now (Subscription.created_at s)) subs)))%Q.
Proof.
  unfold lastMonthCost. rewrite reduce_add_sumQ.
  rewrite (filter_ext _ (fun s => Spec.in_last_month now (Subscription.created_at s)));
    [reflexivity|].
  intros s. cbv zeta. rewrite isSameMonth_isSameYear, isSameMonth_monthIndex.
  unfold Spec.in_last_month. now rewrite monthIndex_subMonths.
Qed.

Lemma lastWeekCost_sum (subs : list Subscription.t) :
  (lastWeekCost now subs
   == Spec.sumQ
        (map Subscription.cost
           (List.filter
              (fun s => Spec.in_last_week now (Subscription.next_renewal_date s)) subs)))%Q.
Proof. unfold lastWeekCost. rewrite reduce_add_sumQ. reflexivity. Qed.

(** C3, as the code has it: [lastWeekCost] adds the cost, as billed and
    not normalised to a month, of the subscriptions whose
    [next_renewal_date] falls in the previous week; [lastMonthCost] adds
    the monthly-equivalent cost of those whose [created_at] falls in the
    previous month. The two anchors differ. *)
Theorem trailing_costs_by_anchor :
  forall subs : list Subscription.t,
    (Analytics.lastWeekCost (analytics now subs)
     == Spec.sumQ
          (map Subscription.cost
             (List.filter
                (fun s => Spec.in_last_week now (Subscription.next_renewal_date s)) subs)))%Q
    /\ (Analytics.lastMonthCost (analytics now subs)
        == Spec.sumQ
             (map getMonthlyCost
                (List.filter
                   (fun s => Spec.in_last_month now (Subscription.created_at s)) subs)))%Q.
Proof.
  intros subs. rewrite analytics_lastWeekCost, analytics_lastMonthCost.
  split; [apply lastWeekCost_sum|apply lastMonthCost_sum].
Qed.

End Trailing.

(** C3, as stated, fails for [lastWeekCost]: a yearly plan at 120 whose
    renewal date lies in the previous week counts for 120, its cost as
    billed, and not for 10, its monthly equivalent. *)
Lemma lastWeekCost_monthly_equivalent_counterexample :
  (Analytics.lastWeekCost (analytics Samples.now [Samples.yearly_last_week true]) == 120)%Q
  /\ (Spec.sumQ
        (map getMonthlyCost
           (List.filter
              (fun s => Spec.in_last_week Samples.now (Subscription.next_renewal_date s))
              [Samples.yearly_last_week true])) == 10)%Q
  /\ ~ (Analytics.lastWeekCost (analytics Samples.now [Samples.yearly_last_week true])
        == Spec.sumQ
             (map getMonthlyCost
                (List.filter
                   (fun s => Spec.in_last_week Samples.now (Subscription.next_renewal_date s))
                   [Samples.yearly_last_week true])))%Q.
Proof.
  split; [vm_compute; reflexivity|].
  split; [vm_compute; reflexivity|].
  vm_compute. discriminate.
Qed.

(** The same plan was created in February: [lastMonthCost] counts it for
    its monthly equivalent, 10. *)
Example lastMonthCost_sample :
  (Analytics.lastMonthCost (analytics Samples.now [Samples.yearly_last_week true]) == 10)%Q.
Proof. vm_compute. reflexivity. Qed.

(** ** Relabelling the activity flags *)

Section Activity.

Variable now : Date.

Lemma activeSubs_idempotent (subs : list Subscription.t) :
  activeSubs (activeSubs subs) = activeSubs subs.
Proof.
  unfold activeSubs. induction subs as [|s subs IH]; cbn [List.filter]; [reflexivity|].
  destruct (Subscription.is_active s) eqn:E; cbn [List.filter]; [|exact IH].
  now rewrite E, IH.
Qed.

(** A [filter] then [reduce] that reads nothing the relabelling [g]
    changes gives the same result before and after [g]. *)
Lemma reduce_filter_map {A B : Type} (g : A -> A) (p : A -> bool) (f : B -> A -> B)
    (l : list A) (b : B) :
  (forall x, p (g x) = p x) ->
  (forall acc x, f acc (g x) = f acc x) ->
  Js.reduce f b (List.filter p (map g l)) = Js.reduce f b (List.filter p l).
Proof.
  intros Hp Hf. unfold Js.reduce. revert b.
  induction l as [|x l IH]; intros b; cbn [map List.filter]; [reflexivity|].
  rewrite Hp. destruct (p x); cbn [fold_left]; [rewrite Hf|]; apply IH.
Qed.

Variable flag : Subscription.t -> bool.

Let relabel (s : Subscription.t) : Subscription.t :=
  Subscription.with_is_active (flag s) s.

Lemma lastMonthCost_relabel (subs : list Subscription.t) :
  lastMonthCost now (map relabel subs) = lastMonthCost now subs.
Proof. unfold lastMonthCost. now apply reduce_filter_map. Qed.

Lemma lastWeekCost_relabel (subs : list Subscription.t) :
  lastWeekCost now (map relabel subs) = lastWeekCost now subs.
Proof. unfold lastWeekCost. now apply reduce_filter_map. Qed.

Lemma historicalData_relabel (subs : list Subscription.t) :
  historicalData now (map relabel subs) = historicalData now subs.
Proof.
  unfold historicalData. apply map_ext. intros i. f_equal.
  now apply reduce_filter_map.
Qed.

End Activity.

(** ** Largest price increase *)

Section LargestIncrease.

Local Open Scope Q_scope.

Let by_increase (a b : WithIncrease.t) : Q :=
  WithIncrease.increase b - WithIncrease.increase a.

(** The head of the sorted array is the head of the input or the head
    of the sorted tail, whichever the comparison puts first. *)
Lemma sort_head {A : Type} (compareFn : A -> A -> Q) (x : A) (l : list A) :
  hd_error (Js.sort compareFn (x :: l))
  = match hd_error (Js.sort compareFn l) with
    | None => Some x
    | Some y => if Qle_bool (compareFn x y) 0 then Some x else Some y
    end.
Proof.
  cbn [Js.sort]. destruct (Js.sort compareFn l) as [|y rest]; cbn; [reflexivity|].
  destruct (Qle_bool (compareFn x y) 0); reflexivity.
Qed.

Lemma sort_head_none {A : Type} (compareFn : A -> A -> Q) (l : list A) :
  hd_error (Js.sort compareFn l) = None <-> l = [].
Proof.
  destruct l as [|x l]; [now split|].
  rewrite sort_head. split; [|discriminate].
  destruct (hd_error (Js.sort compareFn l)); [|discriminate].
  destruct (Qle_bool _ 0); discriminate.
Qed.

(** Sorting by decreasing increase puts first an element of the array
    whose increase no other element exceeds. *)
Lemma sort_by_increase_head (l : list WithIncrease.t) (w : WithIncrease.t) :
  hd_error (Js.sort by_increase l) = Some w ->
  In w l /\ forall v, In v l -> WithIncrease.increase v <= WithIncrease.increase w.
Proof.
  revert w. induction l as [|x l IH]; intros w; [discriminate|].
  rewrite sort_head.
  destruct (hd_error (Js.sort by_increase l)) as [y|] eqn:Hy.
  - destruct (IH y eq_refl) as [Hin Hmax].
    destruct (Qle_bool (by_increase x y) 0) eqn:Hc; intros [= <-].
    + apply Qle_bool_iff in Hc. unfold by_increase in Hc.
      assert (Hyx : WithIncrease.increase y <= WithIncrease.increase x).
      { lra. }
      split; [now left|]. intros v [<-|Hv]; [apply Qle_refl|].
      eapply Qle_trans; [apply Hmax, Hv|exact Hyx].
    + assert (Hxy : WithIncrease.increase x <= WithIncrease.increase y).
      { apply Qlt_le_weak. apply Qnot_le_lt. intros Hle.
        assert (Qle_bool (by_increase x y) 0 = true); [|congruence].
        apply Qle_bool_iff. unfold by_increase. lra. }
      split; [now right|]. intros v [<-|Hv]; [exact Hxy|now apply Hmax].
  - apply sort_head_none in Hy. subst l. intros [= <-].
    split; [now left|]. intros v [<-|[]]. apply Qle_refl.
Qed.

(** What the code computes: nothing when no active subscription has a
    price history; otherwise an active subscription with a price
    history, with its cost minus its oldest recorded cost, which no
    other such subscription exceeds. *)
Lemma largestIncrease_characterisation (now : Date) (subs : list Subscription.t) :
  (Analytics.largestIncrease (analytics now subs) = None
   <-> List.filter Spec.increase_candidate subs = [])
  /\ forall w, Analytics.largestIncrease (analytics now subs) = Some w ->
       In (WithIncrease.base w) subs
       /\ Spec.increase_candidate (WithIncrease.base w) = true
       /\ WithIncrease.increase w = increase_of (WithIncrease.base w)
       /\ forall s, In s subs -> Spec.increase_candidate s = true ->
                    increase_of s <= WithIncrease.increase w.
Proof.
  rewrite analytics_largestIncrease. unfold largestIncrease, activeSubs.
  rewrite <- filter_andb.
  change (fun x => Subscription.is_active x && has_price_history x)
    with Spec.increase_candidate.
  set (cands := List.filter Spec.increase_candidate subs).
  split.
  - rewrite sort_head_none. destruct cands; cbn [map]; split; congruence.
  - intros w Hw. apply sort_by_increase_head in Hw. destruct Hw as [Hin Hmax].
    apply in_map_iff in Hin. destruct Hin as (s & <- & Hs).
    apply filter_In in Hs. destruct Hs as [Hs Hc].
    cbn [WithIncrease.base WithIncrease.increase].
    repeat split; try assumption.
    intros s' Hs' Hc'.
    apply (Hmax (WithIncrease.mk s' (increase_of s'))).
    apply in_map_iff. exists s'. split; [reflexivity|].
    apply filter_In. now split.
Qed.

End LargestIncrease.

(** C1, on the collections where it fails: [largestIncrease] is present
    although no price went up. For a single active subscription at 5
    whose oldest recorded cost is 8 the engine returns that subscription
    with an increase of -3; for one at 8 whose oldest recorded cost is 8
    it returns it with an increase of 0. *)
Theorem largestIncrease_present_without_increase :
  Analytics.largestIncrease (analytics Samples.now [Samples.cheaper])
  = Some (WithIncrease.mk Samples.cheaper (5 - 8))
  /\ Analytics.largestIncrease (analytics Samples.now [Samples.unchanged])
     = Some (WithIncrease.mk Samples.unchanged (8 - 8))
  /\ (5 - 8 <= 0)%Q
  /\ (8 - 8 <= 0)%Q.
Proof. repeat split; discriminate. Qed.

(** The scenario of the specification: oldest recorded cost 5, current
    cost 8, an increase of 3. *)
Example largestIncrease_sample :
  let s := Subscription.mk "i" "News" 8 "monthly" (utc 2024 6 1) "Press" true None None None
             (utc 2023 1 1) (Some [PricePoint.mk (utc 2023 1 1) 5]) in
  Analytics.largestIncrease (analytics Samples.now [Samples.cheaper; s; Samples.unchanged])
  = Some (WithIncrease.mk s (8 - 5)).
Proof. reflexivity. Qed.

(** * Further properties of the engine *)

(** ** The breakdown, category by category *)

Section Breakdown.

Local Open Scope Q_scope.

Lemma categoryBreakdown_fold_lookup (l : list Subscription.t) (m : JsObject.t Q)
    (c : string) :
  JsObject.inherited c = false ->
  (forall v, m !! c = Some v -> exists a, v = JsObject.Num a) ->
  let breakdown :=
    Js.reduce
      (fun (acc : JsObject.t Q) sub =>
         JsObject.set acc (Subscription.category sub)
           (JsObject.or_zero_plus (fun q => negb (Qeq_bool q 0)) 0 Qplus
              (JsObject.get acc (Subscription.category sub)) (getMonthlyCost sub)))
      m l in
  (breakdown !! c = None
   <-> m !! c = None
       /\ List.filter (fun s => String.eqb (Subscription.category s) c) l = [])
  /\ (forall v, breakdown !! c = Some v -> exists a, v = JsObject.Num a)
  /\ Spec.amount_under 0 breakdown c
     == Spec.amount_under 0 m c
        + Spec.sumQ
            (map getMonthlyCost
               (List.filter (fun s => String.eqb (Subscription.category s) c) l)).
Proof.
  intros Hc. unfold Js.reduce. revert m.
  induction l as [|s l IH]; intros m Hm; cbn [fold_left List.filter].
  - split; [tauto|]. split; [exact Hm|]. unfold Spec.sumQ. cbn [map foldr]. ring.
  - cbv zeta in IH.
    destruct (String.eqb_spec (Subscription.category s) c) as [->|Hne].
    + rewrite set_own, get_own by exact Hc.
      match goal with
      | |- context [fold_left ?f l ?m'] => destruct (IH m') as (IHn & IHk & IHv)
      end.
      { intros v. rewrite lookup_insert_eq. intros [= <-].
        destruct (m !! c) as [[a| |]|] eqn:E; cbn [JsObject.or_zero_plus];
          try (now eexists); destruct (Hm _ eq_refl) as [a Ha]; discriminate Ha. }
      rewrite lookup_insert_eq in IHn. split; [|split; [exact IHk|]].
      * rewrite IHn. split; [intros [H _]; discriminate|intros [_ H]; discriminate].
      * rewrite IHv. unfold Spec.amount_under at 1 2. rewrite lookup_insert_eq.
        unfold Spec.sumQ. cbn [map foldr].
        destruct (m !! c) as [[a| |]|] eqn:E; cbn [JsObject.or_zero_plus];
          try (destruct (Hm _ eq_refl) as [a Ha]; discriminate Ha); [|ring].
        destruct (Qeq_bool a 0) eqn:Ea; cbn [negb]; [|ring].
        apply Qeq_bool_iff in Ea. rewrite Ea. ring.
    + match goal with
      | |- context [fold_left ?f l ?m'] => destruct (IH m') as (IHn & IHk & IHv)
      end.
      { intros v. rewrite set_other by exact Hne. apply Hm. }
      rewrite set_other in IHn by exact Hne.
      split; [exact IHn|split; [exact IHk|]].
      rewrite IHv. unfold Spec.amount_under at 1 2.
      rewrite set_other by exact Hne. reflexivity.
Qed.

(** Under an inherited name the object ends up holding a string, and under
    [__proto__] no own property at all. *)
Lemma categoryBreakdown_fold_inherited (l : list Subscription.t) (m : JsObject.t Q)
    (c : string) :
  JsObject.inherited c = true ->
  m !! c = None \/ m !! c = Some JsObject.Text ->
  Js.reduce
    (fun (acc : JsObject.t Q) sub =>
       JsObject.set acc (Subscription.category sub)
         (JsObject.or_zero_plus (fun q => negb (Qeq_bool q 0)) 0 Qplus
            (JsObject.get acc (Subscription.category sub)) (getMonthlyCost sub)))
    m l !! c
  = if String.eqb c "__proto__"
       || (length (List.filter (fun s => String.eqb (Subscription.category s) c) l) =? 0)%nat
    then m !! c
    else Some JsObject.Text.
Proof.
  intros Hc. unfold Js.reduce. revert m.
  induction l as [|s l IH]; intros m Hm; cbn [fold_left List.filter].
  - cbn [length Nat.eqb]. now rewrite orb_true_r.
  - destruct (String.eqb_spec (Subscription.category s) c) as [->|Hne].
    + cbn [length Nat.eqb]. rewrite orb_false_r.
      destruct (String.eqb c "__proto__") eqn:Ep.
      * assert (Hset : forall v, JsObject.set m c v = m)
          by (intros v; unfold JsObject.set; now rewrite Ep).
        rewrite Hset, IH by exact Hm. reflexivity.
      * assert (Hset : forall v, JsObject.set m c v = <[c := v]> m)
          by (intros v; unfold JsObject.set; now rewrite Ep).
        rewrite Hset, IH.
        -- rewrite lookup_insert_eq. cbn [orb]. unfold JsObject.get. rewrite Hc.
           destruct Hm as [-> | ->]; cbn [JsObject.or_zero_plus];
             destruct (_ =? 0)%nat; reflexivity.
        -- right. rewrite lookup_insert_eq. unfold JsObject.get. rewrite Hc.
           destruct Hm as [-> | ->]; reflexivity.
    + rewrite IH by (rewrite set_other by exact Hne; exact Hm).
      now rewrite set_other by exact Hne.
Qed.

(** X1: for a category that is not named like a property that objects
    inherit, [categoryBreakdown] has a key exactly when the category holds
    an active subscription, and the key holds a number, the sum of the
    monthly-equivalent costs of the active subscriptions of that category
    (equality of rationals); inactive subscriptions add neither key nor
    amount. Under an inherited name such as [constructor] the object holds
    a string as soon as the category has an active subscription, and under
    [__proto__] it never has a key. *)
Theorem categoryBreakdown_per_category :
  forall (now : Date) (subs : list Subscription.t) (c : string),
    let breakdown := Analytics.categoryBreakdown (analytics now subs) in
    (JsObject.inherited c = false ->
     (breakdown !! c = None <-> List.filter (Props.active_of_category c) subs = [])
     /\ (forall v, breakdown !! c = Some v -> exists a, v = JsObject.Num a)
     /\ Spec.amount_under 0 breakdown c
        == Spec.sumQ (map getMonthlyCost (List.filter (Props.active_of_category c) subs)))
    /\ (JsObject.inherited c = true ->
        breakdown !! c
        = if String.eqb c "__proto__"
             || (length (List.filter (Props.active_of_category c) subs) =? 0)%nat
          then None
          else Some JsObject.Text).
Proof.
  intros now subs c breakdown. subst breakdown.
  rewrite analytics_categoryBreakdown. unfold categoryBreakdown.
  assert (Hf : List.filter (fun s => String.eqb (Subscription.category s) c) (activeSubs subs)
               = List.filter (Props.active_of_category c) subs).
  { unfold activeSubs. rewrite <- filter_andb. reflexivity. }
  split; intros Hc.
  - destruct (categoryBreakdown_fold_lookup (activeSubs subs) ∅ c Hc) as (Hn & Hk & Hv).
    { intros v. rewrite lookup_empty. discriminate. }
    rewrite Hf in Hn, Hv. split; [|split; [exact Hk|]].
    + rewrite Hn, lookup_empty. tauto.
    + rewrite Hv. unfold Spec.amount_under. rewrite lookup_empty. ring.
  - rewrite (categoryBreakdown_fold_inherited (activeSubs subs) ∅ c Hc)
      by (left; apply lookup_empty).
    rewrite Hf, lookup_empty. reflexivity.
Qed.

End Breakdown.

(** ** The stable sort *)

Section SortFacts.

Local Open Scope Q_scope.

Context {A : Type}.
Variable compareFn : A -> A -> Q.

Lemma insert_permutation (x : A) (l : list A) :
  Permutation (Js.insert compareFn x l) (x :: l).
Proof.
  induction l as [|y l IH]; cbn [Js.insert]; [reflexivity|].
  destruct (Qle_bool (compareFn x y) 0); [reflexivity|].
  rewrite IH. apply perm_swap.
Qed.

(** Sorting keeps the elements, each as often as before. *)
Lemma sort_permutation (l : list A) : Permutation (Js.sort compareFn l) l.
Proof.
  induction l as [|x l IH]; cbn [Js.sort]; [reflexivity|].
  rewrite insert_permutation. now constructor.
Qed.

Lemma sort_In (l : list A) (x : A) : In x (Js.sort compareFn l) <-> In x l.
Proof.
  split; apply Permutation_in; [|symmetry]; apply sort_permutation.
Qed.

Lemma adjacent_cons (R : A -> A -> bool) (a : A) (l : list A) :
  Props.adjacent R (a :: l) = true
  <-> (forall b, hd_error l = Some b -> R a b = true) /\ Props.adjacent R l = true.
Proof.
  destruct l as [|b l]; cbn [Props.adjacent hd_error].
  - split; [intros _; split; [discriminate|reflexivity]|reflexivity].
  - rewrite andb_true_iff. split.
    + intros [H1 H2]. split; [intros ? [= <-]; exact H1|exact H2].
    + intros [H1 H2]. split; [now apply H1|exact H2].
Qed.

(** When the comparison is total ([a] after [b] implies [b] not after
    [a]), the sorted array has no entry placed after its successor. *)
Lemma sort_adjacent (l : list A) :
  (forall a b, Qle_bool (compareFn a b) 0 = false -> Qle_bool (compareFn b a) 0 = true) ->
  Props.adjacent (fun a b => Qle_bool (compareFn a b) 0) (Js.sort compareFn l) = true.
Proof.
  intros Htotal.
  induction l as [|x l IH]; [reflexivity|].
  cbn [Js.sort]. revert IH. generalize (Js.sort compareFn l). clear l.
  intros sorted. induction sorted as [|y rest IHr]; intros Hs; [reflexivity|].
  cbn [Js.insert]. destruct (Qle_bool (compareFn x y) 0) eqn:Hxy.
  - apply adjacent_cons. split; [|exact Hs]. now intros b [= <-].
  - apply adjacent_cons in Hs. destruct Hs as [Hhd Hrest].
    apply adjacent_cons. split; [|now apply IHr].
    intros b Hb. destruct rest as [|z rest']; cbn [Js.insert] in Hb.
    + injection Hb as <-. now apply Htotal.
    + destruct (Qle_bool (compareFn x z) 0); injection Hb as <-;
        [now apply Htotal|now apply Hhd].
Qed.

End SortFacts.

Section SortDescending.

Local Open Scope Q_scope.

Context {A : Type}.
Variable key : A -> Q.

(** Sorting by decreasing key puts first the first element, in input
    order, whose key is the largest. *)
Lemma sort_descending_head (l : list A) (w : A) :
  hd_error (Js.sort (fun a b => key b - key a) l) = Some w ->
  exists before after,
    l = before ++ w :: after
    /\ (forall v, In v before -> key v < key w)
    /\ (forall v, In v after -> key v <= key w).
Proof.
  revert w. induction l as [|x l IH]; intros w; [discriminate|].
  rewrite sort_head.
  destruct (hd_error (Js.sort (fun a b => key b - key a) l)) as [y|] eqn:Hy.
  - destruct (IH y eq_refl) as (before & after & -> & Hb & Ha).
    destruct (Qle_bool (key y - key x) 0) eqn:Hc; intros [= <-].
    + apply Qle_bool_iff in Hc.
      exists [], (before ++ y :: after). split; [reflexivity|].
      split; [intros v []|].
      intros v Hv. apply in_app_or in Hv. destruct Hv as [Hv|[<-|Hv]].
      * specialize (Hb v Hv). lra.
      * lra.
      * specialize (Ha v Hv). lra.
    + assert (Hxy : key x < key y).
      { apply Qnot_le_lt. intros Hle.
        assert (Qle_bool (key y - key x) 0 = true); [|congruence].
        apply Qle_bool_iff. lra. }
      exists (x :: before), after. split; [reflexivity|].
      split; [|exact Ha]. intros v [<-|Hv]; [exact Hxy|now apply Hb].
  - apply sort_head_none in Hy. subst l. intros [= <-].
    exists [], []. repeat split; intros v [].
Qed.

End SortDescending.

(** ** Biggest saving and subscription of the month *)

Section Picks.

Local Open Scope Q_scope.

Variable now : Date.
Variable subs : list Subscription.t.

Lemma filter_split {A : Type} (p : A -> bool) (l before after : list A) (w : A) :
  List.filter p l = before ++ w :: after ->
  exists l1 l2, l = l1 ++ w :: l2 /\ p w = true
                /\ List.filter p l1 = before /\ List.filter p l2 = after.
Proof.
  revert before. induction l as [|x l IH]; intros before H; cbn [List.filter] in H.
  - destruct before; discriminate.
  - destruct (p x) eqn:Hx.
    + destruct before as [|b before]; cbn [app] in H; injection H as -> H.
      * exists [], l. cbn [List.filter app]. auto.
      * destruct (IH before H) as (l1 & l2 & -> & Hw & H1 & H2).
        exists (b :: l1), l2. cbn [List.filter app]. rewrite Hx, H1. auto.
    + destruct (IH before H) as (l1 & l2 & -> & Hw & H1 & H2).
      exists (x :: l1), l2. cbn [List.filter app]. rewrite Hx. auto.
Qed.

(** X2: [biggestSaving] is absent exactly when no subscription is
    cancelled (inactive with a cancellation date); otherwise it is the
    first cancelled subscription of the collection whose monthly-equivalent
    cost is the largest: the cancelled ones before it cost strictly less,
    those after it cost no more. A paused subscription (inactive, no
    cancellation date) is never returned. *)
Theorem biggestSaving_first_largest :
  (Analytics.biggestSaving (analytics now subs) = None
   <-> List.filter Props.cancelled subs = [])
  /\ forall w, Analytics.biggestSaving (analytics now subs) = Some w ->
       Props.cancelled w = true
       /\ exists before after,
            subs = before ++ w :: after
            /\ (forall v, In v before -> Props.cancelled v = true ->
                          getMonthlyCost v < getMonthlyCost w)
            /\ (forall v, In v after -> Props.cancelled v = true ->
                          getMonthlyCost v <= getMonthlyCost w).
Proof.
  assert (E : Analytics.biggestSaving (analytics now subs) = biggestSaving subs)
    by (destruct subs; reflexivity).
  rewrite E. unfold biggestSaving.
  change (fun s => negb (Subscription.is_active s)
                   && Js.present (Subscription.cancellation_date s))
    with Props.cancelled.
  split; [apply sort_head_none|].
  intros w Hw. apply (sort_descending_head getMonthlyCost) in Hw.
  destruct Hw as (before & after & Hl & Hb & Ha).
  destruct (filter_split _ _ _ _ _ Hl) as (l1 & l2 & -> & Hcw & <- & <-).
  split; [exact Hcw|]. exists l1, l2. split; [reflexivity|].
  split; intros v Hv Hc; [apply Hb|apply Ha]; apply filter_In; auto.
Qed.

(** X3: [subscriptionOfTheMonth] is absent exactly when no active
    subscription has a rating (a rating of 0 counts as none); otherwise it
    is the first active rated subscription with the highest rating. *)
Theorem subscriptionOfTheMonth_first_best :
  (Analytics.subscriptionOfTheMonth (analytics now subs) = None
   <-> List.filter Props.rated subs = [])
  /\ forall w, Analytics.subscriptionOfTheMonth (analytics now subs) = Some w ->
       Props.rated w = true
       /\ exists before after,
            subs = before ++ w :: after
            /\ (forall v, In v before -> Props.rated v = true ->
                          (rating_of v < rating_of w)%Z)
            /\ (forall v, In v after -> Props.rated v = true ->
                          (rating_of v <= rating_of w)%Z).
Proof.
  assert (E : Analytics.subscriptionOfTheMonth (analytics now subs)
              = subscriptionOfTheMonth subs) by (destruct subs; reflexivity).
  rewrite E. unfold subscriptionOfTheMonth, activeSubs.
  rewrite <- filter_andb.
  change (fun x => Subscription.is_active x && Js.truthy (Subscription.value_rating x))
    with Props.rated.
  split; [apply sort_head_none|].
  intros w Hw. apply (sort_descending_head (fun s => inject_Z (rating_of s))) in Hw.
  destruct Hw as (before & after & Hl & Hb & Ha).
  destruct (filter_split _ _ _ _ _ Hl) as (l1 & l2 & -> & Hcw & <- & <-).
  split; [exact Hcw|]. exists l1, l2. split; [reflexivity|].
  split; intros v Hv Hc.
  - rewrite Zlt_Qlt. apply Hb. apply filter_In. auto.
  - rewrite Zle_Qle. apply Ha. apply filter_In. auto.
Qed.

End Picks.

(** ** The rules of the recommendations *)

Section Rules.

Local Open Scope Q_scope.

Variable now : Date.

Lemma filter_push_if {A : Type} (p : A -> bool) (c : bool) (x : A) (l : list A) :
  List.filter p (push_if c x l) = List.filter p l ++ (if c && p x then [x] else []).
Proof.
  unfold push_if. destruct c; cbn [andb]; [|now rewrite app_nil_r].
  rewrite List.filter_app. cbn [List.filter]. now destruct (p x).
Qed.

(** What one call of the callback adds for one type of insight. *)
Lemma recommend_step_subscriptions_of (counts : JsObject.t Z) (recs : list Insight.t)
    (sub : Subscription.t) (k : Insight.kind) :
  Props.subscriptions_of k (recommend_step now counts recs sub)
  = Props.subscriptions_of k recs
    ++ match k with
       | Insight.low_value => if Props.low_rated sub then [sub] else []
       | Insight.underutilized => if Props.unused_for_a_month now sub then [sub] else []
       | Insight.price_increase => if Props.price_went_up sub then [sub] else []
       | Insight.duplicate_category =>
           if JsObject.exceeds (JsObject.get counts (Subscription.category sub)) 1
              && negb (already_flagged
                         (push_if (Props.price_went_up sub)
                            (Insight.mk (Subscription.id sub +:+ "-price") sub
                               Insight.price_increase "Price Increase"
                               (Insight.PriceIncreasedFrom
                                  match Subscription.price_history sub with
                                  | Some (p :: _) => PricePoint.cost p
                                  | _ => 0
                                  end) 0)
                            (push_if (Props.unused_for_a_month now sub)
                               (Insight.mk (Subscription.id sub +:+ "-unused") sub
                                  Insight.underutilized "Underutilized"
                                  Insight.NotUsedInOverAMonth (getMonthlyCost sub))
                               (push_if (Props.low_rated sub)
                                  (Insight.mk (Subscription.id sub +:+ "-low") sub
                                     Insight.low_value "Low Value"
                                     (Insight.YouRatedThis (rating_of sub))
                                     (getMonthlyCost sub))
                                  recs))) sub)
           then [sub] else []
       end.
Proof.
  unfold Props.subscriptions_of, recommend_step. cbv zeta.
  rewrite !filter_push_if, !map_app.
  fold (Props.low_rated sub). fold (Props.unused_for_a_month now sub).
  fold (Props.price_went_up sub).
  unfold Props.of_kind at 2 3 4 5. cbn [Insight.type].
  destruct k; cbn [Insight.kind_eqb]; rewrite ?andb_false_r, ?andb_true_r;
    cbn [map app]; rewrite ?app_nil_r;
    match goal with
    | |- context [if ?c then [_] else []] => destruct c
    end; reflexivity.
Qed.

Lemma recommendations_fold_subscriptions_of (counts : JsObject.t Z)
    (l : list Subscription.t) :
  Props.subscriptions_of Insight.low_value (fold_left (recommend_step now counts) l [])
  = List.filter Props.low_rated l
  /\ Props.subscriptions_of Insight.underutilized
       (fold_left (recommend_step now counts) l [])
     = List.filter (Props.unused_for_a_month now) l
  /\ Props.subscriptions_of Insight.price_increase
       (fold_left (recommend_step now counts) l [])
     = List.filter Props.price_went_up l.
Proof.
  induction l as [|sub l IH] using rev_ind; [repeat split|].
  rewrite fold_left_app. cbn [fold_left].
  rewrite !recommend_step_subscriptions_of, !List.filter_app.
  destruct IH as (-> & -> & ->). cbn [List.filter]. repeat split.
Qed.

(** X4: each of the three rules that look at a single subscription fires
    once for every active subscription meeting its condition, and for no
    other: read in order, the low-value insights are about the subscriptions
    of [lowValueSubs], the underutilized ones about the active subscriptions
    last used more than 30 full days ago, the price-increase ones about the
    active subscriptions that cost more than their first recorded price. *)
Theorem recommendations_rule_by_rule :
  forall subs : list Subscription.t,
    let recs := Analytics.recommendations (analytics now subs) in
    Props.subscriptions_of Insight.low_value recs
    = Analytics.lowValueSubs (analytics now subs)
    /\ Props.subscriptions_of Insight.underutilized recs
       = List.filter (Props.unused_for_a_month now) (activeSubs subs)
    /\ Props.subscriptions_of Insight.price_increase recs
       = List.filter Props.price_went_up (activeSubs subs).
Proof.
  intros subs recs. subst recs. rewrite analytics_recommendations.
  assert (E : Analytics.lowValueSubs (analytics now subs) = lowValueSubs subs)
    by (destruct subs; reflexivity).
  rewrite E. unfold recommendations.
  destruct (recommendations_fold_subscriptions_of (categoryCounts subs) (activeSubs subs))
    as (H1 & H2 & H3).
  repeat split; assumption.
Qed.

End Rules.

(** ** The savings announced *)

Section Savings.

Local Open Scope Q_scope.

Variable now : Date.

Lemma sumQ_app (l1 l2 : list Q) : Spec.sumQ (l1 ++ l2) == Spec.sumQ l1 + Spec.sumQ l2.
Proof.
  unfold Spec.sumQ. induction l1 as [|x l1 IH]; cbn [app foldr]; [ring|].
  rewrite IH. ring.
Qed.

Lemma total_savings_push (c : bool) (x : Insight.t) (l : list Insight.t) :
  Props.total_savings (push_if c x l)
  == Props.total_savings l + (if c then Insight.potential_savings x else 0).
Proof.
  unfold Props.total_savings, push_if. destruct c; [|ring].
  rewrite map_app, sumQ_app. unfold Spec.sumQ. cbn [map foldr]. ring.
Qed.

Lemma recommend_step_savings (counts : JsObject.t Z) (recs : list Insight.t)
    (sub : Subscription.t) :
  Props.total_savings (recommend_step now counts recs sub)
  == Props.total_savings recs
     + (if Props.low_rated sub then getMonthlyCost sub else 0)
     + (if Props.unused_for_a_month now sub then getMonthlyCost sub else 0).
Proof.
  unfold recommend_step. cbv zeta. rewrite !total_savings_push.
  cbn [Insight.potential_savings].
  fold (Props.low_rated sub). fold (Props.unused_for_a_month now sub).
  repeat match goal with
         | |- context [if ?c then 0 else 0] => destruct c
         end; ring.
Qed.

Lemma filter_sumQ {A : Type} (p : A -> bool) (f : A -> Q) (x : A) (l : list A) :
  Spec.sumQ (map f (List.filter p (l ++ [x])))
  == Spec.sumQ (map f (List.filter p l)) + (if p x then f x else 0).
Proof.
  rewrite List.filter_app, map_app, sumQ_app. cbn [List.filter].
  destruct (p x); unfold Spec.sumQ; cbn [map foldr]; ring.
Qed.

Lemma recommendations_fold_savings (counts : JsObject.t Z) (l : list Subscription.t) :
  Props.total_savings (fold_left (recommend_step now counts) l [])
  == Spec.sumQ (map getMonthlyCost (List.filter Props.low_rated l))
     + Spec.sumQ (map getMonthlyCost (List.filter (Props.unused_for_a_month now) l)).
Proof.
  induction l as [|sub l IH] using rev_ind.
  - unfold Props.total_savings, Spec.sumQ. cbn. ring.
  - rewrite fold_left_app. cbn [fold_left].
    rewrite recommend_step_savings, IH, !filter_sumQ. ring.
Qed.

(** X5: the savings announced by the recommendations add up to the
    monthly-equivalent cost of the low-value subscriptions plus that of the
    active subscriptions last used more than 30 days ago; a subscription
    that is both low-rated and unused is counted twice, and the
    price-increase and duplicate-category insights add nothing. *)
Theorem recommendations_total_savings :
  forall subs : list Subscription.t,
    Props.total_savings (Analytics.recommendations (analytics now subs))
    == Spec.sumQ (map getMonthlyCost (Analytics.lowValueSubs (analytics now subs)))
       + Spec.sumQ
           (map getMonthlyCost
              (List.filter (Props.unused_for_a_month now) (activeSubs subs))).
Proof.
  intros subs. rewrite analytics_recommendations.
  assert (E : Analytics.lowValueSubs (analytics now subs) = lowValueSubs subs)
    by (destruct subs; reflexivity).
  rewrite E. unfold recommendations. apply recommendations_fold_savings.
Qed.

Lemma getMonthlyCost_nonneg (s : Subscription.t) :
  0 <= Subscription.cost s -> 0 <= getMonthlyCost s.
Proof.
  intros H. unfold getMonthlyCost.
  destruct (String.eqb _ "monthly"); [exact H|].
  destruct (String.eqb _ "yearly").
  { apply Qle_shift_div_l; [reflexivity|]. lra. }
  destruct (String.eqb _ "weekly"); [|apply Qle_refl].
  apply Qle_shift_div_l; [reflexivity|]. lra.
Qed.

Lemma sumQ_filter_bounds {A : Type} (p : A -> bool) (f : A -> Q) (l : list A) :
  (forall x, In x l -> 0 <= f x) ->
  0 <= Spec.sumQ (map f (List.filter p l))
  /\ Spec.sumQ (map f (List.filter p l)) <= Spec.sumQ (map f l).
Proof.
  unfold Spec.sumQ. induction l as [|x l IH]; intros H; cbn [List.filter map foldr].
  - split; apply Qle_refl.
  - assert (Hx : 0 <= f x) by (apply H; now left).
    destruct IH as [IH0 IH1]; [intros y Hy; apply H; now right|].
    destruct (p x); cbn [map foldr]; split; lra.
Qed.


End Savings.


Example recommendations_savings_sample :
  (Props.total_savings
     (Analytics.recommendations (analytics Samples.now [MoreSamples.neglected])) == 24)%Q
  /\ (Analytics.totalMonthlyCost (analytics Samples.now [MoreSamples.neglected]) == 12)%Q.
Proof. vm_compute. split; reflexivity. Qed.

(** ** The ids of the insights *)

Section InsightIds.

Variable now : Date.

Lemma list_ascii_app (a b : string) :
  String.list_ascii_of_string (a +:+ b) = String.list_ascii_of_string a ++ String.list_ascii_of_string b.
Proof.
  induction a as [|c a IH]; [reflexivity|].
  simpl. f_equal. exact IH.
Qed.

Lemma list_ascii_inj (a b : string) :
  String.list_ascii_of_string a = String.list_ascii_of_string b -> a = b.
Proof.
  intros H. rewrite <- (String.string_of_list_ascii_of_string a),
    <- (String.string_of_list_ascii_of_string b). now rewrite H.
Qed.

(** An id with one of the four suffixes determines the id and the
    suffix. *)
Lemma suffixed_id_inj (a b s1 s2 : string) :
  In s1 Props.id_suffixes -> In s2 Props.id_suffixes ->
  a +:+ s1 = b +:+ s2 -> a = b /\ s1 = s2.
Proof.
  intros H1 H2 H. apply (f_equal String.list_ascii_of_string) in H.
  rewrite !list_ascii_app in H.
  assert (Hrev : rev (String.list_ascii_of_string s1) ++ rev (String.list_ascii_of_string a)
                 = rev (String.list_ascii_of_string s2) ++ rev (String.list_ascii_of_string b)).
  { rewrite <- !rev_app_distr. now rewrite H. }
  cbn [Props.id_suffixes In] in H1, H2.
  destruct H1 as [<-|[<-|[<-|[<-|[]]]]]; destruct H2 as [<-|[<-|[<-|[<-|[]]]]];
    try (cbn in Hrev; discriminate Hrev);
    (split; [|reflexivity]); apply app_inv_tail in H; now apply list_ascii_inj.
Qed.

(** What one call of the callback appends: at most one insight per
    suffix, all about the subscription at hand. *)
Lemma recommend_step_appends (counts : JsObject.t Z) (recs : list Insight.t)
    (sub : Subscription.t) :
  exists extra,
    recommend_step now counts recs sub = recs ++ extra
    /\ Forall (fun i => Insight.subscription i = sub
                        /\ exists suffix, In suffix Props.id_suffixes
                             /\ Insight.id i = Subscription.id sub +:+ suffix) extra
    /\ List.NoDup (map Insight.id extra).
Proof.
  unfold recommend_step. cbv zeta. unfold push_if.
  assert (Hne : forall s1 s2, In s1 Props.id_suffixes -> In s2 Props.id_suffixes ->
                  s1 <> s2 -> Subscription.id sub +:+ s1 <> Subscription.id sub +:+ s2).
  { intros s1 s2 H1 H2 Hd He. apply Hd. now apply (suffixed_id_inj _ _ _ _ H1 H2 He). }
  assert (Hlow : In "-low"%string Props.id_suffixes) by (cbn; tauto).
  assert (Hun : In "-unused"%string Props.id_suffixes) by (cbn; tauto).
  assert (Hpr : In "-price"%string Props.id_suffixes) by (cbn; tauto).
  assert (Hdu : In "-dupe"%string Props.id_suffixes) by (cbn; tauto).
  repeat match goal with
         | |- context [if ?c then _ ++ [_] else _] => destruct c
         end;
    rewrite <- ?app_assoc; cbn [app];
    (eexists; split; [try reflexivity; symmetry; apply app_nil_r|]);
    (split;
     [repeat (apply List.Forall_cons; [split; [reflexivity|eexists; split; [|reflexivity]; assumption]|]);
      apply List.Forall_nil
     |cbn [map Insight.id];
      repeat (apply List.NoDup_cons; [cbn [In]; intros Hin;
                                 repeat (destruct Hin as [Hin|Hin];
                                         [revert Hin; apply Hne; [assumption..|discriminate]|]);
                                 exact Hin|]);
      apply List.NoDup_nil]).
Qed.

Lemma recommendations_fold_ids (counts : JsObject.t Z) (l : list Subscription.t) :
  List.NoDup (map Subscription.id l) ->
  List.NoDup (map Insight.id (fold_left (recommend_step now counts) l []))
  /\ Forall (fun i => exists s suffix,
                 In s l /\ In suffix Props.id_suffixes
                 /\ Insight.subscription i = s
                 /\ Insight.id i = Subscription.id s +:+ suffix)
       (fold_left (recommend_step now counts) l []).
Proof.
  induction l as [|sub l IH] using rev_ind; intros Hnd.
  - split; [apply List.NoDup_nil|apply List.Forall_nil].
  - rewrite map_app in Hnd. apply List.NoDup_app_remove_r in Hnd as Hl.
    destruct (IH Hl) as [IHn IHf]. clear IH.
    rewrite fold_left_app. cbn [fold_left].
    destruct (recommend_step_appends counts (fold_left (recommend_step now counts) l []) sub)
      as (extra & -> & Hextra & Hnx).
    assert (Hfresh : ~ In (Subscription.id sub) (map Subscription.id l)).
    { intros Hin. cbn [map] in Hnd.
      apply (List.NoDup_remove_2 (map Subscription.id l) [] (Subscription.id sub)) in Hnd.
      apply Hnd. rewrite app_nil_r. exact Hin. }
    split.
    + rewrite map_app. apply List.NoDup_app; [exact IHn|exact Hnx|].
      intros x Hx1 Hx2.
      apply in_map_iff in Hx1. destruct Hx1 as (i1 & <- & Hi1).
      apply in_map_iff in Hx2. destruct Hx2 as (i2 & He & Hi2).
      rewrite List.Forall_forall in IHf, Hextra.
      destruct (IHf i1 Hi1) as (s & suf1 & Hs & Hsuf1 & _ & Hid1).
      destruct (Hextra i2 Hi2) as (_ & suf2 & Hsuf2 & Hid2).
      rewrite Hid1, Hid2 in He.
      destruct (suffixed_id_inj _ _ _ _ Hsuf2 Hsuf1 He) as [Heq _].
      apply Hfresh. rewrite Heq. now apply in_map.
    + apply List.Forall_app. split.
      * eapply List.Forall_impl; [|exact IHf].
        intros i (s & suf & Hs & Hsuf & Hsub & Hid).
        exists s, suf. repeat split; try assumption. apply in_or_app. now left.
      * eapply List.Forall_impl; [|exact Hextra].
        intros i (Hsub & suf & Hsuf & Hid).
        exists sub, suf. repeat split; try assumption.
        apply in_or_app. right. now left.
Qed.

(** X7: when the active subscriptions have pairwise distinct ids, so have
    the insights; and every insight is about an active subscription of the
    collection, its id being the id of that subscription followed by one of
    [-low], [-unused], [-price], [-dupe]. *)
Theorem recommendations_distinct_ids :
  forall subs : list Subscription.t,
    List.NoDup (map Subscription.id (activeSubs subs)) ->
    let recs := Analytics.recommendations (analytics now subs) in
    List.NoDup (map Insight.id recs)
    /\ forall i, In i recs ->
         In (Insight.subscription i) subs
         /\ Subscription.is_active (Insight.subscription i) = true
         /\ exists suffix, In suffix Props.id_suffixes
              /\ Insight.id i = Subscription.id (Insight.subscription i) +:+ suffix.
Proof.
  intros subs Hnd recs. subst recs. rewrite analytics_recommendations.
  unfold recommendations.
  destruct (recommendations_fold_ids (categoryCounts subs) (activeSubs subs) Hnd)
    as [Hn Hf].
  split; [exact Hn|].
  intros i Hi. rewrite List.Forall_forall in Hf.
  destruct (Hf i Hi) as (s & suf & Hs & Hsuf & <- & Hid).
  apply filter_In in Hs. destruct Hs as [Hs Ha].
  repeat split; try assumption. now exists suf.
Qed.

End InsightIds.

(** Four insights for one subscription, four distinct ids. *)
Lemma recommendations_distinct_ids_witness :
  List.NoDup (map Insight.id
           (Analytics.recommendations
              (analytics Samples.now [MoreSamples.neglected; Samples.cheaper]))).
Proof.
  apply (recommendations_distinct_ids Samples.now
           [MoreSamples.neglected; Samples.cheaper]).
  cbn. repeat constructor; cbn; intuition discriminate.
Defined.

(** ** The historical series *)

Section History.

Local Open Scope Z_scope.

Lemma days_from_civil_day (y m d : Z) :
  days_from_civil y m d = days_from_civil y m 1 + d - 1.
Proof. unfold days_from_civil. lia. Qed.

(** The day [addMonths] lands on: a day of the month moved to, at the same
    time of day. *)
Lemma addMonths_day (d : Date) (amount : Z) :
  exists dom,
    1 <= dom <= daysInMonthIndex (monthIndex d + amount)
    /\ dayNumber (addMonths d amount) = monthStart (monthIndex d + amount) + dom - 1
    /\ timeOfDay (addMonths d amount) = timeOfDay d.
Proof.
  unfold addMonths. destruct (Z.eqb_spec amount 0) as [->|Hne].
  - exists (getDate d). rewrite Z.add_0_r.
    split; [apply getDate_range|]. split; [|reflexivity].
    pose proof (civil_from_days_valid (dayNumber d)) as H.
    unfold monthIndex, getFullYear, getMonth, getDate, monthStart.
    destruct (civil_from_days (dayNumber d)) as [[y m] dd].
    destruct H as (Hm & Hd & Hz).
    replace ((y * 12 + (m - 1)) / 12) with y by div_lia.
    replace ((y * 12 + (m - 1)) mod 12 + 1) with m by div_lia.
    rewrite <- Hz at 1. apply days_from_civil_day.
  - fold (monthIndex d). set (mi := monthIndex d + amount).
    set (dom := if daysInMonthIndex mi <=? getDate d then daysInMonthIndex mi else getDate d).
    exists dom. split.
    { pose proof (getDate_range d). destruct (month_days mi) as [Hdim _].
      unfold dom. destruct (Z.leb_spec (daysInMonthIndex mi) (getDate d)); lia. }
    split.
    + rewrite dayNumber_at. unfold monthStart. apply days_from_civil_day.
    + unfold timeOfDay, msPerDay.
      pose proof (Z.mod_pos_bound d 86400000 ltac:(lia)).
      rewrite Z.add_comm, Z.mod_add by lia. apply Z.mod_mod. lia.
Qed.

Lemma monthStart_next (mi : Z) : monthStart (mi + 1) = monthStart mi + daysInMonthIndex mi.
Proof. rewrite daysInMonthIndex_monthStart. lia. Qed.

Lemma monthStart_mono (a : Z) (k : nat) : monthStart a <= monthStart (a + Z.of_nat k).
Proof.
  induction k as [|k IH]; [rewrite Z.add_0_r; lia|].
  replace (a + Z.of_nat (S k)) with (a + Z.of_nat k + 1) by lia.
  rewrite monthStart_next. destruct (month_days (a + Z.of_nat k)) as [Hdim _]. lia.
Qed.

(** More months added: a later instant. *)
Lemma addMonths_le (d : Date) (a b : Z) : a <= b -> addMonths d a <= addMonths d b.
Proof.
  intros Hab. destruct (Z.eq_dec a b) as [->|Hne]; [lia|].
  destruct (addMonths_day d a) as (da & Hda & Hna & Hta).
  destruct (addMonths_day d b) as (db & Hdb & Hnb & Htb).
  pose proof (monthStart_mono (monthIndex d + a + 1) (Z.to_nat (b - a - 1))) as Hm.
  replace (monthIndex d + a + 1 + Z.of_nat (Z.to_nat (b - a - 1)))
    with (monthIndex d + b) in Hm by lia.
  rewrite monthStart_next in Hm.
  assert (Hlt : dayNumber (addMonths d a) < dayNumber (addMonths d b)) by lia.
  unfold dayNumber, msPerDay in Hlt. div_lia.
Qed.

Lemma subMonths_le (d : Date) (a b : Z) : a <= b -> subMonths d b <= subMonths d a.
Proof. intros H. unfold subMonths. apply addMonths_le. lia. Qed.

Local Open Scope Q_scope.

Lemma sumQ_filter_le {A : Type} (p q : A -> bool) (f : A -> Q) (l : list A) :
  (forall x, p x = true -> q x = true) ->
  (forall x, In x l -> 0 <= f x) ->
  Spec.sumQ (map f (List.filter p l)) <= Spec.sumQ (map f (List.filter q l)).
Proof.
  intros Hpq. unfold Spec.sumQ.
  induction l as [|x l IH]; intros H; cbn [List.filter map foldr]; [apply Qle_refl|].
  assert (Hx : 0 <= f x) by (apply H; now left).
  assert (IH' := IH (fun y Hy => H y (or_intror Hy))).
  destruct (p x) eqn:Hp.
  - rewrite (Hpq x Hp). cbn [map foldr]. lra.
  - destruct (q x); cbn [map foldr]; lra.
Qed.

Variable now : Date.
Variable subs : list Subscription.t.

(** The entry of index [i] of a non-empty collection. *)
Lemma historicalData_nth (s : Subscription.t) (rest : list Subscription.t) (i : nat) :
  (i < 6)%nat ->
  nth_error (Analytics.historicalData (analytics now (s :: rest))) i
  = Some (HistoryPoint.mk
            (formatMMM (subMonths now (5 - Z.of_nat i)))
            (Js.reduce (fun total sub => total + getMonthlyCost sub) 0
               (List.filter
                  (fun x => (Subscription.created_at x <=? subMonths now (5 - Z.of_nat i))%Z)
                  (s :: rest)))).
Proof.
  intros Hi.
  change (Analytics.historicalData (analytics now (s :: rest)))
    with (historicalData now (s :: rest)).
  unfold historicalData.
  do 6 (destruct i as [|i]; [reflexivity|]). lia.
Qed.

(** X8: when no subscription has a negative cost, the costs of
    [historicalData] never decrease from an entry to a later one: each
    entry counts the subscriptions, active or not, created up to its month's
    reference instant, and these instants increase. *)
Theorem historicalData_never_decreases :
  (forall s, In s subs -> 0 <= Subscription.cost s) ->
  forall (i j : nat) (pi pj : HistoryPoint.t),
    (i <= j)%nat ->
    nth_error (Analytics.historicalData (analytics now subs)) i = Some pi ->
    nth_error (Analytics.historicalData (analytics now subs)) j = Some pj ->
    HistoryPoint.cost pi <= HistoryPoint.cost pj.
Proof.
  intros Hcost i j pi pj Hij Hi Hj.
  destruct subs as [|s rest] eqn:Hsubs; [destruct i; discriminate|].
  assert (Hj6 : (j < 6)%nat).
  { assert (Hn : nth_error (Analytics.historicalData (analytics now (s :: rest))) j <> None)
      by (rewrite Hj; discriminate).
    apply nth_error_Some in Hn. exact Hn. }
  rewrite historicalData_nth in Hi, Hj by lia.
  injection Hi as <-. injection Hj as <-. cbn [HistoryPoint.cost].
  rewrite !reduce_add_sumQ.
  apply (sumQ_filter_le
           (fun x => (Subscription.created_at x <=? subMonths now (5 - Z.of_nat i))%Z)
           (fun x => (Subscription.created_at x <=? subMonths now (5 - Z.of_nat j))%Z)
           getMonthlyCost (s :: rest)).
  - intros x Hx. apply Z.leb_le in Hx. apply Z.leb_le.
    pose proof (subMonths_le now (5 - Z.of_nat j) (5 - Z.of_nat i) ltac:(lia)). lia.
  - intros x Hx. apply getMonthlyCost_nonneg. now apply Hcost.
Qed.

(** X9: when the collection is not empty and no subscription has a
    creation date after [now], the newest entry of [historicalData] is
    labelled with the current month and its cost is the monthly-equivalent
    costs of all the subscriptions, active or not, added in the order of
    the collection; when no cost is negative, it is at least
    [totalMonthlyCost]. *)
Theorem historicalData_newest_entry :
  subs <> [] ->
  (forall s, In s subs -> (Subscription.created_at s <= now)%Z) ->
  exists newest,
    nth_error (Analytics.historicalData (analytics now subs)) 5 = Some newest
    /\ HistoryPoint.name newest = formatMMM now
    /\ HistoryPoint.cost newest
       = Js.reduce (fun total sub => total + getMonthlyCost sub) 0 subs
    /\ ((forall s, In s subs -> 0 <= Subscription.cost s) ->
        Analytics.totalMonthlyCost (analytics now subs) <= HistoryPoint.cost newest).
Proof.
  intros Hne Hpast. rewrite analytics_totalMonthlyCost.
  destruct subs as [|s rest] eqn:Hsubs; [contradiction|].
  eexists. split; [apply historicalData_nth; lia|].
  cbn [HistoryPoint.name HistoryPoint.cost]. split; [reflexivity|].
  change (subMonths now (5 - Z.of_nat 5)) with now.
  rewrite forallb_filter_id.
  2:{ apply forallb_forall. intros x Hx. apply Z.leb_le. now apply Hpast. }
  split; [reflexivity|]. intros Hcost.
  unfold totalMonthlyCost, activeSubs. rewrite !reduce_add_sumQ.
  apply sumQ_filter_bounds. intros x Hx. apply getMonthlyCost_nonneg. now apply Hcost.
Qed.

End History.

(** From December to March the series goes from 5 to 15. *)
Lemma historicalData_never_decreases_witness :
  (HistoryPoint.cost
     (nth 2 (Analytics.historicalData (analytics Samples.now MoreSamples.mixed))
        (HistoryPoint.mk "" 0))
   <= HistoryPoint.cost
        (nth 5 (Analytics.historicalData (analytics Samples.now MoreSamples.mixed))
           (HistoryPoint.mk "" 0)))%Q.
Proof.
  apply (historicalData_never_decreases Samples.now MoreSamples.mixed) with (i := 2%nat) (j := 5%nat).
  - intros s [<-|[<-|[]]]; cbn; lra.
  - lia.
  - reflexivity.
  - reflexivity.
Defined.

(** The newest entry, 15, is the total of 5 plus the 10 of the cancelled
    plan. *)
Lemma historicalData_newest_entry_witness :
  exists newest,
    nth_error (Analytics.historicalData (analytics Samples.now MoreSamples.mixed)) 5
    = Some newest
    /\ HistoryPoint.name newest = formatMMM Samples.now
    /\ HistoryPoint.cost newest
       = Js.reduce (fun total sub => total + getMonthlyCost sub)%Q 0%Q MoreSamples.mixed
    /\ ((forall s, In s MoreSamples.mixed -> 0 <= Subscription.cost s)%Q ->
        (Analytics.totalMonthlyCost (analytics Samples.now MoreSamples.mixed)
         <= HistoryPoint.cost newest)%Q).
Proof.
  apply (historicalData_newest_entry Samples.now MoreSamples.mixed).
  - discriminate.
  - intros s [<-|[<-|[]]]; vm_compute; discriminate.
Defined.

Example historicalData_sample :
  map (fun p => (HistoryPoint.name p, Qred (HistoryPoint.cost p)))
    (Analytics.historicalData (analytics Samples.now MoreSamples.mixed))
  = [("Oct", 5); ("Nov", 5); ("Dec", 5); ("Jan", 5); ("Feb", 15); ("Mar", 15)]%string%Q.
Proof. vm_compute. reflexivity. Qed.

(** ** Which aggregates see inactive subscriptions *)

(** C10: for a non-empty collection, [lastMonthCost], [lastWeekCost] and
    the six entries of [historicalData] are sums over the whole
    collection, selected by date alone; they do not change when the
    activity flags are changed in any way, so cancelled and paused
    subscriptions count in them like active ones. [totalMonthlyCost] and
    [upcomingRenewals] are computed from the subscriptions whose
    [is_active] is set, and [categoryBreakdown] and [recommendations] are
    those of that part of the collection. *)
Theorem trailing_aggregates_ignore_activity :
  forall (now : Date) (subs : list Subscription.t),
    subs <> [] ->
    let a := analytics now subs in
    let active := List.filter (fun s => Subscription.is_active s) subs in
    ((Analytics.lastMonthCost a
      == Spec.sumQ
           (map getMonthlyCost
              (List.filter (fun s => Spec.in_last_month now (Subscription.created_at s))
                 subs)))%Q
     /\ (Analytics.lastWeekCost a
         == Spec.sumQ
              (map Subscription.cost
                 (List.filter
                    (fun s => Spec.in_last_week now (Subscription.next_renewal_date s))
                    subs)))%Q
     /\ length (Analytics.historicalData a) = 6%nat
     /\ (forall (i : nat) (p : HistoryPoint.t),
            nth_error (Analytics.historicalData a) i = Some p ->
            (HistoryPoint.cost p
             == Spec.sumQ
                  (map getMonthlyCost
                     (List.filter
                        (fun s => Subscription.created_at s
                                  <=? subMonths now (5 - Z.of_nat i))
                        subs)))%Q)
     /\ (forall flag : Subscription.t -> bool,
            let relabelled := map (fun s => Subscription.with_is_active (flag s) s) subs in
            Analytics.lastMonthCost (analytics now relabelled) = Analytics.lastMonthCost a
            /\ Analytics.lastWeekCost (analytics now relabelled) = Analytics.lastWeekCost a
            /\ Analytics.historicalData (analytics now relabelled)
               = Analytics.historicalData a))
    /\ ((Analytics.totalMonthlyCost a == Spec.sumQ (map getMonthlyCost active))%Q
        /\ Analytics.upcomingRenewals a = List.filter (Spec.renews_within_week now) active
        /\ Analytics.categoryBreakdown a = Analytics.categoryBreakdown (analytics now active)
        /\ Analytics.recommendations a = Analytics.recommendations (analytics now active)).
Proof.
  intros now subs Hne a active. subst a active. split.
  - split; [|split; [|split; [|split]]].
    + rewrite analytics_lastMonthCost. apply lastMonthCost_sum.
    + rewrite analytics_lastWeekCost. apply lastWeekCost_sum.
    + destruct subs as [|s subs]; [contradiction|reflexivity].
    + intros i p Hp. destruct subs as [|s rest]; [contradiction|].
      assert (Hi : (i < 6)%nat).
      { assert (Hsome : nth_error (Analytics.historicalData (analytics now (s :: rest))) i
                        <> None) by congruence.
        apply nth_error_Some in Hsome. exact Hsome. }
      rewrite (historicalData_nth now s rest i Hi) in Hp. injection Hp as <-.
      cbn [HistoryPoint.cost]. apply reduce_add_sumQ.
    + intros flag relabelled. subst relabelled. split; [|split].
      * rewrite !analytics_lastMonthCost. apply lastMonthCost_relabel.
      * rewrite !analytics_lastWeekCost. apply lastWeekCost_relabel.
      * destruct subs as [|s subs]; [contradiction|].
        apply (historicalData_relabel now flag (s :: subs)).
  - change (List.filter (fun s => Subscription.is_active s) subs) with (activeSubs subs).
    rewrite !analytics_totalMonthlyCost, !analytics_categoryBreakdown,
      !analytics_upcomingRenewals, !analytics_recommendations.
    split; [|split; [|split]].
    + unfold totalMonthlyCost. apply reduce_add_sumQ.
    + reflexivity.
    + unfold categoryBreakdown. now rewrite activeSubs_idempotent.
    + unfold recommendations, categoryCounts. now rewrite !activeSubs_idempotent.
Qed.

(** A cancelled yearly plan created last month and due last week, beside
    an active monthly one created long ago. *)
Lemma trailing_aggregates_ignore_activity_witness :
  let subs := [Samples.yearly_last_week false; Samples.cheaper] in
  let a := analytics Samples.now subs in
  ((Analytics.lastMonthCost a
    == Spec.sumQ
         (map getMonthlyCost
            (List.filter (fun s => Spec.in_last_month Samples.now (Subscription.created_at s))
               subs)))%Q
   /\ (Analytics.lastWeekCost a
       == Spec.sumQ
            (map Subscription.cost
               (List.filter
                  (fun s => Spec.in_last_week Samples.now (Subscription.next_renewal_date s))
                  subs)))%Q
   /\ length (Analytics.historicalData a) = 6%nat)
  /\ (Analytics.totalMonthlyCost a == 5)%Q
  /\ (Analytics.lastMonthCost a == 10)%Q
  /\ (Analytics.lastWeekCost a == 120)%Q.
Proof.
  cbv zeta.
  assert (Hne : [Samples.yearly_last_week false; Samples.cheaper] <> []) by discriminate.
  pose proof (trailing_aggregates_ignore_activity Samples.now
                [Samples.yearly_last_week false; Samples.cheaper] Hne) as H.
  cbv zeta in H. destruct H as [(H1 & H2 & H3 & _) _].
  split; [split; [exact H1|split; [exact H2|exact H3]]|].
  vm_compute. repeat split.
Defined.

(** The cancelled plan weighs 10 in [lastMonthCost], 120 in [lastWeekCost]
    and 10 in the latest entry of [historicalData], and nothing in
    [totalMonthlyCost]. *)
Example inactive_subscription_sample :
  let a := analytics Samples.now [Samples.yearly_last_week false] in
  (Analytics.lastMonthCost a == 10)%Q
  /\ (Analytics.lastWeekCost a == 120)%Q
  /\ (HistoryPoint.cost (List.last (Analytics.historicalData a) (HistoryPoint.mk "" 0)) == 10)%Q
  /\ Analytics.totalMonthlyCost a = 0%Q.
Proof. vm_compute. repeat split. Qed.

(** ** Largest increase, first among equals *)

(** X12: [largestIncrease] is absent exactly when no active subscription
    has a non-empty price history; otherwise it is the first such
    subscription of the collection whose cost exceeds its oldest recorded
    cost by the largest amount, with that amount as [increase], be it
    positive, zero or negative. *)
Theorem largestIncrease_first_largest :
  forall (now : Date) (subs : list Subscription.t),
    (Analytics.largestIncrease (analytics now subs) = None
     <-> List.filter Spec.increase_candidate subs = [])
    /\ forall w, Analytics.largestIncrease (analytics now subs) = Some w ->
         Spec.increase_candidate (WithIncrease.base w) = true
         /\ WithIncrease.increase w = increase_of (WithIncrease.base w)
         /\ exists before after,
              subs = before ++ WithIncrease.base w :: after
              /\ (forall v, In v before -> Spec.increase_candidate v = true ->
                            (increase_of v < WithIncrease.increase w)%Q)
              /\ (forall v, In v after -> Spec.increase_candidate v = true ->
                            (increase_of v <= WithIncrease.increase w)%Q).
Proof.
  intros now subs.
  rewrite analytics_largestIncrease. unfold largestIncrease, activeSubs.
  rewrite <- filter_andb.
  change (fun x => Subscription.is_active x && has_price_history x)
    with Spec.increase_candidate.
  split.
  - rewrite sort_head_none.
    destruct (List.filter Spec.increase_candidate subs); cbn [map]; split; congruence.
  - intros w Hw. apply (sort_descending_head WithIncrease.increase) in Hw.
    destruct Hw as (before & after & Hl & Hb & Ha).
    apply map_eq_app in Hl.
    destruct Hl as (l1 & l2' & Hf & <- & Hl2).
    apply map_eq_cons in Hl2.
    destruct Hl2 as (s & l2 & -> & <- & <-).
    destruct (filter_split _ _ _ _ _ Hf) as (m1 & m2 & -> & Hc & <- & <-).
    cbn [WithIncrease.base WithIncrease.increase] in *.
    split; [exact Hc|]. split; [reflexivity|].
    exists m1, m2. split; [reflexivity|].
    split; intros v Hv Hcv.
    + apply (Hb (WithIncrease.mk v (increase_of v))).
      apply in_map_iff. exists v. split; [reflexivity|]. apply filter_In. auto.
    + apply (Ha (WithIncrease.mk v (increase_of v))).
      apply in_map_iff. exists v. split; [reflexivity|]. apply filter_In. auto.
Qed.

(** ** The displayed list *)

Section Displayed.

Import SubscriptionList.
Local Open Scope Q_scope.

Variable ops : StringOps.
Variable filters : Filters.

Lemma filter_if {A : Type} (c : bool) (p : A -> bool) (l : list A) :
  (if c then List.filter p l else l) = List.filter (fun x => negb c || p x) l.
Proof.
  destruct c; cbn [negb orb]; [reflexivity|].
  symmetry. apply forallb_filter_id. now apply forallb_forall.
Qed.

Lemma filtered_passes (allSubscriptions : list Subscription.t) :
  price_filter filters
    (billing_cycle_filter filters
       (category_filter filters
          (search_filter ops filters
             (List.filter (fun s => Subscription.is_active s) allSubscriptions))))
  = List.filter (Props.passes ops filters) allSubscriptions.
Proof.
  unfold price_filter, billing_cycle_filter, category_filter.
  rewrite !filter_if, negb_involutive, negb_involutive.
  assert (Hs : forall l, search_filter ops filters l
                = List.filter
                    (fun s => match f_search filters with
                              | Some (String c rest) =>
                                  includes ops (toLowerCase ops (Subscription.name s))
                                    (toLowerCase ops (String c rest))
                              | _ => true
                              end) l).
  { intros l. unfold search_filter.
    destruct (f_search filters) as [[|c rest]|]; try reflexivity;
      symmetry; apply forallb_filter_id; now apply forallb_forall. }
  rewrite Hs, <- !filter_andb. apply filter_ext. intros s.
  unfold Props.passes. now rewrite !andb_assoc.
Qed.

Lemma displayed_rearranged (allSubscriptions : list Subscription.t) :
  Permutation (subscriptions ops filters allSubscriptions)
    (List.filter (Props.passes ops filters) allSubscriptions).
Proof.
  unfold subscriptions. cbv zeta.
  rewrite filtered_passes. unfold sorted_by.
  repeat match goal with
         | |- context [if ?c then _ else _] => destruct c
         end; apply sort_permutation.
Qed.

(** X13: the displayed list is a rearrangement of the subscriptions that
    are active and pass every filter that is set (search when not empty,
    category and billing cycle when not ['all'], price range when
    [price_min > 0] or [price_max < 1000]): sorting drops and repeats
    nothing. In particular a subscription above the price ceiling is
    displayed as long as the bounds are at 0 and 1000 or beyond. *)
Theorem subscriptions_filtered_rearranged :
  forall allSubscriptions : list Subscription.t,
    Permutation (subscriptions ops filters allSubscriptions)
      (List.filter (Props.passes ops filters) allSubscriptions).
Proof. intros allSubscriptions. apply displayed_rearranged. Qed.

Lemma adjacent_ext {A : Type} (R R' : A -> A -> bool) (l : list A) :
  (forall a b, R a b = R' a b) -> Props.adjacent R l = Props.adjacent R' l.
Proof.
  intros H. induction l as [|a [|b l] IH]; try reflexivity.
  cbn [Props.adjacent] in *. now rewrite H, IH.
Qed.

Lemma adjacent_true {A : Type} (l : list A) : Props.adjacent (fun _ _ => true) l = true.
Proof. induction l as [|a [|b l] IH]; try reflexivity. exact IH. Qed.

Lemma Qle_bool_sub (x y : Q) : Qle_bool (x - y) 0 = Qle_bool x y.
Proof. apply eq_iff_eq_true. rewrite !Qle_bool_iff. split; intros; lra. Qed.

Lemma Qle_bool_total (x y : Q) : Qle_bool x y = false -> Qle_bool y x = true.
Proof.
  intros H. apply Qle_bool_iff. destruct (Qlt_le_dec y x) as [Hlt|Hle]; [lra|].
  apply Qle_bool_iff in Hle. congruence.
Qed.

(** Sorting by a key, lowest first, leaves the keys in ascending order. *)
Lemma sort_ascending_adjacent {A : Type} (key : A -> Q) (l : list A) :
  Props.adjacent (fun a b => Qle_bool (key a) (key b))
    (Js.sort (fun a b => key a - key b) l) = true.
Proof.
  rewrite <- (sort_adjacent (fun a b => key a - key b) l).
  - apply adjacent_ext. intros a b. now rewrite Qle_bool_sub.
  - intros a b. rewrite !Qle_bool_sub. apply Qle_bool_total.
Qed.

Lemma sort_descending_adjacent {A : Type} (key : A -> Q) (l : list A) :
  Props.adjacent (fun a b => Qle_bool (key b) (key a))
    (Js.sort (fun a b => key b - key a) l) = true.
Proof.
  rewrite <- (sort_adjacent (fun a b => key b - key a) l).
  - apply adjacent_ext. intros a b. now rewrite Qle_bool_sub.
  - intros a b. rewrite !Qle_bool_sub. apply Qle_bool_total.
Qed.

(** X14: the displayed list is in the order asked for: by cost, highest
    first or lowest first, for [cost_desc] and [cost_asc]; by renewal date,
    soonest first, for [renewal_date_asc], for any other value and for a
    missing [sort_by]. *)
Theorem subscriptions_in_order :
  forall allSubscriptions : list Subscription.t,
    Props.adjacent (Props.in_order filters) (subscriptions ops filters allSubscriptions)
    = true.
Proof.
  intros allSubscriptions. unfold subscriptions, sorted_by. cbv zeta.
  rewrite filtered_passes.
  set (l := List.filter (Props.passes ops filters) allSubscriptions).
  unfold Props.in_order.
  destruct (is_string (f_sort_by filters) "cost_desc");
    [apply (sort_descending_adjacent Subscription.cost)|].
  destruct (is_string (f_sort_by filters) "cost_asc");
    [apply (sort_ascending_adjacent Subscription.cost)|].
  destruct (is_string (f_sort_by filters) "name_asc"); [apply adjacent_true|].
  rewrite <- (sort_ascending_adjacent
                (fun s => inject_Z (Subscription.next_renewal_date s)) l).
  apply adjacent_ext. intros a b.
  apply eq_iff_eq_true. rewrite Qle_bool_iff, Z.leb_le, Zle_Qle. reflexivity.
Qed.

(** X15: when the [category] key or the [billing_cycle] key of the filters
    is missing, as in [useSubscriptions({})], nothing is displayed. *)
Theorem subscriptions_missing_key :
  forall allSubscriptions : list Subscription.t,
    f_category filters = None \/ f_billing_cycle filters = None ->
    subscriptions ops filters allSubscriptions = [].
Proof.
  intros allSubscriptions H.
  apply Permutation_nil. symmetry.
  rewrite displayed_rearranged.
  assert (E : List.filter (Props.passes ops filters) allSubscriptions = []).
  { induction allSubscriptions as [|s l IH]; [reflexivity|].
    cbn [List.filter]. rewrite IH.
    assert (Hp : Props.passes ops filters s = false).
    { unfold Props.passes. destruct H as [-> | ->]; cbn [is_string orb];
        rewrite ?andb_false_r; reflexivity. }
    now rewrite Hp. }
  now rewrite E.
Qed.

End Displayed.

Lemma subscriptions_missing_key_witness :
  SubscriptionList.subscriptions MoreSamples.plainOps MoreSamples.noFilters Samples.playlist
  = [].
Proof.
  apply (subscriptions_missing_key MoreSamples.plainOps MoreSamples.noFilters
           Samples.playlist).
  left. reflexivity.
Defined.

(** X16: with no search text, category and billing cycle [all], a minimum
    price of at most 0 and a maximum price of at least 1000, every active
    subscription is displayed, those costing more than the maximum
    included: the price range is only looked at once one of its ends has
    moved. *)
Theorem subscriptions_all_active :
  forall (ops : SubscriptionList.StringOps) (filters : SubscriptionList.Filters)
         (allSubscriptions : list Subscription.t) (price_min price_max : Q),
    SubscriptionList.f_search filters = None
    \/ SubscriptionList.f_search filters = Some ""%string ->
    SubscriptionList.f_category filters = Some "all"%string ->
    SubscriptionList.f_billing_cycle filters = Some "all"%string ->
    SubscriptionList.f_price_min filters = Some price_min ->
    SubscriptionList.f_price_max filters = Some price_max ->
    (price_min <= 0)%Q ->
    (1000 <= price_max)%Q ->
    Permutation (SubscriptionList.subscriptions ops filters allSubscriptions)
      (activeSubs allSubscriptions).
Proof.
  intros ops filters allSubscriptions price_min price_max Hs Hc Hb Hmin Hmax Hlo Hhi.
  rewrite displayed_rearranged.
  unfold activeSubs.
  erewrite List.filter_ext; [reflexivity|].
  intros s. unfold Props.passes. rewrite Hc, Hb, Hmin, Hmax.
  cbn [SubscriptionList.is_string SubscriptionList.opt_gt SubscriptionList.opt_lt].
  apply Qle_bool_iff in Hlo. apply Qle_bool_iff in Hhi. rewrite Hlo, Hhi.
  destruct Hs as [-> | ->]; cbn; now rewrite !andb_true_r.
Qed.

Lemma subscriptions_all_active_witness :
  Permutation
    (SubscriptionList.subscriptions MoreSamples.plainOps SubscriptionList.defaultFilters
       Samples.playlist)
    (activeSubs Samples.playlist).
Proof.
  apply (subscriptions_all_active MoreSamples.plainOps SubscriptionList.defaultFilters
           Samples.playlist 0 1000);
    solve [right; reflexivity | reflexivity | discriminate].
Defined.

(** ** Adding a subscription *)

Section Adding.

Import AddSubscription.
Local Open Scope Z_scope.

Lemma PLAN_LIMITS_unlisted (plan : string) :
  ~ In plan Props.known_plans -> PLAN_LIMITS !! plan = None.
Proof.
  intros H. unfold PLAN_LIMITS, Props.known_plans in *. cbn [In] in H.
  rewrite !lookup_insert_ne by (intros E; apply H; tauto).
  apply lookup_empty.
Qed.

Lemma PLAN_LIMITS_listed (plan : string) (limit : Z) :
  PLAN_LIMITS !! plan = Some limit ->
  In plan Props.known_plans /\ 10 <= limit <= 30.
Proof.
  intros H.
  destruct (in_dec String.string_dec plan Props.known_plans) as [Hin|Hout].
  - split; [exact Hin|].
    cbn in Hin. destruct Hin as [<-|[<-|[<-|[]]]]; vm_compute in H;
      injection H as <-; lia.
  - rewrite (PLAN_LIMITS_unlisted plan Hout) in H. discriminate.
Qed.

(** X17: adding a subscription succeeds exactly when the user is signed
    in, neither query failed, the count of active subscriptions is below
    the limit of the plan if the plan has one, and the insertion did not
    fail; the row returned is the inserted one. *)
Theorem addSubscription_returns :
  forall (b : Backend) (data : Subscription.t),
    addSubscription b = Returns data
    <-> user b <> None
        /\ profileError b = None
        /\ countError b = None
        /\ (forall limit, PLAN_LIMITS !! plan_of b = Some limit -> currentCount b < limit)
        /\ insertError b = None
        /\ data = inserted b.
Proof.
  intros b data. unfold addSubscription. cbv zeta.
  destruct (user b) as [u|]; [|split; [discriminate|intros [H _]; congruence]].
  destruct (profileError b) as [e|];
    [split; [discriminate|intros (_ & H & _); discriminate]|].
  destruct (countError b) as [e|];
    [split; [discriminate|intros (_ & _ & H & _); discriminate]|].
  destruct (PLAN_LIMITS !! plan_of b) as [l|].
  - destruct (Z.leb_spec l (currentCount b)) as [Hge|Hlt].
    + split; [discriminate|]. intros (_ & _ & _ & H & _).
      specialize (H l eq_refl). lia.
    + destruct (insertError b) as [e|].
      * split; [discriminate|intros (_ & _ & _ & _ & H & _); discriminate].
      * split.
        -- intros [= <-]. repeat split; try congruence.
           all: intros limit [= <-]; exact Hlt.
        -- intros (_ & _ & _ & _ & _ & ->). reflexivity.
  - destruct (insertError b) as [e|].
    + split; [discriminate|intros (_ & _ & _ & _ & H & _); discriminate].
    + split.
      * intros [= <-]. repeat split; congruence.
      * intros (_ & _ & _ & _ & _ & ->). reflexivity.
Qed.

(** X18: the limit error is thrown exactly when the user is signed in,
    neither query failed, the plan is one of the three listed ones and the
    count of active subscriptions has reached its limit; the error names
    that plan and that limit, a number between 10 and 30. *)
Theorem addSubscription_limit :
  forall (b : Backend) (limit : Z) (plan : string),
    addSubscription b = Throws (LimitReached limit plan)
    <-> user b <> None
        /\ profileError b = None
        /\ countError b = None
        /\ plan = plan_of b
        /\ PLAN_LIMITS !! plan = Some limit
        /\ In plan Props.known_plans
        /\ 10 <= limit <= currentCount b.
Proof.
  intros b limit plan. unfold addSubscription. cbv zeta.
  destruct (user b) as [u|]; [|split; [discriminate|intros [H _]; congruence]].
  destruct (profileError b) as [e|];
    [split; [discriminate|intros (_ & H & _); discriminate]|].
  destruct (countError b) as [e|];
    [split; [discriminate|intros (_ & _ & H & _); discriminate]|].
  destruct (PLAN_LIMITS !! plan_of b) as [l|] eqn:Hl.
  - destruct (PLAN_LIMITS_listed _ _ Hl) as [Hin Hrange].
    destruct (Z.leb_spec l (currentCount b)) as [Hge|Hlt].
    + split.
      * intros [= <- <-]. cbn [default from_option]. unfold id.
        repeat split; try congruence; try lia; exact Hin.
      * intros (_ & _ & _ & -> & H & _). rewrite Hl in H. injection H as <-.
        reflexivity.
    + destruct (insertError b) as [e|];
        (split; [discriminate|]);
        intros (_ & _ & _ & -> & H & _ & Hc); rewrite Hl in H; injection H as <-; lia.
  - destruct (insertError b) as [e|];
      (split; [discriminate|]);
      intros (_ & _ & _ & -> & H & _); rewrite Hl in H; discriminate.
Qed.

(** X19: for a plan name that is not one of the three listed ones, the
    limit error is never thrown, whatever the count of active
    subscriptions. *)
Theorem addSubscription_unlisted_plan :
  forall (b : Backend),
    ~ In (plan_of b) Props.known_plans ->
    forall (limit : Z) (plan : string),
      addSubscription b <> Throws (LimitReached limit plan).
Proof.
  intros b Hout limit plan. unfold addSubscription. cbv zeta.
  rewrite (PLAN_LIMITS_unlisted _ Hout).
  destruct (user b); [|discriminate].
  destruct (profileError b); [discriminate|].
  destruct (countError b); [discriminate|].
  destruct (insertError b); discriminate.
Qed.

End Adding.

Lemma addSubscription_unlisted_plan_witness :
  AddSubscription.addSubscription MoreSamples.enterprise
  <> AddSubscription.Throws (AddSubscription.LimitReached 30 "Enterprise").
Proof.
  apply (addSubscription_unlisted_plan MoreSamples.enterprise).
  cbn. intuition discriminate.
Defined.

Example unlisted_plan_sample :
  AddSubscription.addSubscription MoreSamples.enterprise
  = AddSubscription.Returns Samples.blank.
Proof. reflexivity. Qed.

(** ** The smart notifications *)

Section Notifications.

Import SmartNotifications UsagePatterns.
Local Open Scope Z_scope.

(** Each scoring block adds its points to the running score. *)
Lemma ratingScore_fst (subscription : Subscription.t) (sc : Z) (rs : list string) :
  fst (ratingScore subscription (sc, rs)) = sc + fst (ratingScore subscription (0, [])).
Proof.
  unfold ratingScore.
  repeat match goal with
         | |- context [if ?c then _ else _] => destruct c
         end; cbn [fst]; lia.
Qed.

Lemma costPerUseScore_fst (costPerUse : number) (sc : Z) (rs : list string) :
  fst (costPerUseScore costPerUse (sc, rs)) = sc + fst (costPerUseScore costPerUse (0, [])).
Proof.
  unfold costPerUseScore.
  repeat match goal with
         | |- context [if ?c then _ else _] => destruct c
         end; cbn [fst]; lia.
Qed.

Lemma trendScore_fst (valueTrend : string) (sc : Z) (rs : list string) :
  fst (trendScore valueTrend (sc, rs)) = sc + fst (trendScore valueTrend (0, [])).
Proof.
  unfold trendScore.
  repeat match goal with
         | |- context [if ?c then _ else _] => destruct c
         end; cbn [fst]; lia.
Qed.

Lemma score_blocks (subscription : Subscription.t) (usageFrequency valueTrend : string)
    (costPerUse : number) :
  score subscription usageFrequency valueTrend costPerUse
  = fst (usageScore usageFrequency (0, []))
    + fst (ratingScore subscription (0, []))
    + fst (costPerUseScore costPerUse (0, []))
    + fst (trendScore valueTrend (0, [])).
Proof.
  unfold score, scoring.
  destruct (usageScore usageFrequency (0, [])) as [s1 r1] eqn:E1.
  destruct (ratingScore subscription (s1, r1)) as [s2 r2] eqn:E2.
  destruct (costPerUseScore costPerUse (s2, r2)) as [s3 r3] eqn:E3.
  rewrite trendScore_fst.
  change s3 with (fst (s3, r3)). rewrite <- E3, costPerUseScore_fst.
  change s2 with (fst (s2, r2)). rewrite <- E2, ratingScore_fst.
  cbn [fst]. lia.
Qed.

Lemma ratingScore_bounds (subscription : Subscription.t) :
  ((forall r, Subscription.value_rating subscription = Some r -> 0 <= r) ->
   -20 <= fst (ratingScore subscription (0, [])))
  /\ ((forall r, Subscription.value_rating subscription = Some r -> r <= 5) ->
      fst (ratingScore subscription (0, [])) <= 20).
Proof.
  unfold ratingScore, Js.truthy.
  destruct (Subscription.value_rating subscription) as [r|]; [|cbn; split; intros; lia].
  cbn [default from_option]. unfold id.
  split; intros H; specialize (H r eq_refl);
    destruct (Z.eqb_spec r 0); cbn [negb fst]; try lia;
    repeat case_if; cbn [fst]; lia.
Qed.

Lemma trendScore_bounds (valueTrend : string) :
  -15 <= fst (trendScore valueTrend (0, [])) <= 15.
Proof.
  unfold trendScore.
  repeat match goal with
         | |- context [if ?c then _ else _] => destruct c
         end; cbn [fst]; lia.
Qed.

Lemma costPerUseScore_bounds (costPerUse : number) :
  -20 <= fst (costPerUseScore costPerUse (0, [])) <= 20
  /\ (gt costPerUse 20 = false -> 0 <= fst (costPerUseScore costPerUse (0, []))).
Proof.
  unfold costPerUseScore.
  destruct (lt costPerUse 1); [cbn [fst]; split; intros; lia|].
  destruct (lt costPerUse 5); [cbn [fst]; split; intros; lia|].
  destruct (gt costPerUse 20); cbn [fst]; split; intros; (lia || discriminate).
Qed.

Lemma differenceInDays_unused (now : Date) (subscription : Subscription.t) :
  Subscription.last_used_date subscription = None ->
  calculateUsageFrequency now subscription = "never"%string
  /\ calculateCostPerUse now subscription = Infinity.
Proof.
  intros H. unfold calculateUsageFrequency, calculateCostPerUse. now rewrite H.
Qed.

(** The usage frequencies that pass the second rule of the notifications
    earn at least 15 points. *)
Lemma usageScore_recent (now : Date) (subscription : Subscription.t) :
  (String.eqb (calculateUsageFrequency now subscription) "never"
   || String.eqb (calculateUsageFrequency now subscription) "rarely") = false ->
  15 <= fst (usageScore (calculateUsageFrequency now subscription) (0, [])).
Proof.
  unfold calculateUsageFrequency.
  destruct (Subscription.last_used_date subscription) as [lastUsed|];
    [|discriminate].
  cbv zeta. repeat case_if; cbn; intros; (lia || discriminate).
Qed.

Lemma confidence_keep (total : Z) :
  negb (Qle_bool (Qmin (9 # 10) (inject_Z total / 50)) (8 # 10)) = true <-> 40 < total.
Proof.
  rewrite negb_true_iff, <- not_true_iff_false, Qle_bool_iff, Q.min_le_iff.
  unfold Qle, Qdiv, Qmult, Qinv, inject_Z. cbn. lia.
Qed.

Lemma confidence_cancel (total : Z) :
  negb (Qle_bool (Qmin (9 # 10) (inject_Z (Z.abs total) / 30)) (7 # 10)) = true
  <-> 21 < Z.abs total.
Proof.
  rewrite negb_true_iff, <- not_true_iff_false, Qle_bool_iff, Q.min_le_iff.
  unfold Qle, Qdiv, Qmult, Qinv, inject_Z. cbn. lia.
Qed.

(** The four rules of [createNotificationFromPattern], read on the score of
    the subscription. *)
Lemma notification_of_unfold (now : Date) (s : Subscription.t) :
  Props.notification_of now s
  = let pattern := analyzeSubscriptionPattern now s in
    if 40 <? Props.score_at now s
    then Some (mkSmartNotification (Subscription.id s) high_value low ExcellentValue
                 act_keep (p_confidence pattern))
    else if String.eqb (usage_frequency pattern) "never"
            || String.eqb (usage_frequency pattern) "rarely"
    then Some (mkSmartNotification (Subscription.id s) unused high NotUsedRecently
                 act_cancel (p_confidence pattern))
    else if gt (cost_per_use pattern) 20
    then Some (mkSmartNotification (Subscription.id s) expensive medium
                 (CostsPerUse (cost_per_use pattern)) act_review (p_confidence pattern))
    else if (Props.score_at now s <? 10) && (21 <? Z.abs (Props.score_at now s))
    then Some (mkSmartNotification (Subscription.id s) low_value high
                 MayNotBeWorthKeeping act_cancel (p_confidence pattern))
    else None.
Proof.
  unfold Props.notification_of, createNotificationFromPattern. cbv zeta.
  set (pattern := analyzeSubscriptionPattern now s).
  assert (Hk : (match recommendation pattern with keep => true | _ => false end
                && negb (Qle_bool (p_confidence pattern) (8 # 10)))
               = (40 <? Props.score_at now s)).
  { unfold pattern, analyzeSubscriptionPattern, Props.score_at. cbv zeta.
    cbn [recommendation p_confidence]. rewrite generateRecommendation_unfold.
    set (total := score _ _ _ _).
    destruct (Z.leb_spec 40 total) as [H40|H40].
    - cbn [res_recommendation confidence andb].
      apply eq_iff_eq_true. rewrite confidence_keep, Z.ltb_lt. reflexivity.
    - destruct (Z.leb_spec 10 total); cbn [res_recommendation andb];
        symmetry; apply Z.ltb_ge; lia. }
  assert (Hc : (match recommendation pattern with cancel => true | _ => false end
                && negb (Qle_bool (p_confidence pattern) (7 # 10)))
               = ((Props.score_at now s <? 10) && (21 <? Z.abs (Props.score_at now s)))).
  { unfold pattern, analyzeSubscriptionPattern, Props.score_at. cbv zeta.
    cbn [recommendation p_confidence]. rewrite generateRecommendation_unfold.
    set (total := score _ _ _ _).
    destruct (Z.leb_spec 40 total) as [H40|H40].
    - cbn [res_recommendation andb]. symmetry. apply andb_false_iff. left.
      apply Z.ltb_ge. lia.
    - destruct (Z.leb_spec 10 total) as [H10|H10]; cbn [res_recommendation confidence andb].
      + symmetry. apply andb_false_iff. left. apply Z.ltb_ge. lia.
      + apply eq_iff_eq_true.
        rewrite confidence_cancel, andb_true_iff, Z.ltb_lt, Z.ltb_lt. tauto. }
  rewrite Hk, Hc. reflexivity.
Qed.

(** X20: a subscription is announced as high value exactly when its score
    is above 40; at a score of exactly 40 the verdict is keep, with a
    confidence of 0.8, and the rule does not fire. *)
Theorem high_value_above_40 :
  forall (now : Date) (s : Subscription.t),
    (exists n, Props.notification_of now s = Some n /\ n_type n = high_value)
    <-> 40 < Props.score_at now s.
Proof.
  intros now s. rewrite notification_of_unfold. cbv zeta.
  destruct (Z.ltb_spec 40 (Props.score_at now s)) as [H|H].
  - split; [intros _; exact H|]. intros _. eexists. split; reflexivity.
  - split; [|lia]. intros (n & Hn & Ht).
    repeat match type of Hn with
           | (if ?c then _ else _) = _ => destruct c
           end; try discriminate; injection Hn as <-; discriminate.
Qed.

(** X21: a subscription that was never used and is rated 5 or less (or
    not rated) gets the verdict cancel with a confidence of at least one
    half, and is announced as unused, with high priority and the advice to
    cancel. *)
Theorem never_used_notification :
  forall (now : Date) (s : Subscription.t),
    Subscription.last_used_date s = None ->
    (forall r, Subscription.value_rating s = Some r -> r <= 5) ->
    recommendation (analyzeSubscriptionPattern now s) = cancel
    /\ (1 # 2 <= p_confidence (analyzeSubscriptionPattern now s))%Q
    /\ Props.notification_of now s
       = Some (mkSmartNotification (Subscription.id s) unused high NotUsedRecently
                 act_cancel (p_confidence (analyzeSubscriptionPattern now s))).
Proof.
  intros now s Hnone Hrating.
  destruct (differenceInDays_unused now s Hnone) as [Hu Hc].
  assert (Hscore : Props.score_at now s <= -15).
  { unfold Props.score_at. rewrite score_blocks, Hu, Hc.
    pose proof (proj2 (ratingScore_bounds s) Hrating).
    pose proof (trendScore_bounds (analyzeValueTrend now s)).
    change (fst (usageScore "never" (0, []))) with (-30).
    change (fst (costPerUseScore Infinity (0, []))) with (-20).
    lia. }
  split; [|split].
  - unfold analyzeSubscriptionPattern. cbv zeta. cbn [recommendation].
    rewrite generateRecommendation_unfold. fold (Props.score_at now s).
    destruct (Z.leb_spec 40 (Props.score_at now s)); [lia|].
    destruct (Z.leb_spec 10 (Props.score_at now s)); [lia|]. reflexivity.
  - unfold analyzeSubscriptionPattern. cbv zeta. cbn [p_confidence].
    rewrite generateRecommendation_unfold. fold (Props.score_at now s).
    destruct (Z.leb_spec 40 (Props.score_at now s)); [lia|].
    destruct (Z.leb_spec 10 (Props.score_at now s)); [lia|].
    cbn [confidence]. apply Q.min_glb; [discriminate|].
    unfold Qle, Qdiv, Qmult, Qinv, inject_Z. cbn. lia.
  - rewrite notification_of_unfold. cbv zeta.
    destruct (Z.ltb_spec 40 (Props.score_at now s)); [lia|].
    unfold analyzeSubscriptionPattern at 1 2. cbv zeta. cbn [usage_frequency].
    rewrite Hu. reflexivity.
Qed.

Lemma low_value_unreachable (now : Date) (s : Subscription.t) (n : SmartNotification) :
  (forall r, Subscription.value_rating s = Some r -> 0 <= r) ->
  Props.notification_of now s = Some n -> n_type n <> low_value.
Proof.
  intros Hrating. rewrite notification_of_unfold. cbv zeta.
  destruct (40 <? Props.score_at now s); [intros [= <-]; discriminate|].
  unfold analyzeSubscriptionPattern at 1 2 3 4. cbv zeta.
  cbn [usage_frequency cost_per_use].
  destruct (String.eqb (calculateUsageFrequency now s) "never"
            || String.eqb (calculateUsageFrequency now s) "rarely") eqn:Hu;
    [intros [= <-]; discriminate|].
  destruct (gt (calculateCostPerUse now s) 20) eqn:Hc; [intros [= <-]; discriminate|].
  assert (Hscore : -20 <= Props.score_at now s).
  { unfold Props.score_at. rewrite score_blocks.
    pose proof (usageScore_recent now s Hu).
    pose proof (proj1 (ratingScore_bounds s) Hrating).
    pose proof (proj2 (costPerUseScore_bounds (calculateCostPerUse now s)) Hc).
    pose proof (trendScore_bounds (analyzeValueTrend now s)).
    lia. }
  destruct (Z.ltb_spec (Props.score_at now s) 10) as [H10|H10]; [|discriminate].
  destruct (Z.ltb_spec 21 (Z.abs (Props.score_at now s))); [lia|discriminate].
Qed.

Lemma collect_In (patterns : list UsagePattern) (n : SmartNotification) :
  In n (collect patterns)
  <-> exists pattern, In pattern patterns /\ createNotificationFromPattern pattern = Some n.
Proof.
  induction patterns as [|p l IH]; cbn [collect In].
  - split; [tauto|intros (p & [] & _)].
  - destruct (createNotificationFromPattern p) as [m|] eqn:E; cbn [In]; rewrite IH.
    + split.
      * intros [<-|(q & Hq & Hn)]; [exists p; tauto|exists q; tauto].
      * intros (q & [<-|Hq] & Hn); [left; congruence|right; exists q; tauto].
    + split.
      * intros (q & Hq & Hn). exists q; tauto.
      * intros (q & [<-|Hq] & Hn); [congruence|exists q; tauto].
Qed.

(** X22: the notifications returned are exactly those of the subscriptions
    the query answered, one rule at most firing for each; none is returned
    when nobody is signed in, when the query failed or when it answered
    nothing. *)
Theorem generateSmartNotifications_members :
  forall (now : Date) (user : option string) (data : option (list Subscription.t))
         (error : option string) (n : SmartNotification),
    In n (generateSmartNotifications now user data error)
    <-> user <> None
        /\ error = None
        /\ exists subscriptions s,
             data = Some subscriptions
             /\ In s subscriptions
             /\ Props.notification_of now s = Some n.
Proof.
  intros now user data error n. unfold generateSmartNotifications.
  rewrite sort_In, collect_In. unfold analyzeUsagePatterns.
  destruct user as [u|]; [|split; [intros (p & [] & _)|intros [H _]; congruence]].
  destruct error as [e|]; [split; [intros (p & [] & _)|intros (_ & H & _); discriminate]|].
  destruct data as [subscriptions|];
    [|split; [intros (p & [] & _)|intros (_ & _ & l & s & H & _); discriminate]].
  split.
  - intros (p & Hp & Hn). apply in_map_iff in Hp. destruct Hp as (s & <- & Hs).
    repeat split; try congruence. exists subscriptions, s. tauto.
  - intros (_ & _ & l & s & [= <-] & Hs & Hn).
    exists (analyzeSubscriptionPattern now s). split; [|exact Hn].
    apply in_map_iff. exists s. tauto.
Qed.

Lemma compareNotifications_order (a b : SmartNotification) :
  Qle_bool (compareNotifications a b) 0 = Props.notification_order a b.
Proof.
  unfold compareNotifications, Props.notification_order. cbv zeta.
  set (pa := priorityOrder (n_priority a)). set (pb := priorityOrder (n_priority b)).
  apply eq_iff_eq_true. rewrite orb_true_iff, andb_true_iff, Z.ltb_lt, Z.eqb_eq.
  destruct (Z.eqb_spec (pb - pa) 0) as [E|E]; cbn [negb].
  - rewrite !Qle_bool_iff. split; [intros H; right; split; [lia|lra]|].
    intros [H|[_ H]]; [lia|lra].
  - rewrite !Qle_bool_iff. change 0%Q with (inject_Z 0). rewrite <- Zle_Qle.
    split; [intros H; left; lia|]. intros [H|[H _]]; lia.
Qed.

(** X23: the notifications come highest priority first and, within a
    priority, highest confidence first. *)
Theorem generateSmartNotifications_order :
  forall (now : Date) (user : option string) (data : option (list Subscription.t))
         (error : option string),
    Props.adjacent Props.notification_order
      (generateSmartNotifications now user data error) = true.
Proof.
  intros now user data error. unfold generateSmartNotifications.
  rewrite <- (sort_adjacent compareNotifications
                (collect (analyzeUsagePatterns now user data error))).
  - apply adjacent_ext. intros a b. symmetry. apply compareNotifications_order.
  - intros a b. rewrite !compareNotifications_order.
    unfold Props.notification_order.
    rewrite orb_false_iff, andb_false_iff, orb_true_iff, andb_true_iff.
    rewrite !Z.ltb_lt, !Z.ltb_ge, !Z.eqb_eq, !Z.eqb_neq.
    intros [Hlt [Hne|Hc]]; [left; lia|].
    destruct (Z.eq_dec (priorityOrder (n_priority b)) (priorityOrder (n_priority a)))
      as [E|E]; [right; split; [lia|]|left; lia].
    apply Qle_bool_total. exact Hc.
Qed.

(** X24: while ratings are not negative, no subscription is ever announced
    as low value: the rules before it take every verdict cancel that is
    confident enough, so the fourth rule never fires. *)
Theorem low_value_never_notified :
  forall (now : Date) (user : option string) (subscriptions : list Subscription.t)
         (error : option string) (n : SmartNotification),
    (forall s r, In s subscriptions -> Subscription.value_rating s = Some r -> 0 <= r) ->
    In n (generateSmartNotifications now user (Some subscriptions) error) ->
    n_type n <> low_value.
Proof.
  intros now user subscriptions error n Hrating Hn.
  unfold generateSmartNotifications in Hn.
  apply sort_In, collect_In in Hn. destruct Hn as (p & Hp & Hn).
  unfold analyzeUsagePatterns in Hp.
  destruct user as [u|]; [|destruct Hp]. destruct error as [e|]; [destruct Hp|].
  apply in_map_iff in Hp. destruct Hp as (s & <- & Hs).
  apply (low_value_unreachable now s n); [|exact Hn].
  intros r. apply Hrating. exact Hs.
Qed.

End Notifications.

Lemma never_used_notification_witness :
  UsagePatterns.recommendation
    (UsagePatterns.analyzeSubscriptionPattern Samples.now Samples.blank)
  = SmartNotifications.cancel
  /\ (1 # 2 <= UsagePatterns.p_confidence
                 (UsagePatterns.analyzeSubscriptionPattern Samples.now Samples.blank))%Q
  /\ Props.notification_of Samples.now Samples.blank
     = Some (UsagePatterns.mkSmartNotification "s0" UsagePatterns.unused
               UsagePatterns.high UsagePatterns.NotUsedRecently UsagePatterns.act_cancel
               (UsagePatterns.p_confidence
                  (UsagePatterns.analyzeSubscriptionPattern Samples.now Samples.blank))).
Proof.
  apply (never_used_notification Samples.now Samples.blank).
  - reflexivity.
  - intros r H. discriminate H.
Defined.

Lemma low_value_never_notified_witness :
  List.Forall (fun n => UsagePatterns.n_type n <> UsagePatterns.low_value)
    (UsagePatterns.generateSmartNotifications Samples.now (Some "u1"%string)
       (Some [MoreSamples.neglected; Samples.blank]) None).
Proof.
  apply List.Forall_forall. intros n.
  apply (low_value_never_notified Samples.now (Some "u1"%string)
           [MoreSamples.neglected; Samples.blank] None n).
  intros s r [<-|[<-|[]]]; cbn; intros [= <-]; lia.
Defined.

Example generateSmartNotifications_sample :
  map UsagePatterns.n_type
    (UsagePatterns.generateSmartNotifications Samples.now (Some "u1"%string)
       (Some [MoreSamples.neglected; Samples.blank]) None)
  = [UsagePatterns.unused; UsagePatterns.unused].
Proof. vm_compute. reflexivity. Qed.

(** ** The dashboard figures *)

Section Figures.

Import Dashboard.
Local Open Scope Q_scope.

(** X26: the spending trend is positive exactly when the total monthly
    cost is positive and above last month's, also when last month's cost
    is zero or negative and the division is skipped. *)
Theorem spendingTrend_positive :
  forall total last : Q,
    0 < spendingTrend total last <-> last < total /\ 0 < total.
Proof.
  intros total last. unfold spendingTrend.
  destruct (Qle_bool last 0) eqn:Hl; cbn [negb].
  - apply Qle_bool_iff in Hl.
    destruct (Qle_bool total 0) eqn:Ht; cbn [negb].
    + apply Qle_bool_iff in Ht. split; [intros H; lra|intros [_ H]; lra].
    + assert (0 < total).
      { destruct (Qlt_le_dec 0 total) as [H|H]; [exact H|].
        apply Qle_bool_iff in H. congruence. }
      split; [intros _; split; lra|intros _; reflexivity].
  - assert (Hpos : 0 < last).
    { destruct (Qlt_le_dec 0 last) as [H|H]; [exact H|].
      apply Qle_bool_iff in H. congruence. }
    set (x := (total - last) / last).
    assert (Hx : x * last == total - last).
    { unfold x. field. intros E. rewrite E in Hpos. discriminate. }
    split.
    + intros H. assert (0 < x) by lra.
      assert (0 < x * last) by (apply Qmult_lt_0_compat; assumption).
      split; lra.
    + intros [H _].
      assert (0 < x).
      { unfold x. apply Qlt_shift_div_l; [exact Hpos|]. lra. }
      lra.
Qed.

End Figures.

(** ** The two weeks the renewals alert compares *)

(** X27: no subscription is counted on both sides of the comparison of
    the renewals alert: a renewal listed as upcoming, even one due up to a
    day before [now], falls after the close of the previous week, so it
    adds nothing to [lastWeekCost]. *)
Theorem upcoming_not_last_week :
  forall (now : Date) (subs : list Subscription.t),
    forallb (fun s => negb (Spec.in_last_week now (Subscription.next_renewal_date s)))
      (upcomingRenewals now subs) = true
    /\ (lastWeekCost now (upcomingRenewals now subs) == 0)%Q.
Proof.
  intros now subs.
  assert (H : forall s, In s (upcomingRenewals now subs) ->
                        Spec.in_last_week now (Subscription.next_renewal_date s) = false).
  { intros s Hs. unfold upcomingRenewals in Hs. apply filter_In in Hs.
    destruct Hs as [_ Hs]. cbv zeta in Hs. apply andb_true_iff in Hs.
    destruct Hs as [Hlo _]. apply Z.leb_le in Hlo.
    unfold Spec.in_last_week. apply andb_false_iff. right. apply Z.leb_gt.
    revert Hlo.
    unfold differenceInDays, lastWeekEnd, lastWeekStart, startOfWeek, subWeeks, addWeeks,
      addDays, getDay, dayNumber, msPerDay.
    destruct (Z.ltb_spec ((((now + - (1) * 7 * 86400000) / 86400000) + 4) mod 7) 1);
      intros Hlo; Z.to_euclidean_division_equations; lia. }
  split.
  - apply forallb_forall. intros s Hs. now rewrite (H s Hs).
  - unfold lastWeekCost.
    replace (List.filter _ (upcomingRenewals now subs)) with (@nil Subscription.t);
      [reflexivity|].
    symmetry. induction (upcomingRenewals now subs) as [|s l IH]; [reflexivity|].
    cbn [List.filter]. cbv zeta.
    pose proof (H s (or_introl eq_refl)) as Hs. unfold Spec.in_last_week in Hs.
    rewrite Hs. apply IH. intros s' Hs'. apply H. now right.
Qed.
